(** * Covr OCR parse service: title/author extraction and verification

    A shallow embedding of the parse service of the Covr repository
    ([ocr_parse_service/app]): the line normaliser ([normalize.py]), the
    heuristic ranker ([ranker.py]), the similarity primitives
    ([similarity.py]) and the verification orchestrator with its two
    providers ([verifier/]).

    Modelling choices.
    - Python [float] is IEEE binary64; it is modelled by Rocq's primitive
      floats, so every score below is computed bit for bit as CPython
      computes it.  Python's [max]/[min] keep their first argument on ties
      and on NaN, which [py_max]/[py_min] reproduce.
    - Python [int] is unbounded; it is modelled by [Z], and its
      conversion to float rounds to the nearest float or raises
      [OverflowError].
    - Python [str] is modelled by [string].  The model covers ASCII
      texts: for them the character classes, the case mappings, the
      white space and the lengths below are Python's.  Texts with other
      characters are outside the model (a byte above 127 is read as a
      caseless symbol that is neither a letter nor white space, which is
      not what Python makes of the character it belongs to).
    - Exceptions are values: a computation that may raise returns a [res].
      Inside a [try] block whose handler keeps the message only, the
      outcome is an [attempt].
    - In-place mutation ([author_score] rewrites [line.text]) is modelled by
      returning the updated record; every list position holds a distinct
      object, as the lists built by [normalize_ocr] do.
    - The HTTP services are an oracle: a function from the index of a
      request and the request to its outcome (a timeout, a network error or
      a response).  The body of a response is any JSON value, or a text
      that does not decode. *)

From Stdlib Require Import List String Ascii Bool Arith ZArith Lia.
From Stdlib Require Import Floats.
From Stdlib Require Import DecimalString.
Import ListNotations.

Set Warnings "-inexact-float,-register-all".

Local Open Scope string_scope.
Local Open Scope list_scope.

(* ===================================================================== *)
(** * Python primitives *)
(* ===================================================================== *)

Module Py.

(** Exceptions the modelled code can raise. *)
Inductive exn : Type :=
| IndexError
| ValidationError
| OverflowError.

(** Outcome of a computation that may raise. *)
Inductive res (A : Type) : Type :=
| Ok (a : A)
| Raise (e : exn).
Arguments Ok {A} a.
Arguments Raise {A} e.

Definition bind {A B : Type} (m : res A) (k : A -> res B) : res B :=
  match m with
  | Ok a => k a
  | Raise e => Raise e
  end.

(** [max(a, b)]: the first maximal item, [b] only when [b > a]. *)
Definition py_max (a b : float) : float :=
  if PrimFloat.ltb a b then b else a.

(** [min(a, b)]: the first minimal item, [b] only when [b < a]. *)
Definition py_min (a b : float) : float :=
  if PrimFloat.ltb b a then b else a.

(** [a > b], [a >= b] on floats. *)
Definition gt (a b : float) : bool := PrimFloat.ltb b a.
Definition ge (a b : float) : bool := PrimFloat.leb b a.

(** Truth value of a float: false exactly for [0.0] and [-0.0]. *)
Definition truthy (x : float) : bool := negb (PrimFloat.eqb x 0%float).

(** Truth value of an optional float ([None] is false). *)
Definition truthy_opt (x : option float) : bool :=
  match x with
  | Some v => truthy v
  | None => false
  end.

(** [a or b] on optional floats. *)
Definition py_or (a b : option float) : option float :=
  if truthy_opt a then a else b.

(** The float nearest to an integer, ties to the even mantissa. *)
Definition nearest_float (z : Z) : float :=
  SF2Prim (binary_normalize prec emax z 0 false).

(** Conversion of a Python int to float, as an arithmetic operator applies
    it to an int operand: the nearest float, or [OverflowError] when the
    int rounds beyond the largest float, that is from
    [2^1024 - 2^970] on. *)
Definition float_of_Z (z : Z) : res float :=
  if (Z.abs z <? 2 ^ 1024 - 2 ^ 970)%Z then Ok (nearest_float z)
  else Raise OverflowError.

(** The same for a length ([len(...)] of a list or a string), which is
    far below that bound. *)
Definition float_of_nat (n : nat) : float := nearest_float (Z.of_nat n).

(** A loop that builds a list and stops at the first exception. *)
Fixpoint map_res {A B : Type} (f : A -> res B) (l : list A) : res (list B) :=
  match l with
  | [] => Ok []
  | a :: rest =>
      match f a with
      | Ok b =>
          match map_res f rest with
          | Ok bs => Ok (b :: bs)
          | Raise e => Raise e
          end
      | Raise e => Raise e
      end
  end.

(** [sum(xs)]: left to right from the int [0]. *)
Definition py_sum (xs : list float) : float :=
  fold_left PrimFloat.add xs 0%float.

(** [max(xs, default=d)]. *)
Definition py_max_list (xs : list float) (d : float) : float :=
  match xs with
  | [] => d
  | x :: rest => fold_left py_max rest x
  end.

(** [str(n)] for a non-negative int. *)
Definition str_of_nat (n : nat) : string :=
  NilZero.string_of_uint (Nat.to_uint n).

End Py.
Export Py.

Declare Scope res_scope.
Notation "x <- m ;; k" := (bind m (fun x => k))
  (at level 61, m at next level, right associativity) : res_scope.
Notation "' pat <- m ;; k" := (bind m (fun x => match x with pat => k end))
  (at level 61, pat pattern, m at next level, right associativity) : res_scope.
Local Open Scope res_scope.

(* ===================================================================== *)
(** * Strings *)
(* ===================================================================== *)

Module Str.

Definition code (c : ascii) : nat := nat_of_ascii c.

Definition between (lo hi : nat) (c : ascii) : bool :=
  (lo <=? code c)%nat && (code c <=? hi)%nat.

(** [c.isupper()], [c.islower()], [c.isalpha()], [c.isdigit()]. *)
Definition is_upper (c : ascii) : bool := between 65 90 c.
Definition is_lower (c : ascii) : bool := between 97 122 c.
Definition is_alpha (c : ascii) : bool := is_upper c || is_lower c.
Definition is_digit (c : ascii) : bool := between 48 57 c.

(** [c.isspace()]: tab, newline, vertical tab, form feed, carriage return,
    the four separators 0x1c-0x1f and the space. *)
Definition is_space (c : ascii) : bool :=
  between 9 13 c || between 28 31 c || (code c =? 32)%nat.

Definition to_upper (c : ascii) : ascii :=
  if is_lower c then ascii_of_nat (code c - 32) else c.
Definition to_lower (c : ascii) : ascii :=
  if is_upper c then ascii_of_nat (code c + 32) else c.

Definition chars (s : string) : list ascii := list_ascii_of_string s.
Definition of_chars (l : list ascii) : string := string_of_list_ascii l.

(** [s.upper()], [s.lower()]. *)
Definition upper (s : string) : string := of_chars (map to_upper (chars s)).
Definition lower (s : string) : string := of_chars (map to_lower (chars s)).

(** [not s]. *)
Definition is_empty (s : string) : bool :=
  match s with
  | EmptyString => true
  | String _ _ => false
  end.

Fixpoint drop_while (p : ascii -> bool) (l : list ascii) : list ascii :=
  match l with
  | [] => []
  | c :: rest => if p c then drop_while p rest else l
  end.

Definition lstrip_chars (l : list ascii) : list ascii := drop_while is_space l.
Definition rstrip_chars (l : list ascii) : list ascii :=
  rev (drop_while is_space (rev l)).

(** [s.strip()]. *)
Definition strip (s : string) : string :=
  of_chars (rstrip_chars (lstrip_chars (chars s))).

(** [s.split()]: maximal runs of non-space characters.  [cur] is the run
    being read, reversed. *)
Fixpoint split_chars (l : list ascii) (cur : list ascii) : list string :=
  match l with
  | [] => match cur with [] => [] | _ => [of_chars (rev cur)] end
  | c :: rest =>
      if is_space c
      then match cur with
           | [] => split_chars rest []
           | _ => of_chars (rev cur) :: split_chars rest []
           end
      else split_chars rest (c :: cur)
  end.

Definition split (s : string) : list string := split_chars (chars s) [].

(** [s.startswith(p)]. *)
Fixpoint startswith (p s : string) : bool :=
  match p, s with
  | EmptyString, _ => true
  | String a p', String b s' => if Ascii.eqb a b then startswith p' s' else false
  | String _ _, EmptyString => false
  end.

(** [needle in hay]. *)
Fixpoint contains (needle hay : string) : bool :=
  if startswith needle hay then true
  else match hay with
       | EmptyString => false
       | String _ rest => contains needle rest
       end.

(** [s.isupper()]: at least one cased character and no lowercase one. *)
Definition isupper (s : string) : bool :=
  existsb is_upper (chars s) && negb (existsb is_lower (chars s)).

(** [" ".join(parts)]. *)
Fixpoint join_space (parts : list string) : string :=
  match parts with
  | [] => ""
  | [p] => p
  | p :: rest => p ++ " " ++ join_space rest
  end.

(** [len(s)] as a count of characters. *)
Definition len (s : string) : nat := String.length s.

End Str.

(* ===================================================================== *)
(** * Data model ([models.py], [normalize.py]) *)
(* ===================================================================== *)

(** OCR input hierarchy ([models.py]).  Fields that no modelled function
    reads ([word_num], [line_num], the boxes of words, paragraphs and
    blocks, ...) are left out.  [ImageInfo.width] and [ImageInfo.height]
    are named [image_width] and [image_height], which leaves [height] to
    [LineRecord]. *)
Record ImageInfo : Type := mkImageInfo {
  image_width : Z;
  image_height : Z
}.

Record Word : Type := mkWord {
  word_confidence : option float;
  word_text : string
}.

Record Line : Type := mkLine {
  line_bbox : list float;
  line_confidence : option float;
  line_text : option string;
  words : list Word
}.

Record Paragraph : Type := mkParagraph { lines : list Line }.
Record Block : Type := mkBlock { paragraphs : list Paragraph }.
Record Chunks : Type := mkChunks { blocks : list Block }.

Record OCRInput : Type := mkOCRInput {
  image : option ImageInfo;
  chunks : option Chunks
}.

Record ParseSettings : Type := mkParseSettings {
  conf_min_word : Z;
  conf_min_line : Z;
  max_lines_considered : Z;
  merge_adjacent_lines_flag : bool;
  junk_filter : bool;
  verify : bool;
  verify_provider_order : list string;
  max_verify_queries : Z
}.

(** [ParseSettings()]: the defaults of the model class. *)
Definition default_settings : ParseSettings :=
  {| conf_min_word := 30;
     conf_min_line := 35;
     max_lines_considered := 80;
     merge_adjacent_lines_flag := true;
     junk_filter := true;
     verify := true;
     verify_provider_order := ["google_books"; "open_library"];
     max_verify_queries := 6 |}.

(** [class LineRecord] ([normalize.py]). *)
Record LineRecord : Type := mkLineRecord {
  text : string;
  bbox : list float;
  line_conf : option float;
  height : float;
  center_x : float;
  center_y : float;
  word_count : nat;
  char_len : nat;
  tokens : list string;
  caps_ratio : float
}.

(** In-place assignment [line.text = t]. *)
Definition set_text (l : LineRecord) (t : string) : LineRecord :=
  {| text := t;
     bbox := bbox l;
     line_conf := line_conf l;
     height := height l;
     center_x := center_x l;
     center_y := center_y l;
     word_count := word_count l;
     char_len := char_len l;
     tokens := tokens l;
     caps_ratio := caps_ratio l |}.

(** [bbox[i]], raising [IndexError] out of range. *)
Definition bbox_get (b : list float) (i : nat) : res float :=
  match nth_error b i with
  | Some v => Ok v
  | None => Raise IndexError
  end.

(* ===================================================================== *)
(** * Line normaliser ([normalize.py]) *)
(* ===================================================================== *)

Module Normalize.

(** [extract_text_from_words]: the non-empty word texts joined by spaces. *)
Definition extract_text_from_words (ws : list string) : string :=
  match ws with
  | [] => ""
  | _ => Str.join_space (filter (fun t => negb (Str.is_empty t)) ws)
  end.

(** [calculate_caps_ratio]. *)
Definition calculate_caps_ratio (t : string) : float :=
  if Str.is_empty t then 0%float
  else
    let letters := filter Str.is_alpha (Str.chars t) in
    match letters with
    | [] => 0%float
    | _ =>
        let upper := List.length (filter Str.is_upper letters) in
        (float_of_nat upper / float_of_nat (List.length letters))%float
    end.

(** The text of a line: its own text, or the one rebuilt from its words
    when the line has none. *)
Definition effective_text (line : Line) : string :=
  let t := match line_text line with Some s => s | None => "" end in
  if Str.is_empty t && negb (match words line with [] => true | _ => false end)
  then extract_text_from_words (map word_text (words line))
  else t.

(** The confidence of a line: its own, or the mean of the word
    confidences that are present. *)
Definition effective_conf (line : Line) : option float :=
  match line_confidence line with
  | Some c => Some c
  | None =>
      match words line with
      | [] => None
      | ws =>
          let confidences :=
            flat_map (fun w => match word_confidence w with
                               | Some c => [c]
                               | None => []
                               end) ws in
          match confidences with
          | [] => None
          | _ => Some (py_sum confidences / float_of_nat (List.length confidences))%float
          end
      end
  end.

(** [centre / size if size > 0 else 0.5], [size] an int: the division
    converts it to a float and raises when it does not fit. *)
Definition normalized (centre : float) (size : Z) : res float :=
  if (0 <? size)%Z
  then s <- float_of_Z size ;; Ok (centre / s)%float
  else Ok 0.5%float.

(** The body of the innermost loop: [Ok None] is [continue]. *)
Definition normalize_line (img_w img_h : Z) (line : Line)
  : res (option LineRecord) :=
  let t := effective_text line in
  if Str.is_empty t || Str.is_empty (Str.strip t) then Ok None
  else
    match line_bbox line with
    | x1 :: y1 :: x2 :: y2 :: _ =>
        let line_conf := effective_conf line in
        let h := (y2 - y1)%float in
        let cx := ((x1 + x2) / 2)%float in
        let cy := ((y1 + y2) / 2)%float in
        cx_norm <- normalized cx img_w ;;
        cy_norm <- normalized cy img_h ;;
        let toks := Str.split t in
        Ok (Some {| text := Str.strip t;
                    bbox := line_bbox line;
                    line_conf := line_conf;
                    height := h;
                    center_x := cx_norm;
                    center_y := cy_norm;
                    word_count := List.length toks;
                    char_len := Str.len t;
                    tokens := toks;
                    caps_ratio := calculate_caps_ratio t |})
    | _ => Ok None
    end.

(** All lines of the hierarchy in document order. *)
Definition all_lines (ocr : OCRInput) : list Line :=
  match chunks ocr with
  | None => []
  | Some ch =>
      flat_map (fun b => flat_map (fun p => lines p) (paragraphs b)) (blocks ch)
  end.

Definition opt_to_list {A : Type} (o : option A) : list A :=
  match o with
  | Some a => [a]
  | None => []
  end.

(** [normalize_ocr]: the loop stops at the first line that raises. *)
Definition normalize_ocr (ocr : OCRInput) (settings : ParseSettings)
  : res (list LineRecord) :=
  let img_w := match image ocr with Some im => image_width im | None => 1000%Z end in
  let img_h := match image ocr with Some im => image_height im | None => 1000%Z end in
  made <- map_res (normalize_line img_w img_h) (all_lines ocr) ;;
  let recs := flat_map opt_to_list made in
  if (0 <? max_lines_considered settings)%Z
  then Ok (firstn (Z.to_nat (max_lines_considered settings)) recs)
  else Ok recs.

End Normalize.

(* ===================================================================== *)
(** * Candidate ranker ([ranker.py]) *)
(* ===================================================================== *)

Module Ranker.

Local Open Scope float_scope.

Definition JUNK_KEYWORDS : list string :=
  [ "A NOVEL"; "NEW YORK TIMES"; "BESTSELLER"; "WINNER";
    "NOW A MAJOR MOTION PICTURE"; "FOREWORD"; "INTRODUCTION"; "VOLUME";
    "BOOK ONE"; "BOOK TWO"; "BOOK THREE"; "EDITION"; "REVISED"; "UPDATED";
    "COPYRIGHT"; "PUBLISHED BY"; "ISBN"; "WWW."; "HTTP://"; "HTTPS://" ]%string.

(** [URL_PATTERN.search]: the pattern is an alternation of literals matched
    without regard to case. *)
Definition url_search (t : string) : bool :=
  existsb (fun lit => Str.contains lit (Str.lower t))
          [ "http://"; "https://"; "www."; ".com"; ".org"; ".net" ]%string.

(** Character classes of [EMAIL_PATTERN]. *)
Definition is_alnum (c : ascii) : bool := Str.is_alpha c || Str.is_digit c.
Definition email_local (c : ascii) : bool :=
  is_alnum c || existsb (Ascii.eqb c) ["."; "_"; "%"; "+"; "-"]%char.
Definition email_domain (c : ascii) : bool :=
  is_alnum c || existsb (Ascii.eqb c) ["."; "-"]%char.

Definition two_letters (l : list ascii) : bool :=
  match l with
  | a :: b :: _ => Str.is_alpha a && Str.is_alpha b
  | _ => false
  end.

(** After the [@]: one or more domain characters, a dot, two letters.
    [seen] says that a domain character has been read. *)
Fixpoint email_domain_match (l : list ascii) (seen : bool) : bool :=
  match l with
  | [] => false
  | c :: rest =>
      if email_domain c
      then (seen && Ascii.eqb c "."%char && two_letters rest)
           || email_domain_match rest true
      else false
  end.

(** [EMAIL_PATTERN.search]; [prev] is the character before the current
    position. *)
Fixpoint email_scan (prev : option ascii) (l : list ascii) : bool :=
  match l with
  | [] => false
  | c :: rest =>
      (Ascii.eqb c "@"%char
       && match prev with Some p => email_local p | None => false end
       && email_domain_match rest false)
      || email_scan (Some c) rest
  end.

Definition email_search (t : string) : bool := email_scan None (Str.chars t).

(** [is_junk]. *)
Definition is_junk (t : string) : bool :=
  let text_upper := Str.upper t in
  if existsb (fun keyword => Str.contains keyword text_upper) JUNK_KEYWORDS then true
  else if url_search t || email_search t then true
  else if (200 <? Str.len t)%nat then true
  else false.

Definition stopwords : list string :=
  [ "the"; "a"; "an"; "and"; "or"; "but"; "in"; "on"; "at"; "to"; "for" ]%string.

(** The test on one token of the capitalised-or-initial loop (empty tokens
    are skipped). *)
Definition capitalised_or_initial (token : string) : bool :=
  match token with
  | EmptyString => true
  | String c0 rest =>
      Str.is_upper c0
      || ((Str.len token =? 2)%nat
          && match rest with
             | String c1 _ => Ascii.eqb c1 "."%char
             | EmptyString => false
             end)
  end.

(** [person_like_score]. *)
Definition person_like_score (t : string) (toks : list string) : float :=
  if Str.is_empty t || match toks with [] => true | _ => false end then 0.0
  else
    let score := 0.0 in
    let n := List.length toks in
    let score :=
      if (2 <=? n)%nat && (n <=? 5)%nat then score + 0.3
      else if (n =? 1)%nat then score + 0.1
      else score in
    let alpha_chars := List.length (filter Str.is_alpha (Str.chars t)) in
    let score :=
      if gt (float_of_nat alpha_chars / float_of_nat (Str.len t)) 0.8
      then score + 0.2 else score in
    let score :=
      if forallb capitalised_or_initial toks then score + 0.3 else score in
    let score :=
      if Str.isupper t && (5 <? Str.len t)%nat then score - 0.1 else score in
    let score :=
      if existsb Str.is_digit (Str.chars t) then score - 0.2 else score in
    let score :=
      if existsb (fun tok => existsb (String.eqb (Str.lower tok)) stopwords) toks
      then score - 0.2 else score in
    py_max 0.0 (py_min 1.0 score).

(** [has_by_prefix]. *)
Definition has_by_prefix (t : string) : bool :=
  let text_lower := Str.strip (Str.lower t) in
  Str.startswith "by " text_lower || String.eqb text_lower "by".

(** [re.sub(r"^by\s+", "", t, flags=re.IGNORECASE).strip()]. *)
Definition strip_by (t : string) : string :=
  let removed :=
    match Str.chars t with
    | b :: y :: c :: rest =>
        if Ascii.eqb (Str.to_lower b) "b"%char
           && Ascii.eqb (Str.to_lower y) "y"%char
           && Str.is_space c
        then Str.of_chars (Str.drop_while Str.is_space rest)
        else t
    | _ => t
    end in
  Str.strip removed.

(** [calculate_bbox_iou]. *)
Definition calculate_bbox_iou (bbox1 bbox2 : list float) : float :=
  match bbox1, bbox2 with
  | x1_1 :: y1_1 :: x2_1 :: y2_1 :: _, x1_2 :: y1_2 :: x2_2 :: y2_2 :: _ =>
      let x1_i := py_max x1_1 x1_2 in
      let y1_i := py_max y1_1 y1_2 in
      let x2_i := py_min x2_1 x2_2 in
      let y2_i := py_min y2_1 y2_2 in
      if PrimFloat.leb x2_i x1_i || PrimFloat.leb y2_i y1_i then 0.0
      else
        let intersection := (x2_i - x1_i) * (y2_i - y1_i) in
        let area1 := (x2_1 - x1_1) * (y2_1 - y1_1) in
        let area2 := (x2_2 - x1_2) * (y2_2 - y1_2) in
        let union := area1 + area2 - intersection in
        if gt union 0 then intersection / union else 0.0
  | _, _ => 0.0
  end.

(** The confidence boost shared by both scores:
    [line.line_conf and line.line_conf > 50]. *)
Definition conf_above_50 (c : option float) : bool :=
  match c with
  | Some v => truthy v && gt v 50
  | None => false
  end.

(** [title_score].  The parameter [image_height] of the source is unused
    there and is left out. *)
Definition title_score (line : LineRecord) (max_height : float) : float :=
  let score := 0.0 in
  let score :=
    if gt max_height 0
    then let size_norm := height line / max_height in score + size_norm * 0.3
    else score in
  let center_score := 1.0 - abs (center_x line - 0.5) * 2 in
  let score := score + py_max 0 center_score * 0.2 in
  let score :=
    if PrimFloat.ltb (center_y line) 0.33 then score + 0.15
    else if PrimFloat.leb 0.33 (center_y line) && PrimFloat.leb (center_y line) 0.67
         then score + 0.2
         else score + 0.05 in
  let score :=
    if (1 <=? word_count line)%nat && (word_count line <=? 10)%nat then score + 0.15
    else if (15 <? word_count line)%nat then score - 0.1
    else score in
  let person_score := person_like_score (text line) (tokens line) in
  let score := score - person_score * 0.1 in
  let score := if is_junk (text line) then score - 0.5 else score in
  let score := if conf_above_50 (line_conf line) then score + 0.1 else score in
  py_max 0.0 score.

(** [author_score].  The source assigns to [line.text] when the text has a
    "by" prefix; the record after the call is returned with the score. *)
Definition author_score (line : LineRecord) (max_height : float)
  : float * LineRecord :=
  let score := 0.0 in
  let person_score := person_like_score (text line) (tokens line) in
  let score := score + person_score * 0.4 in
  let '(score, line) :=
    if has_by_prefix (text line)
    then (score + 0.3, set_text line (strip_by (text line)))
    else (score, line) in
  let score :=
    if gt max_height 0
    then let size_norm := height line / max_height in
         if PrimFloat.leb 0.3 size_norm && PrimFloat.leb size_norm 1.2
         then score + 0.15 else score
    else score in
  let score :=
    if gt (center_y line) 0.67 then score + 0.15
    else if PrimFloat.ltb (center_y line) 0.33 then score + 0.1
    else score in
  let score :=
    if (1 <=? word_count line)%nat && (word_count line <=? 5)%nat then score + 0.15
    else if (8 <? word_count line)%nat then score - 0.1
    else score in
  let score := if is_junk (text line) then score - 0.5 else score in
  let score := if conf_above_50 (line_conf line) then score + 0.1 else score in
  (py_max 0.0 score, line).

(** The record built when [current] absorbs [candidate]
    (lines 254-284 of [ranker.py]). *)
Definition merge_pair (current candidate : LineRecord) : res LineRecord :=
  let merged_text := (text current ++ " " ++ text candidate)%string in
  c0 <- bbox_get (bbox current) 0 ;;
  d0 <- bbox_get (bbox candidate) 0 ;;
  c1 <- bbox_get (bbox current) 1 ;;
  d1 <- bbox_get (bbox candidate) 1 ;;
  c2 <- bbox_get (bbox current) 2 ;;
  d2 <- bbox_get (bbox candidate) 2 ;;
  c3 <- bbox_get (bbox current) 3 ;;
  d3 <- bbox_get (bbox candidate) 3 ;;
  let merged_bbox := [py_min c0 d0; py_min c1 d1; py_max c2 d2; py_max c3 d3] in
  let merged_conf :=
    if truthy_opt (line_conf current) && truthy_opt (line_conf candidate)
    then match line_conf current, line_conf candidate with
         | Some a, Some b => Some ((a + b) / 2)
         | _, _ => None
         end
    else py_or (line_conf current) (line_conf candidate) in
  let merged_height := py_max (height current) (height candidate) in
  let merged_center_x := (py_min c0 d0 + py_max c2 d2) / 2 in
  let merged_center_y := (py_min c1 d1 + py_max c3 d3) / 2 in
  let merged_tokens := tokens current ++ tokens candidate in
  let merged_caps := Normalize.calculate_caps_ratio merged_text in
  Ok {| text := merged_text;
        bbox := merged_bbox;
        line_conf := merged_conf;
        height := merged_height;
        center_x := merged_center_x;
        center_y := merged_center_y;
        word_count := List.length merged_tokens;
        char_len := Str.len merged_text;
        tokens := merged_tokens;
        caps_ratio := merged_caps |}.

(** The three tests of the inner loop on [candidate = lines[j]]. *)
Inductive look : Type :=
| Break      (* leave the inner loop: [lines[j]] opens the next group *)
| Skip       (* [j += 1; continue]: [lines[j]] is passed over *)
| Absorb.    (* merge [lines[j]] into [current] *)

Definition look_ahead (avg_height : float) (current candidate : LineRecord)
  : res look :=
  cy1 <- bbox_get (bbox candidate) 1 ;;
  uy2 <- bbox_get (bbox current) 3 ;;
  let delta_y := abs (cy1 - uy2) in
  if gt delta_y (0.6 * avg_height) then Ok Break
  else
    let center_x_dist := abs (center_x candidate - center_x current) in
    if gt center_x_dist 0.1 then Ok Skip
    else if (word_count current <=? 5)%nat && (word_count candidate <=? 5)%nat
         then Ok Absorb
         else Ok Break.

(** The two nested [while] loops as one recursion on the lines not yet
    visited.  [current] is [merged[-1]]; [rest] is [lines[j:]].  Leaving
    the inner loop sets [i = j], so the next group starts at [lines[j]];
    running off the end of the list ends both loops. *)
Fixpoint sweep (avg_height : float) (current : LineRecord)
  (rest : list LineRecord) : res (list LineRecord) :=
  match rest with
  | [] => Ok [current]
  | candidate :: rest' =>
      what <- look_ahead avg_height current candidate ;;
      match what with
      | Break =>
          groups <- sweep avg_height candidate rest' ;;
          Ok (current :: groups)
      | Skip => sweep avg_height current rest'
      | Absorb =>
          m <- merge_pair current candidate ;;
          sweep avg_height m rest'
      end
  end.

(** The mean height the thresholds are taken from. *)
Definition average_height (ls : list LineRecord) : float :=
  py_sum (map height ls) / float_of_nat (List.length ls).

(** [merge_adjacent_lines]. *)
Definition merge_adjacent_lines (ls : list LineRecord) : res (list LineRecord) :=
  match ls with
  | [] => Ok []
  | first :: rest => sweep (average_height ls) first rest
  end.

(** Response models ([models.py]). *)
Record CandidateFeatures : Type := mkCandidateFeatures {
  size_norm : float;
  center_norm : float;
  upper_third : float;
  lower_third : float;
  feat_char_len : nat;
  feat_word_count : nat;
  feat_caps_ratio : float;
  feat_has_by_prefix : bool;
  person_like : float;
  junk_like : float;
  feat_line_conf : option float
}.

Record Candidate : Type := mkCandidate {
  cand_text : string;
  score : float;
  cand_bbox : list float;
  features : CandidateFeatures
}.

(** The dictionary returned by [rank_candidates]; [candidates.title] and
    [candidates.author] are the two candidate lists, and [method] is the
    constant [MethodInfo("heuristic_v1", "none", "none")]. *)
Record RankResult : Type := mkRankResult {
  title : option string;
  author : option string;
  confidence : float;
  title_candidates : list Candidate;
  author_candidates : list Candidate;
  warnings : list string
}.

(** A scored line: an entry of [title_scores] or [author_scores]. *)
Definition scored : Type := (LineRecord * float)%type.

(** [list.sort(key=lambda x: x[1], reverse=True)]: a stable sort by
    decreasing score.  Scores are never NaN (both scoring functions end
    with [max(0.0, score)]), so the order is total and the result does not
    depend on the sorting algorithm. *)
Fixpoint insert_desc (x : scored) (sorted : list scored) : list scored :=
  match sorted with
  | [] => [x]
  | y :: ys =>
      if PrimFloat.ltb (snd y) (snd x) then x :: sorted
      else y :: insert_desc x ys
  end.

Definition sort_desc (l : list scored) : list scored :=
  fold_left (fun acc x => insert_desc x acc) l [].

(** One turn of the scoring loop: the title score is taken first, then
    the author score, which may rewrite the text of the line; both score
    lists hold the same, rewritten, object. *)
Definition score_line (max_height : float) (line : LineRecord)
  : LineRecord * float * float :=
  let title_sc := title_score line max_height in
  let '(author_sc, line') := author_score line max_height in
  (line', title_sc, author_sc).

Definition title_entry (e : LineRecord * float * float) : scored :=
  let '(l, t, _) := e in (l, t).
Definition author_entry (e : LineRecord * float * float) : scored :=
  let '(l, _, a) := e in (l, a).

Definition features_of (line : LineRecord) (max_height : float)
  : CandidateFeatures :=
  {| size_norm := if gt max_height 0 then height line / max_height else 0.0;
     center_norm := 1.0 - abs (center_x line - 0.5) * 2;
     upper_third := if PrimFloat.ltb (center_y line) 0.33 then 1.0 else 0.0;
     lower_third := if gt (center_y line) 0.67 then 1.0 else 0.0;
     feat_char_len := char_len line;
     feat_word_count := word_count line;
     feat_caps_ratio := caps_ratio line;
     feat_has_by_prefix := has_by_prefix (text line);
     person_like := person_like_score (text line) (tokens line);
     junk_like := if is_junk (text line) then 1.0 else 0.0;
     feat_line_conf := line_conf line |}.

(** [Candidate(...)]: the model class validates that the box has exactly
    four items. *)
Definition make_candidate (t : string) (sc : float) (b : list float)
  (f : CandidateFeatures) : res Candidate :=
  if (List.length b =? 4)%nat
  then Ok {| cand_text := t; score := sc; cand_bbox := b; features := f |}
  else Raise ValidationError.

Definition title_candidate (max_height : float) (e : scored) : res Candidate :=
  let '(line, sc) := e in
  make_candidate (text line) sc (bbox line) (features_of line max_height).

Definition author_candidate (max_height : float) (e : scored) : res Candidate :=
  let '(line, sc) := e in
  make_candidate (strip_by (text line)) sc (bbox line) (features_of line max_height).

(** [top[0][0] if top else None], [top[1][0] if len(top) > 1 else None],
    [top[0][1]]. *)
Definition first_line (top : list scored) : option LineRecord :=
  match top with
  | (l, _) :: _ => Some l
  | [] => None
  end.

Definition runner_up (top : list scored) : option LineRecord :=
  match top with
  | _ :: (l, _) :: _ => Some l
  | _ => None
  end.

Definition top_score (top : list scored) : res float :=
  match top with
  | (_, s) :: _ => Ok s
  | [] => Raise IndexError
  end.

(** The chosen pair: [(best_title, best_author)]. *)
Definition picks : Type := (option LineRecord * option LineRecord)%type.

(** Lines 404-410: title and author cannot be identical. *)
Definition identity_guard (tt ta : list scored) (p : picks) : res picks :=
  match p with
  | (Some best_title, Some best_author) =>
      if String.eqb (Str.lower (text best_title)) (Str.lower (text best_author))
      then
        t0 <- top_score tt ;;
        a0 <- top_score ta ;;
        if gt t0 a0
        then Ok (Some best_title, runner_up ta)
        else Ok (runner_up tt, Some best_author)
      else Ok p
  | _ => Ok p
  end.

(** The first entry of [top[1:]] whose line passes [ok], if any. *)
Definition first_alternative (ok : LineRecord -> bool) (top : list scored)
  : option LineRecord :=
  match find (fun e => ok (fst e)) (tl top) with
  | Some (l, _) => Some l
  | None => None
  end.

(** Lines 412-427: the overlap guard.  The second test reads the variable
    [iou] again, which the first search does not update. *)
Definition overlap_guard (tt ta : list scored) (p : picks) : picks :=
  match p with
  | (Some best_title, Some best_author) =>
      let iou := calculate_bbox_iou (bbox best_title) (bbox best_author) in
      if gt iou 0.2 then
        let best_title :=
          match first_alternative
                  (fun title_line =>
                     PrimFloat.ltb
                       (calculate_bbox_iou (bbox title_line) (bbox best_author)) 0.2)
                  tt with
          | Some title_line => title_line
          | None => best_title
          end in
        if gt iou 0.2 then
          let best_author :=
            match first_alternative
                    (fun author_line =>
                       PrimFloat.ltb
                         (calculate_bbox_iou (bbox best_title) (bbox author_line)) 0.2)
                    ta with
            | Some author_line => author_line
            | None => best_author
            end in
          (Some best_title, Some best_author)
        else (Some best_title, Some best_author)
      else p
  | _ => p
  end.

Definition swap_warning : string :=
  "Applied swap logic: title/author may be reversed".

(** Lines 429-437: the swap. *)
Definition swap_logic (tt ta : list scored) (p : picks) (warns : list string)
  : res (picks * list string) :=
  match p with
  | (Some best_title, Some best_author) =>
      let title_person := person_like_score (text best_title) (tokens best_title) in
      let author_person := person_like_score (text best_author) (tokens best_author) in
      if gt title_person 0.6 && PrimFloat.ltb author_person 0.3 then
        a0 <- top_score ta ;;
        t0 <- top_score tt ;;
        if gt a0 (t0 * 0.8)
        then Ok ((Some best_author, Some best_title), warns ++ [swap_warning])
        else Ok (p, warns)
      else Ok (p, warns)
  | _ => Ok (p, warns)
  end.

(** Lines 443-461: the confidence of one category. *)
Definition category_confidence (top : list scored) (best : option LineRecord)
  : float :=
  match top with
  | [] => 0.0
  | (_, top1_score) :: rest =>
      let top2_score := match rest with (_, s) :: _ => s | [] => 0.0 end in
      let margin := if gt top2_score 0 then top1_score - top2_score else top1_score in
      let conf := py_min 1.0 (margin * 2) in
      match best with
      | Some b =>
          match line_conf b with
          | Some c => if truthy c then (conf + c / 100.0) / 2 else conf
          | None => conf
          end
      | None => conf
      end
  end.

(** [l.text and l.text.strip()]. *)
Definition valid_line (l : LineRecord) : bool :=
  negb (Str.is_empty (text l)) && negb (Str.is_empty (Str.strip (text l))).

Definition junk_warning (n : nat) : string :=
  ("Filtered " ++ str_of_nat n ++ " junk lines")%string.

(** Lines 326-331: the junk filter and its warning. *)
Definition apply_junk_filter (settings : ParseSettings) (ls : list LineRecord)
  (warns : list string) : list LineRecord * list string :=
  if junk_filter settings then
    let original_count := List.length ls in
    let kept := filter (fun l => negb (is_junk (text l))) ls in
    if (List.length kept <? original_count)%nat
    then (kept, warns ++ [junk_warning (original_count - List.length kept)])
    else (kept, warns)
  else (ls, warns).

(** What the scoring and top-5 selection leave for the best-pick stage. *)
Record Tops : Type := mkTops {
  top_title_candidates : list scored;
  top_author_candidates : list scored;
  max_height : float;
  tops_warnings : list string
}.

(** Lines 326-357, on the non-empty list of valid lines. *)
Definition select_top (settings : ParseSettings) (valid : list LineRecord)
  : res Tops :=
  let '(ls, warns) := apply_junk_filter settings valid [] in
  ls <- (if merge_adjacent_lines_flag settings
         then merge_adjacent_lines ls else Ok ls) ;;
  let mh := py_max_list (map height ls) 1.0 in
  let scores := map (score_line mh) ls in
  let title_scores := sort_desc (map title_entry scores) in
  let author_scores := sort_desc (map author_entry scores) in
  Ok {| top_title_candidates := firstn 5 title_scores;
        top_author_candidates := firstn 5 author_scores;
        max_height := mh;
        tops_warnings := warns |}.

(** Lines 400-427: the top picks after the identity and overlap guards. *)
Definition guarded_picks (tops : Tops) : res picks :=
  let tt := top_title_candidates tops in
  let ta := top_author_candidates tops in
  p <- identity_guard tt ta (first_line tt, first_line ta) ;;
  Ok (overlap_guard tt ta p).

Definition no_valid_lines_warning : string := "No valid lines found in OCR".

(** [rank_candidates].  The argument [ocr] only supplies [image_height],
    which no score reads. *)
Definition rank_candidates (ls : list LineRecord) (ocr : OCRInput)
  (settings : ParseSettings) : res RankResult :=
  let valid := filter valid_line ls in
  match valid with
  | [] =>
      Ok {| title := None;
            author := None;
            confidence := 0.0;
            title_candidates := [];
            author_candidates := [];
            warnings := [no_valid_lines_warning] |}
  | _ =>
      tops <- select_top settings valid ;;
      let tt := top_title_candidates tops in
      let ta := top_author_candidates tops in
      tcs <- map_res (title_candidate (max_height tops)) tt ;;
      acs <- map_res (author_candidate (max_height tops)) ta ;;
      p <- guarded_picks tops ;;
      '((best_title, best_author), warns) <-
        swap_logic tt ta p (tops_warnings tops) ;;
      let title_conf := category_confidence tt best_title in
      let author_conf := category_confidence ta best_author in
      let combined_confidence := (title_conf + author_conf) / 2 in
      Ok {| title := option_map text best_title;
            author := option_map text best_author;
            confidence := combined_confidence;
            title_candidates := tcs;
            author_candidates := acs;
            warnings := warns |}
  end.

End Ranker.

(* ===================================================================== *)
(** * Similarity primitives ([similarity.py]) *)
(* ===================================================================== *)

Module Similarity.

Local Open Scope float_scope.

(** [set(...)] of tokens, as a duplicate-free list. *)
Definition token_set (s : string) : list string :=
  nodup string_dec (Str.split (Str.lower s)).

Definition mem (x : string) (l : list string) : bool := existsb (String.eqb x) l.

Section WithFuzz.

(** [rapidfuzz.fuzz.token_set_ratio] (a score in 0..100) when the package
    can be imported ([HAS_RAPIDFUZZ]), [None] otherwise.  The package is
    not part of the repository. *)
Variable rapidfuzz : option (string -> string -> float).

(** [token_set_ratio]. *)
Definition token_set_ratio (s1 s2 : string) : float :=
  if Str.is_empty s1 || Str.is_empty s2 then 0.0
  else
    match rapidfuzz with
    | Some fuzz_ratio => fuzz_ratio (Str.lower s1) (Str.lower s2) / 100.0
    | None =>
        let tokens1 := token_set s1 in
        let tokens2 := token_set s2 in
        match tokens1, tokens2 with
        | [], _ | _, [] => 0.0
        | _, _ =>
            let intersection := List.length (filter (fun t => mem t tokens2) tokens1) in
            let union := List.length (nodup string_dec (tokens1 ++ tokens2)) in
            if (0 <? union)%nat
            then float_of_nat intersection / float_of_nat union
            else 0.0
        end
    end.

(** [weighted_similarity]. *)
Definition weighted_similarity (title1 title2 author1 author2 : string)
  (title_weight : float) : float :=
  let title_sim := token_set_ratio title1 title2 in
  let author_sim := token_set_ratio author1 author2 in
  title_weight * title_sim + (1 - title_weight) * author_sim.

End WithFuzz.

End Similarity.

(* ===================================================================== *)
(** * Verification ([verifier/]) *)
(* ===================================================================== *)

Module Verifier.

Import Similarity.
Local Open Scope float_scope.

(** An HTTP request: the URL and the search parameter it carries. *)
Record Request : Type := mkRequest {
  url : string;
  param : string;
  value : string
}.

(** ** JSON values *)

(** What [response.json()] returns: [None], a bool, an int, a float, a
    str, a list or a dict.  A dict is the list of its items, a key being
    looked up from the left. *)
Inductive json : Type :=
| JNull
| JBool (b : bool)
| JInt (z : Z)
| JFloat (x : float)
| JStr (s : string)
| JList (elements : list json)
| JDict (fields : list (string * json)).

(** The outcome of a statement that stands in a [try] block whose handler
    reads [str(e)] and nothing else: the value, or the message of the
    exception. *)
Inductive attempt (A : Type) : Type :=
| Done (a : A)
| Failed (message : string).
Arguments Done {A} a.
Arguments Failed {A} message.

Definition and_then {A B : Type} (m : attempt A) (k : A -> attempt B)
  : attempt B :=
  match m with
  | Done a => k a
  | Failed message => Failed message
  end.

Declare Scope attempt_scope.
Notation "x <~ m ;; k" := (and_then m (fun x => k))
  (at level 61, m at next level, right associativity) : attempt_scope.
Local Open Scope attempt_scope.

(** [type(v).__name__]. *)
Definition type_name (v : json) : string :=
  match v with
  | JNull => "NoneType"
  | JBool _ => "bool"
  | JInt _ => "int"
  | JFloat _ => "float"
  | JStr _ => "str"
  | JList _ => "list"
  | JDict _ => "dict"
  end.

(** The messages of [AttributeError] and [TypeError]. *)
Definition no_attribute (v : json) (name : string) : string :=
  "'" ++ type_name v ++ "' object has no attribute '" ++ name ++ "'".
Definition not_iterable (v : json) : string :=
  "'" ++ type_name v ++ "' object is not iterable".
Definition not_subscriptable (v : json) : string :=
  "'" ++ type_name v ++ "' object is not subscriptable".

(** [bool(v)]. *)
Definition truth (v : json) : bool :=
  match v with
  | JNull => false
  | JBool b => b
  | JInt z => negb (z =? 0)%Z
  | JFloat x => truthy x
  | JStr s => negb (Str.is_empty s)
  | JList elements => match elements with [] => false | _ => true end
  | JDict fields => match fields with [] => false | _ => true end
  end.

Fixpoint lookup (key : string) (fields : list (string * json)) : option json :=
  match fields with
  | [] => None
  | (k, v) :: rest => if String.eqb k key then Some v else lookup key rest
  end.

(** [v.get(key, default)]: [v] has a [get] when it is a dict. *)
Definition get (v : json) (key : string) (default : json) : attempt json :=
  match v with
  | JDict fields =>
      Done match lookup key fields with
           | Some x => x
           | None => default
           end
  | _ => Failed (no_attribute v "get")
  end.

(** What [for x in v] visits: the items of a list, the keys of a dict, the
    characters of a str. *)
Definition iterate (v : json) : attempt (list json) :=
  match v with
  | JList elements => Done elements
  | JDict fields => Done (map (fun kv => JStr (fst kv)) fields)
  | JStr s => Done (map (fun c => JStr (String c EmptyString)) (Str.chars s))
  | _ => Failed (not_iterable v)
  end.

(** [v[0] if v else default]: the first item of a list, the first
    character of a str; a dict has no key [0] ([str(KeyError(0))] is
    ["0"]); a number or [True] cannot be subscripted. *)
Definition first_or (v default : json) : attempt json :=
  if truth v
  then match v with
       | JList (x :: _) => Done x
       | JStr (String c _) => Done (JStr (String c EmptyString))
       | JDict _ => Failed "0"
       | _ => Failed (not_subscriptable v)
       end
  else Done default.

(** [v == text]. *)
Definition is_text (text : string) (v : json) : bool :=
  match v with
  | JStr s => String.eqb s text
  | _ => false
  end.

(** The outcome of [client.get] and of [response.json()]: the request
    raises, or it returns a response whose body decodes or does not. *)
Inductive HttpOutcome : Type :=
| TimeoutException (message : string)
| OtherException (message : string)
| Response (status_code : Z) (body : attempt json).

(** [VerificationCanonical], [VerificationDebug], [Verification]
    ([models.py]). *)
Record VerificationCanonical : Type := mkCanonical {
  canonical_title : string;
  canonical_author : string;
  isbn13 : option string;
  source_id : option string
}.

(** An entry of [all_queries]: a query of a provider, or the error entry
    the orchestrator writes for a provider that raised ([error] stands
    for [str(e)]). *)
Inductive QueryEntry : Type :=
| QueryLog (provider query type : string)
| ErrorLog (provider : string) (error : exn).

Record HitEntry : Type := mkHitEntry {
  hit_provider : string;
  hit_title : json;
  hit_author : json;
  hit_score : float
}.

Record VerificationDebug : Type := mkDebug {
  queries : list QueryEntry;
  debug_top_hits : list HitEntry
}.

Record Verification : Type := mkVerification {
  attempted : bool;
  matched : bool;
  provider : option string;
  match_confidence : option float;
  canonical : option VerificationCanonical;
  notes : list string;
  debug : option VerificationDebug
}.

(** The dictionary a provider returns; an absent key is [None]. *)
Record ProviderResult : Type := mkProviderResult {
  res_matched : bool;
  res_canonical : option VerificationCanonical;
  res_match_confidence : option float;
  queries_made : nat;
  res_notes : list string
}.

(** The state one verification call threads through its providers: the two
    shared lists [all_queries] and [top_hits], and two ghost fields:
    [issued], the number of calls of [client.get] (one external query
    each), and [requests], the requests of these calls in order. *)
Record World : Type := mkWorld {
  issued : nat;
  requests : list Request;
  all_queries : list QueryEntry;
  top_hits : list HitEntry
}.

Definition initial_world : World :=
  {| issued := 0; requests := []; all_queries := []; top_hits := [] |}.

(** The dictionary [best_match]. *)
Record Hit : Type := mkHit {
  vol_title : json;
  vol_author : json;
  vol_isbn13 : json;
  vol_source_id : json
}.

(** What a provider reads of one entry of a response before it scores it
    ([read_title], [read_author]), and what it reads to fill [best_match]
    when the entry scores best ([read_rest]: the ISBN-13 and the source
    identifier). *)
Record Reading : Type := mkReading {
  read_title : json;
  read_author : json;
  read_rest : attempt (json * json)
}.

(** [_extract_isbn13]. *)
Fixpoint scan_identifiers (identifiers : list json) : attempt json :=
  match identifiers with
  | [] => Done JNull
  | ident :: rest =>
      type <~ get ident "type" JNull ;;
      if is_text "ISBN_13" type then get ident "identifier" JNull
      else scan_identifiers rest
  end.

Definition _extract_isbn13 (identifiers : json) : attempt json :=
  visited <~ iterate identifiers ;;
  scan_identifiers visited.

(** Lines 43-46 and 65-66 of [google_books.py]. *)
Definition google_read (item : json) : attempt Reading :=
  volume_info <~ get item "volumeInfo" (JDict []) ;;
  vol_title <~ get volume_info "title" (JStr "") ;;
  vol_authors <~ get volume_info "authors" (JList []) ;;
  vol_author <~ first_or vol_authors (JStr "") ;;
  Done {| read_title := vol_title;
          read_author := vol_author;
          read_rest :=
            identifiers <~ get volume_info "industryIdentifiers" (JList []) ;;
            isbn <~ _extract_isbn13 identifiers ;;
            id <~ get item "id" JNull ;;
            Done (isbn, id) |}.

(** Lines 43-48 of [open_library.py]: everything is read before the
    score is taken. *)
Definition open_library_read (doc : json) : attempt Reading :=
  vol_title <~ get doc "title" (JStr "") ;;
  vol_authors <~ get doc "author_name" (JList []) ;;
  vol_author <~ first_or vol_authors (JStr "") ;;
  isbn_list <~ get doc "isbn" (JList []) ;;
  isbn <~ first_or isbn_list JNull ;;
  olid <~ get doc "key" (JStr "") ;;
  Done {| read_title := vol_title;
          read_author := vol_author;
          read_rest := Done (isbn, olid) |}.

(** [VerificationCanonical(title=..., author=..., isbn13=..., source_id=...)]:
    the model class takes a str for [title] and [author], a str or [None]
    for the two others, and raises on anything else. *)
Definition as_str (v : json) : option string :=
  match v with
  | JStr s => Some s
  | _ => None
  end.

Definition as_optional_str (v : json) : option (option string) :=
  match v with
  | JNull => Some None
  | JStr s => Some (Some s)
  | _ => None
  end.

Definition make_canonical (h : Hit) : res VerificationCanonical :=
  match as_str (vol_title h), as_str (vol_author h),
        as_optional_str (vol_isbn13 h), as_optional_str (vol_source_id h) with
  | Some t, Some a, Some i, Some s =>
      Ok {| canonical_title := t; canonical_author := a;
            isbn13 := i; source_id := s |}
  | _, _, _, _ => Raise ValidationError
  end.

(** [str(status_code)]. *)
Definition str_of_Z (z : Z) : string := NilZero.string_of_int (Z.to_int z).

(** [not s] for an optional string: [None] and [""] are false. *)
Definition present (s : option string) : bool :=
  match s with
  | Some t => negb (Str.is_empty t)
  | None => false
  end.

Definition or_empty (s : option string) : string :=
  match s with
  | Some t => t
  | None => ""
  end.

(** What differs between the two provider functions. *)
Record ProviderText : Type := mkProviderText {
  provider_name : string;          (* the tag written to the logs *)
  label : string;                  (* the name used in notes *)
  strict_request : string -> Request;
  title_request : string -> Request;
  listing : string;                (* the key of the entries in the body *)
  read_hit : json -> attempt Reading;
  stops_on_429 : bool              (* the [elif status_code == 429] branch *)
}.

Section WithServices.

Variable rapidfuzz : option (string -> string -> float).

(** The external services: the outcome of the [n]-th request of the call. *)
Variable http : nat -> Request -> HttpOutcome.

(** [token_set_ratio(s1, s2)] and [weighted_similarity] ([similarity.py])
    when the second text of a pair comes from a response: a value that is
    false gives 0.0, a str is compared, anything else has no [lower]. *)
Definition token_set_ratio_of (s1 : string) (s2 : json) : attempt float :=
  if Str.is_empty s1 || negb (truth s2) then Done 0.0
  else match s2 with
       | JStr t => Done (token_set_ratio rapidfuzz s1 t)
       | _ => Failed (no_attribute s2 "lower")
       end.

Definition weighted_similarity_of (title1 : string) (title2 : json)
  (author1 : string) (author2 : json) (title_weight : float) : attempt float :=
  title_sim <~ token_set_ratio_of title1 title2 ;;
  author_sim <~ token_set_ratio_of author1 author2 ;;
  Done (title_weight * title_sim + (1 - title_weight) * author_sim).

(** [await client.get(...)]. *)
Definition client_get (w : World) (r : Request) : HttpOutcome * World :=
  (http (issued w) r,
   {| issued := S (issued w); requests := requests w ++ [r];
      all_queries := all_queries w; top_hits := top_hits w |}).

Definition log_query (w : World) (e : QueryEntry) : World :=
  {| issued := issued w; requests := requests w;
     all_queries := all_queries w ++ [e]; top_hits := top_hits w |}.

Definition log_hit (w : World) (e : HitEntry) : World :=
  {| issued := issued w; requests := requests w;
     all_queries := all_queries w; top_hits := top_hits w ++ [e] |}.

(** The running best of a provider: [(best_score, best_match)]. *)
Definition best : Type := (float * option Hit)%type.

(** The loop over the entries of one response.  It stops at the first
    exception, whose message is the third component; [best_score] is
    assigned before [best_match] is built, so an exception in between
    leaves the new score with the old match. *)
Fixpoint scan_hits (p : ProviderText) (title author : string)
  (title_weight : float) (entries : list json) (b : best) (w : World)
  : best * World * option string :=
  match entries with
  | [] => (b, w, None)
  | entry :: rest =>
      match read_hit p entry with
      | Failed message => (b, w, Some message)
      | Done r =>
          match weighted_similarity_of title (read_title r) author
                  (read_author r) title_weight with
          | Failed message => (b, w, Some message)
          | Done sc =>
              let w := log_hit w {| hit_provider := provider_name p;
                                    hit_title := read_title r;
                                    hit_author := read_author r;
                                    hit_score := sc |} in
              if gt sc (fst b)
              then match read_rest r with
                   | Failed message => ((sc, snd b), w, Some message)
                   | Done (isbn, id) =>
                       scan_hits p title author title_weight rest
                         (sc, Some {| vol_title := read_title r;
                                      vol_author := read_author r;
                                      vol_isbn13 := isbn;
                                      vol_source_id := id |}) w
                   end
              else scan_hits p title author title_weight rest b w
          end
      end
  end.

(** The statements that follow a response of status 200:
    [data = response.json()], [data.get(listing, [])] and the loop. *)
Definition read_response (p : ProviderText) (title author : string)
  (title_weight : float) (body : attempt json) (b : best) (w : World)
  : best * World * option string :=
  match (data <~ body ;;
         entries <~ get data (listing p) (JList []) ;;
         iterate entries) with
  | Failed message => (b, w, Some message)
  | Done entries => scan_hits p title author title_weight entries b w
  end.

(** The note a handler appends for the exception it caught, if any. *)
Definition noted (notes : list string) (prefix : string)
  (failure : option string) : list string :=
  match failure with
  | Some message => notes ++ [(prefix ++ message)%string]
  | None => notes
  end.

Definition unmatched (made : nat) (notes : list string) : ProviderResult :=
  {| res_matched := false; res_canonical := None;
     res_match_confidence := None; queries_made := made;
     res_notes := notes |}.

(** The last lines of a provider: a match needs a best hit scoring at
    least 0.6, and building its canonical record may raise. *)
Definition provider_return (b : best) (made : nat) (notes : list string)
  : res ProviderResult :=
  match b with
  | (best_score, Some best_match) =>
      if ge best_score 0.6
      then
        canonical <- make_canonical best_match ;;
        Ok {| res_matched := true;
              res_canonical := Some canonical;
              res_match_confidence := Some best_score;
              queries_made := made;
              res_notes := notes |}
      else Ok (unmatched made notes)
  | (_, None) => Ok (unmatched made notes)
  end.

(** The title-only query and the return (lines 81-143 of
    [google_books.py], 80-144 of [open_library.py]). *)
Definition title_only_phase (p : ProviderText) (title author : option string)
  (max_queries : Z) (b : best) (made : nat) (notes : list string) (w : World)
  : res ProviderResult * World :=
  if PrimFloat.ltb (fst b) 0.7 && present title && (Z.of_nat made <? max_queries)%Z
  then
    let t := or_empty title in
    let '(out, w) := client_get w (title_request p t) in
    match out with
    | Response status body =>
        let made := S made in
        let w := log_query w (QueryLog (provider_name p) t "title_only") in
        if (status =? 200)%Z
        then
          let '(b, w, failure) :=
            read_response p t (or_empty author) 0.8 body b w in
          (provider_return b made
             (noted notes (label p ++ " title-only error: ") failure), w)
        else (provider_return b made notes, w)
    | TimeoutException message
    | OtherException message =>
        (provider_return b made
           (notes ++ [(label p ++ " title-only error: " ++ message)%string]), w)
    end
  else (provider_return b made notes, w).

(** The body shared by [verify_google_books] and [verify_open_library]:
    the strict query, then [title_only_phase]. *)
Definition verify_provider (p : ProviderText) (title author : option string)
  (max_queries : Z) (w : World) : res ProviderResult * World :=
  if negb (present title) && negb (present author)
  then (Ok (unmatched 0 ["No title or author"%string]), w)
  else
    let b : best := (0.0, None) in
    if present title && present author && (0 <? max_queries)%Z
    then
      let t := or_empty title in
      let a := or_empty author in
      let query := (t ++ " " ++ a)%string in
      let '(out, w) := client_get w (strict_request p query) in
      match out with
      | Response status body =>
          let w := log_query w (QueryLog (provider_name p) query "strict") in
          if (status =? 200)%Z
          then
            let '(b, w, failure) := read_response p t a 0.6 body b w in
            title_only_phase p title author max_queries b 1
              (noted [] (label p ++ " error: ") failure) w
          else if stops_on_429 p && (status =? 429)%Z
          then (Ok (unmatched 1 [(label p ++ " rate limited")%string]), w)
          else title_only_phase p title author max_queries b 1
                 [(label p ++ " returned " ++ str_of_Z status)%string] w
      | TimeoutException _ =>
          title_only_phase p title author max_queries b 0
            [(label p ++ " request timed out")%string] w
      | OtherException message =>
          title_only_phase p title author max_queries b 0
            [(label p ++ " error: " ++ message)%string] w
      end
    else title_only_phase p title author max_queries b 0 [] w.

(** The double quote, and a text between double quotes. *)
Definition dquote : ascii := ascii_of_nat 34.
Definition quoted (t : string) : string :=
  String dquote (t ++ String dquote EmptyString).

Definition google_books : ProviderText :=
  {| provider_name := "google_books";
     label := "Google Books";
     strict_request := fun query =>
       {| url := "https://www.googleapis.com/books/v1/volumes";
          param := "q"; value := query |};
     title_request := fun t =>
       {| url := "https://www.googleapis.com/books/v1/volumes";
          param := "q"; value := ("intitle:" ++ quoted t)%string |};
     listing := "items";
     read_hit := google_read;
     stops_on_429 := true |}.

Definition open_library : ProviderText :=
  {| provider_name := "open_library";
     label := "Open Library";
     strict_request := fun query =>
       {| url := "https://openlibrary.org/search.json";
          param := "q"; value := query |};
     title_request := fun t =>
       {| url := "https://openlibrary.org/search.json";
          param := "title"; value := t |};
     listing := "docs";
     read_hit := open_library_read;
     stops_on_429 := false |}.

(** [verify_google_books], [verify_open_library]. *)
Definition verify_google_books := verify_provider google_books.
Definition verify_open_library := verify_provider open_library.

(** The provider a name of the order dispatches to; [None] is the
    [else: continue] branch. *)
Definition dispatch (name : string) : option ProviderText :=
  if String.eqb name "google_books" then Some google_books
  else if String.eqb name "open_library" then Some open_library
  else None.

Definition no_match (w : World) : Verification :=
  {| attempted := true; matched := false; provider := None;
     match_confidence := None; canonical := None;
     notes := ["No match found in any provider"%string];
     debug := Some {| queries := all_queries w; debug_top_hits := top_hits w |} |}.

(** The loop of [verify_candidates] over the provider order.  A provider
    that raises leaves an error entry in [all_queries]; its queries are
    not added to [queries_made]. *)
Fixpoint try_providers (title author : option string) (max_queries : Z)
  (order : list string) (made : Z) (w : World) : Verification * World :=
  match order with
  | [] => (no_match w, w)
  | name :: rest =>
      if (max_queries <=? made)%Z
      then (no_match w, w)
      else
        match dispatch name with
        | None => try_providers title author max_queries rest made w
        | Some p =>
            let '(outcome, w) :=
              verify_provider p title author (max_queries - made) w in
            match outcome with
            | Raise e =>
                try_providers title author max_queries rest made
                  (log_query w (ErrorLog name e))
            | Ok result =>
                let made := (made + Z.of_nat (queries_made result))%Z in
                if res_matched result
                then
                  ({| attempted := true; matched := true; provider := Some name;
                      match_confidence :=
                        Some (match res_match_confidence result with
                              | Some c => c
                              | None => 0.0
                              end);
                      canonical := res_canonical result;
                      notes := res_notes result;
                      debug := Some {| queries := all_queries w;
                                       debug_top_hits := top_hits w |} |}, w)
                else try_providers title author max_queries rest made w
            end
        end
  end.

(** [verify_candidates], with the final state of the call. *)
Definition verify_candidates (title author : option string)
  (settings : ParseSettings) : Verification * World :=
  if negb (present title) && negb (present author)
  then ({| attempted := false; matched := false; provider := None;
           match_confidence := None; canonical := None;
           notes := ["No title or author to verify"%string];
           debug := None |}, initial_world)
  else
    let provider_order :=
      match verify_provider_order settings with
      | [] => ["google_books"; "open_library"]%string
      | order => order
      end in
    let max_queries := Z.min (max_verify_queries settings) 6 in
    try_providers title author max_queries provider_order 0 initial_world.

End WithServices.

End Verifier.

(* ===================================================================== *)
(** * Properties of the line normaliser *)
(* ===================================================================== *)

Module NormalizeFacts.

Import Normalize.

(** ** Stripping *)

Lemma drop_while_keeps (p : ascii -> bool) (c : ascii) (l : list ascii) :
  In c l -> p c = false -> In c (Str.drop_while p l).
Proof.
  induction l as [|x l IH]; simpl; [tauto|].
  intros [->|Hin] Hp.
  - rewrite Hp. now left.
  - destruct (p x); [now apply IH | now right].
Qed.

Lemma drop_while_head (p : ascii -> bool) (l : list ascii) (c : ascii)
  (r : list ascii) :
  Str.drop_while p l = c :: r -> p c = false.
Proof.
  induction l as [|x l IH]; simpl; [discriminate|].
  destruct (p x) eqn:Hx; [exact IH|].
  intros [= <- _]. exact Hx.
Qed.

Definition strip_chars (l : list ascii) : list ascii :=
  Str.rstrip_chars (Str.lstrip_chars l).

Lemma strip_chars_keeps (c : ascii) (l : list ascii) :
  In c l -> Str.is_space c = false -> In c (strip_chars l).
Proof.
  intros Hin Hc. unfold strip_chars, Str.rstrip_chars, Str.lstrip_chars.
  apply in_rev. rewrite rev_involutive.
  apply drop_while_keeps; [|exact Hc].
  apply in_rev. rewrite rev_involutive.
  now apply drop_while_keeps.
Qed.

Lemma strip_chars_has_ink (l : list ascii) :
  strip_chars l <> [] ->
  exists c, In c (strip_chars l) /\ Str.is_space c = false.
Proof.
  unfold strip_chars, Str.rstrip_chars. intros Hne.
  destruct (Str.drop_while Str.is_space (rev (Str.lstrip_chars l)))
    as [|c r] eqn:Hd; [now elim Hne|].
  exists c. split.
  - apply in_rev. rewrite rev_involutive. now left.
  - exact (drop_while_head _ _ _ _ Hd).
Qed.

Lemma is_empty_of_chars (l : list ascii) :
  Str.is_empty (Str.of_chars l) = true <-> l = [].
Proof. destruct l; simpl; split; congruence. Qed.

Lemma chars_of_chars (l : list ascii) : Str.chars (Str.of_chars l) = l.
Proof. apply list_ascii_of_string_of_list_ascii. Qed.

Lemma strip_unfold (s : string) :
  Str.strip s = Str.of_chars (strip_chars (Str.chars s)).
Proof. reflexivity. Qed.

(** A text whose stripped form is not empty stays so when stripped again:
    what [text.strip()] returns is not blank. *)
Lemma strip_not_blank (s : string) :
  Str.is_empty (Str.strip s) = false ->
  Str.is_empty (Str.strip (Str.strip s)) = false.
Proof.
  intros H. rewrite strip_unfold in H.
  assert (Hne : strip_chars (Str.chars s) <> []).
  { intros E. rewrite E in H. discriminate. }
  destruct (strip_chars_has_ink _ Hne) as (c & Hin & Hc).
  rewrite (strip_unfold (Str.strip s)), strip_unfold, chars_of_chars.
  pose proof (strip_chars_keeps c _ Hin Hc) as Hin'.
  destruct (Str.is_empty (Str.of_chars (strip_chars (strip_chars (Str.chars s)))))
    eqn:E; [|reflexivity].
  apply is_empty_of_chars in E. rewrite E in Hin'. now elim Hin'.
Qed.

(** ** Records *)

(** What [normalize_ocr] guarantees of a record: the text is neither empty
    nor blank, and the box has four coordinates or more. *)
Definition well_formed (r : LineRecord) : Prop :=
  Str.is_empty (text r) = false
  /\ Str.is_empty (Str.strip (text r)) = false
  /\ 4 <= List.length (bbox r).

Lemma normalize_line_well_formed (w h : Z) (line : Line) (r : LineRecord) :
  normalize_line w h line = Ok (Some r) -> well_formed r.
Proof.
  unfold normalize_line.
  destruct (Str.is_empty (effective_text line)
            || Str.is_empty (Str.strip (effective_text line))) eqn:Hskip;
    [discriminate|].
  apply orb_false_iff in Hskip. destruct Hskip as [_ Hstrip].
  destruct (line_bbox line) as [|x1 [|y1 [|x2 [|y2 more]]]] eqn:Hb;
    try discriminate.
  destruct (normalized _ w) as [cx|]; cbn [bind]; [|discriminate].
  destruct (normalized _ h) as [cy|]; cbn [bind]; [|discriminate].
  intros [= <-]. unfold well_formed; simpl.
  repeat split.
  - exact Hstrip.
  - now apply strip_not_blank.
  - lia.
Qed.

Lemma Forall_firstn {A : Type} (P : A -> Prop) (n : nat) (l : list A) :
  Forall P l -> Forall P (firstn n l).
Proof.
  intros H. revert n.
  induction H as [|x l Hx Hl IH]; intros [|n]; simpl; constructor; auto.
Qed.

(** What holds of every record that a line of the input can give holds
    of every record of the list [normalize_ocr] returns. *)
Lemma normalize_ocr_records_of (Q : Line -> Prop) (P : LineRecord -> Prop) :
  (forall w h line r, Q line -> normalize_line w h line = Ok (Some r) -> P r) ->
  forall ocr settings records,
    Forall Q (all_lines ocr) ->
    normalize_ocr ocr settings = Ok records -> Forall P records.
Proof.
  intros HP ocr settings records HQ. unfold normalize_ocr.
  set (w := match image ocr with Some im => image_width im | None => 1000%Z end).
  set (h := match image ocr with Some im => image_height im | None => 1000%Z end).
  assert (Hall : forall ls made,
             Forall Q ls ->
             map_res (normalize_line w h) ls = Ok made ->
             Forall P (flat_map opt_to_list made)).
  { induction ls as [|l ls IH]; simpl; intros made Hls.
    - intros [= <-]. constructor.
    - inversion Hls as [|? ? Hl Hls']; subst.
      destruct (normalize_line w h l) as [o|] eqn:E; [|discriminate].
      destruct (map_res (normalize_line w h) ls) as [os|]; [|discriminate].
      intros [= <-]. simpl. apply Forall_app. split; [|now apply IH].
      destruct o as [r|]; simpl; [|constructor].
      constructor; [|constructor]. exact (HP _ _ _ _ Hl E). }
  destruct (map_res (normalize_line w h) (all_lines ocr)) as [made|] eqn:E;
    cbn [bind]; [|discriminate].
  specialize (Hall _ _ HQ E).
  destruct (0 <? max_lines_considered settings)%Z; intros [= <-];
    [now apply Forall_firstn | exact Hall].
Qed.

Lemma normalize_ocr_records (P : LineRecord -> Prop) :
  (forall w h line r, normalize_line w h line = Ok (Some r) -> P r) ->
  forall ocr settings records,
    normalize_ocr ocr settings = Ok records -> Forall P records.
Proof.
  intros HP ocr settings records.
  apply (normalize_ocr_records_of (fun _ => True) P).
  - intros w h line r _. apply HP.
  - apply Forall_forall. intros line _. exact I.
Qed.

Lemma normalize_ocr_length (ocr : OCRInput) (settings : ParseSettings)
  (records : list LineRecord) :
  normalize_ocr ocr settings = Ok records ->
  (0 < max_lines_considered settings)%Z ->
  (Z.of_nat (List.length records) <= max_lines_considered settings)%Z.
Proof.
  unfold normalize_ocr. intros H Hpos.
  destruct (map_res _ (all_lines ocr)) as [made|]; cbn [bind] in H; [|discriminate].
  apply Z.ltb_lt in Hpos. rewrite Hpos in H. injection H as <-.
  rewrite length_firstn. lia.
Qed.

(** The coordinates of the box of a record, read as [x1, y1, x2, y2]. *)
Definition inverted (r : LineRecord) : bool :=
  match bbox r with
  | x1 :: y1 :: x2 :: y2 :: _ => PrimFloat.ltb x2 x1 || PrimFloat.ltb y2 y1
  | _ => false
  end.

(** An OCR payload of one line, "Dune", whose box has its corners
    exchanged: x2 < x1 and y2 < y1. *)
Definition inverted_box_input : OCRInput :=
  {| image := Some {| image_width := 1000; image_height := 1500 |};
     chunks := Some {| blocks := [ {| paragraphs := [ {| lines :=
       [ {| line_bbox := [900; 600; 100; 300]%float;
            line_confidence := Some 95%float;
            line_text := Some "Dune";
            words := [] |} ] |} ] |} ] |} |}.

(** C8, as stated, fails: [normalize_ocr] checks the number of
    coordinates of a box and nothing else, so a box with x2 < x1 and
    y2 < y1 is not skipped; its record is returned. *)
Lemma C8_inverted_box_is_kept :
  exists r, normalize_ocr inverted_box_input default_settings = Ok [r]
            /\ text r = "Dune"
            /\ bbox r = [900; 600; 100; 300]%float
            /\ inverted r = true.
Proof. eexists. repeat split. Qed.

(** C8, amended: for every OCR input and every settings, each record
    returned by [normalize_ocr] has a text that is neither empty nor blank
    and a box of at least four coordinates (their order is not checked),
    and the list is no longer than [max_lines_considered] when that
    setting is positive. *)
Theorem C8_normalize_records (ocr : OCRInput) (settings : ParseSettings)
  (records : list LineRecord) :
  normalize_ocr ocr settings = Ok records ->
  Forall well_formed records
  /\ ((0 < max_lines_considered settings)%Z ->
      (Z.of_nat (List.length records) <= max_lines_considered settings)%Z).
Proof.
  intros H. split.
  - exact (normalize_ocr_records well_formed normalize_line_well_formed _ _ _ H).
  - now apply (normalize_ocr_length ocr).
Qed.

(** The theorem at a page of three lines read with a limit of two, the
    second line blank. *)
Definition three_lines : OCRInput :=
  {| image := Some {| image_width := 1000; image_height := 1500 |};
     chunks := Some {| blocks := [ {| paragraphs := [ {| lines :=
       [ {| line_bbox := [100; 300; 900; 600]%float;
            line_confidence := Some 95%float;
            line_text := Some "Dune";
            words := [] |};
         {| line_bbox := [100; 700; 900; 750]%float;
            line_confidence := None;
            line_text := Some "   ";
            words := [] |};
         {| line_bbox := [300; 1200; 700; 1300]%float;
            line_confidence := Some 90%float;
            line_text := Some "Frank Herbert";
            words := [] |};
         {| line_bbox := [300; 1400; 700; 1450]%float;
            line_confidence := Some 90%float;
            line_text := Some "A novel";
            words := [] |} ] |} ] |} ] |} |}.

Definition two_at_most : ParseSettings :=
  {| conf_min_word := 30;
     conf_min_line := 35;
     max_lines_considered := 2;
     merge_adjacent_lines_flag := true;
     junk_filter := true;
     verify := true;
     verify_provider_order := ["google_books"; "open_library"];
     max_verify_queries := 6 |}.

Lemma C8_normalize_records_witness :
  exists records,
    normalize_ocr three_lines two_at_most = Ok records
    /\ map text records = ["Dune"; "Frank Herbert"]
    /\ Forall well_formed records
    /\ (Z.of_nat (List.length records) <= 2)%Z.
Proof.
  destruct (normalize_ocr three_lines two_at_most) as [records|] eqn:E;
    [|vm_compute in E; discriminate].
  exists records. split; [reflexivity|].
  destruct (C8_normalize_records three_lines two_at_most records E) as [Hwf Hlen].
  split; [|split; [exact Hwf | apply Hlen; reflexivity]].
  vm_compute in E. injection E as <-. reflexivity.
Defined.

End NormalizeFacts.

(* ===================================================================== *)
(** * Properties of the ranker: scoring and merging *)
(* ===================================================================== *)

Module ScoringFacts.

Import Ranker.
Local Open Scope float_scope.

(** The line "by George Orwell" as [normalize_ocr] builds it on a
    1000 x 1500 image. *)
Definition orwell_line : LineRecord :=
  {| text := "by George Orwell";
     bbox := [300; 1200; 700; 1300];
     line_conf := Some 90;
     height := 100;
     center_x := 0.5;
     center_y := 1250 / 1500;
     word_count := 3;
     char_len := 16;
     tokens := ["by"; "George"; "Orwell"]%string;
     caps_ratio := 2 / 14 |}.

(** C9, as stated, fails: [author_score] assigns to [line.text].  After
    the call on "by George Orwell" the record reads "George Orwell". *)
Lemma C9_author_score_rewrites_text :
  text (snd (author_score orwell_line 100)) = "George Orwell"%string
  /\ text (snd (author_score orwell_line 100)) <> text orwell_line.
Proof. split; [reflexivity | discriminate]. Qed.

(** C9, amended: [title_score] reads the record and returns a score (it
    has no assignment, so its model has no record to return);
    [author_score] leaves every field but [text] as it was, leaves [text]
    as it was when the text has no "by" prefix, and otherwise replaces it,
    in place, by the text without the leading "by" and the spaces around
    it. *)
Theorem C9_author_score_frame (line : LineRecord) (max_height : float) :
  let after := snd (author_score line max_height) in
  text after = (if has_by_prefix (text line)
                then strip_by (text line) else text line)
  /\ bbox after = bbox line
  /\ line_conf after = line_conf line
  /\ height after = height line
  /\ center_x after = center_x line
  /\ center_y after = center_y line
  /\ word_count after = word_count line
  /\ char_len after = char_len line
  /\ tokens after = tokens line
  /\ caps_ratio after = caps_ratio line.
Proof.
  unfold author_score.
  destruct (has_by_prefix (text line)); simpl; repeat split.
Qed.

End ScoringFacts.

Module MergeFacts.

Import Ranker Normalize.
Local Open Scope float_scope.

Definition ocr_line (b : list float) (t : string) : Line :=
  {| line_bbox := b; line_confidence := Some 90; line_text := Some t; words := [] |}.

Definition page (ls : list Line) : OCRInput :=
  {| image := Some {| image_width := 1000; image_height := 1500 |};
     chunks := Some {| blocks := [ {| paragraphs := [ {| lines := ls |} ] |} ] |} |}.

(** A title set on two lines, the second in smaller type right under the
    first. *)
Definition stacked_title : OCRInput :=
  page [ ocr_line [400; 100; 600; 200] "The";
         ocr_line [400; 200; 600; 220] "Great" ].

(** C6, as stated, fails: the merged record of the two lines of
    [stacked_title] has the union box [400, 100, 600, 220], but its height
    is 100, the larger of the parents' heights, not 220 - 100; and its
    centre is (500, 160), in pixels, not normalised by the image size. *)
Lemma C6_merged_height_and_centre :
  exists m,
    (records <- normalize_ocr stacked_title default_settings ;;
     merge_adjacent_lines records) = Ok [m]
    /\ bbox m = [400; 100; 600; 220]
    /\ height m = 100
    /\ PrimFloat.eqb (height m) (220 - 100) = false
    /\ center_x m = 500
    /\ center_y m = 160
    /\ gt (center_x m) 1 = true.
Proof. eexists. repeat split. Qed.

Lemma bbox_get_ok (b : list float) (i : nat) (v : float) :
  bbox_get b i = Ok v -> nth_error b i = Some v.
Proof.
  unfold bbox_get. destruct (nth_error b i); [intros [= ->]; reflexivity | discriminate].
Qed.

(** The box, tokens, text and counts of a merged record. *)
Lemma merge_pair_fields (current candidate m : LineRecord) :
  merge_pair current candidate = Ok m ->
  exists c0 c1 c2 c3 d0 d1 d2 d3,
    nth_error (bbox current) 0 = Some c0 /\ nth_error (bbox current) 1 = Some c1
    /\ nth_error (bbox current) 2 = Some c2 /\ nth_error (bbox current) 3 = Some c3
    /\ nth_error (bbox candidate) 0 = Some d0 /\ nth_error (bbox candidate) 1 = Some d1
    /\ nth_error (bbox candidate) 2 = Some d2 /\ nth_error (bbox candidate) 3 = Some d3
    /\ m = {| text := (text current ++ " " ++ text candidate)%string;
              bbox := [py_min c0 d0; py_min c1 d1; py_max c2 d2; py_max c3 d3];
              line_conf :=
                if truthy_opt (line_conf current) && truthy_opt (line_conf candidate)
                then match line_conf current, line_conf candidate with
                     | Some a, Some b => Some ((a + b) / 2)
                     | _, _ => None
                     end
                else py_or (line_conf current) (line_conf candidate);
              height := py_max (height current) (height candidate);
              center_x := (py_min c0 d0 + py_max c2 d2) / 2;
              center_y := (py_min c1 d1 + py_max c3 d3) / 2;
              word_count := List.length (tokens current ++ tokens candidate);
              char_len := Str.len (text current ++ " " ++ text candidate);
              tokens := tokens current ++ tokens candidate;
              caps_ratio :=
                calculate_caps_ratio (text current ++ " " ++ text candidate) |}.
Proof.
  unfold merge_pair.
  destruct (bbox_get (bbox current) 0) as [c0|] eqn:C0; cbn [bind]; [|discriminate].
  destruct (bbox_get (bbox candidate) 0) as [d0|] eqn:D0; cbn [bind]; [|discriminate].
  destruct (bbox_get (bbox current) 1) as [c1|] eqn:C1; cbn [bind]; [|discriminate].
  destruct (bbox_get (bbox candidate) 1) as [d1|] eqn:D1; cbn [bind]; [|discriminate].
  destruct (bbox_get (bbox current) 2) as [c2|] eqn:C2; cbn [bind]; [|discriminate].
  destruct (bbox_get (bbox candidate) 2) as [d2|] eqn:D2; cbn [bind]; [|discriminate].
  destruct (bbox_get (bbox current) 3) as [c3|] eqn:C3; cbn [bind]; [|discriminate].
  destruct (bbox_get (bbox candidate) 3) as [d3|] eqn:D3; cbn [bind]; [|discriminate].
  intros [= <-].
  exists c0, c1, c2, c3, d0, d1, d2, d3.
  repeat (split; [now apply bbox_get_ok|]). reflexivity.
Qed.

(** C6, amended: when the merge pass lets [current] absorb [candidate],
    the pass goes on with a new record [m] in place of [current], built
    from the two parents: its text is the two texts joined by a space, its
    box is the union of the two boxes, its tokens are the concatenation,
    its word count, character length and caps ratio are recomputed from
    the merged tokens and text, and its height is the larger of the
    parents' heights; its confidence is the mean of the parents'
    confidences when both are present and non-zero, and the confidence of
    the one parent that has a non-zero one when the other has none. *)
Theorem C6_merged_record (avg : float) (current candidate m : LineRecord)
  (rest : list LineRecord) :
  look_ahead avg current candidate = Ok Absorb ->
  merge_pair current candidate = Ok m ->
  sweep avg current (candidate :: rest) = sweep avg m rest
  /\ text m = (text current ++ " " ++ text candidate)%string
  /\ (exists c0 c1 c2 c3 d0 d1 d2 d3,
        firstn 4 (bbox current) = [c0; c1; c2; c3]
        /\ firstn 4 (bbox candidate) = [d0; d1; d2; d3]
        /\ bbox m = [py_min c0 d0; py_min c1 d1; py_max c2 d2; py_max c3 d3])
  /\ tokens m = tokens current ++ tokens candidate
  /\ word_count m = List.length (tokens m)
  /\ char_len m = Str.len (text m)
  /\ caps_ratio m = calculate_caps_ratio (text m)
  /\ height m = py_max (height current) (height candidate)
  /\ (forall a b, line_conf current = Some a -> line_conf candidate = Some b ->
        truthy a = true -> truthy b = true ->
        line_conf m = Some ((a + b) / 2))
  /\ (forall a, line_conf current = Some a -> line_conf candidate = None ->
        truthy a = true -> line_conf m = Some a)
  /\ (forall b, line_conf current = None -> line_conf candidate = Some b ->
        line_conf m = Some b)
  /\ (line_conf current = None -> line_conf candidate = None ->
        line_conf m = None).
Proof.
  intros Hlook Hm.
  split.
  { simpl. rewrite Hlook. simpl. rewrite Hm. reflexivity. }
  destruct (merge_pair_fields _ _ _ Hm)
    as (c0 & c1 & c2 & c3 & d0 & d1 & d2 & d3
        & C0 & C1 & C2 & C3 & D0 & D1 & D2 & D3 & ->).
  simpl. split; [reflexivity|]. split.
  { exists c0, c1, c2, c3, d0, d1, d2, d3.
    destruct (bbox current) as [|x0 [|x1 [|x2 [|x3 xs]]]]; try discriminate.
    destruct (bbox candidate) as [|z0 [|z1 [|z2 [|z3 zs]]]]; try discriminate.
    simpl in *. repeat split; congruence. }
  do 5 (split; [reflexivity|]).
  split; [|split; [|split]].
  - intros a b -> -> Ha Hb. simpl. rewrite Ha, Hb. reflexivity.
  - intros a -> -> Ha. simpl. unfold py_or. simpl. rewrite Ha. reflexivity.
  - intros b -> ->. reflexivity.
  - intros -> ->. reflexivity.
Qed.

(** The theorem at the two lines of [stacked_title]. *)
Lemma C6_merged_record_witness :
  exists cur cand m,
    normalize_ocr stacked_title default_settings = Ok [cur; cand]
    /\ merge_pair cur cand = Ok m
    /\ sweep 60 cur [cand] = sweep 60 m []
    /\ bbox m = [400; 100; 600; 220]
    /\ height m = 100.
Proof.
  eexists _, _, _.
  split; [reflexivity|]. split; [reflexivity|].
  split; [| split; reflexivity].
  refine (proj1 (C6_merged_record 60 _ _ _ [] _ _)); reflexivity.
Defined.

(** ** A second pass *)

(** A title and a subtitle, each set on two lines: a tall line and a short
    one right under it; the two pairs are 50 pixels apart. *)
Definition two_stacks : OCRInput :=
  page [ ocr_line [400; 100; 600; 200] "The";
         ocr_line [400; 200; 600; 220] "Great";
         ocr_line [400; 270; 600; 370] "Gatsby";
         ocr_line [400; 370; 600; 390] "Story" ].

(** C7, as stated, fails.  The first pass over [two_stacks] measures gaps
    against 0.6 x 60 (the mean of the heights 100, 20, 100, 20) and keeps
    the two pairs apart; its output has two records of height 100, so the
    second pass measures the same gap of 50 against 0.6 x 100 and merges
    them. *)
Lemma C7_second_pass_merges :
  exists first second,
    (records <- normalize_ocr two_stacks default_settings ;;
     merge_adjacent_lines records) = Ok first
    /\ map text first = ["The Great"; "Gatsby Story"]%string
    /\ merge_adjacent_lines first = Ok second
    /\ map text second = ["The Great Gatsby Story"]%string.
Proof. eexists _, _. repeat split. Qed.

(** A pass emits at most one record for each line it visits. *)
Lemma sweep_length (avg : float) (rest : list LineRecord) :
  forall current out, sweep avg current rest = Ok out ->
                      List.length out <= S (List.length rest).
Proof.
  induction rest as [|next rest IH]; intros current out; simpl.
  - intros [= <-]. simpl. lia.
  - destruct (look_ahead avg current next) as [[| |]|]; simpl; try discriminate.
    + destruct (sweep avg next rest) as [groups|] eqn:E; simpl; [|discriminate].
      intros [= <-]. simpl. specialize (IH _ _ E). lia.
    + intros H. specialize (IH _ _ H). lia.
    + destruct (merge_pair current next) as [m|]; simpl; [|discriminate].
      intros H. specialize (IH _ _ H). lia.
Qed.

(** The merge pass never returns more records than it was given. *)
Lemma merge_adjacent_lines_length (ls out : list LineRecord) :
  merge_adjacent_lines ls = Ok out -> List.length out <= List.length ls.
Proof.
  destruct ls as [|first rest]; simpl.
  - intros [= <-]. simpl. lia.
  - apply sweep_length.
Qed.

End MergeFacts.

(* ===================================================================== *)
(** * Properties of the ranker: best-pick resolution *)
(* ===================================================================== *)

Module RankFacts.

Import Ranker Normalize.
Local Open Scope float_scope.

Definition cover_line (b : list float) (c : option float) (t : string) : Line :=
  {| line_bbox := b; line_confidence := c; line_text := Some t; words := [] |}.

Definition cover (ls : list Line) : OCRInput :=
  {| image := Some {| image_width := 1000; image_height := 1500 |};
     chunks := Some {| blocks := [ {| paragraphs := [ {| lines := ls |} ] |} ] |} |}.

(** [rank_candidates] on the records [normalize_ocr] makes of an input,
    as the parse endpoint calls the two. *)
Definition parse (ocr : OCRInput) (settings : ParseSettings) : res RankResult :=
  records <- normalize_ocr ocr settings ;;
  rank_candidates records ocr settings.

(** The records of a normalisation that did not raise. *)
Definition records_of (r : res (list LineRecord)) : list LineRecord :=
  match r with
  | Ok records => records
  | Raise _ => []
  end.

(** ** Everything filtered as junk (C10) *)

Lemma filter_none {A : Type} (p : A -> bool) (l : list A) :
  (forall x, In x l -> p x = false) -> filter p l = [].
Proof.
  induction l as [|x l IH]; simpl; intros H; [reflexivity|].
  rewrite (H x (or_introl eq_refl)). apply IH. intros y Hy. apply H. now right.
Qed.

(** The decimal digits of a count, as the standard library writes them. *)
Definition decimal (n : nat) : string := NilZero.string_of_uint (Nat.to_uint n).

(** C10, as stated, fails when there is no non-blank line at all: the
    junk filter is on and every non-blank line is junk (there is none),
    but the call returns before the filter and the only warning is "No
    valid lines found in OCR"; no warning reports a number of filtered
    lines.  So it is on a page without lines, and on a list of one record
    whose text is blank. *)
Lemma C10_no_line_no_count :
  junk_filter default_settings = true
  /\ (forall l, In l (@nil LineRecord) -> valid_line l = true ->
                is_junk (text l) = true)
  /\ normalize_ocr (cover []) default_settings = Ok []
  /\ parse (cover []) default_settings
     = Ok {| title := None;
             author := None;
             confidence := 0.0;
             title_candidates := [];
             author_candidates := [];
             warnings := ["No valid lines found in OCR"%string] |}
  /\ (forall n, ["No valid lines found in OCR"%string]
                <> [("Filtered " ++ decimal n ++ " junk lines")%string]).
Proof.
  split; [reflexivity|]. split; [intros l []|].
  split; [reflexivity|]. split; [reflexivity|].
  intros n. discriminate.
Qed.

(** C10, amended: with the junk filter on, when every non-blank line is
    junk, [rank_candidates] returns normally, with no title, no author,
    confidence 0.0, no candidates and exactly one warning: "Filtered n
    junk lines", n being the number of non-blank lines written in decimal
    digits, when there is a non-blank line, and "No valid lines found in
    OCR" when there is none. *)
Theorem C10_all_junk (ls : list LineRecord) (ocr : OCRInput)
  (settings : ParseSettings) :
  junk_filter settings = true ->
  (forall l, In l ls -> valid_line l = true -> is_junk (text l) = true) ->
  rank_candidates ls ocr settings =
    Ok {| title := None;
          author := None;
          confidence := 0.0;
          title_candidates := [];
          author_candidates := [];
          warnings :=
            [ match filter valid_line ls with
              | [] => "No valid lines found in OCR"
              | valid =>
                  "Filtered " ++ decimal (List.length valid) ++ " junk lines"
              end%string ] |}.
Proof.
  intros Hon Hjunk.
  unfold rank_candidates.
  assert (Hkept : filter (fun l => negb (is_junk (text l))) (filter valid_line ls) = []).
  { apply filter_none. intros l Hl. apply filter_In in Hl. destruct Hl as [Hin Hv].
    now rewrite (Hjunk l Hin Hv). }
  destruct (filter valid_line ls) as [|v vs] eqn:Hvalid; [reflexivity|].
  unfold select_top, apply_junk_filter. rewrite Hon, Hkept.
  change (List.length (@nil LineRecord)) with 0%nat.
  replace (0 <? List.length (v :: vs))%nat with true by reflexivity.
  rewrite Nat.sub_0_r.
  destruct (merge_adjacent_lines_flag settings); reflexivity.
Qed.

(** Without a non-blank line the junk filter is not reached: the call
    returns at once, with its own warning. *)
Lemma no_valid_lines (ls : list LineRecord) (ocr : OCRInput)
  (settings : ParseSettings) :
  filter valid_line ls = [] ->
  rank_candidates ls ocr settings =
    Ok {| title := None;
          author := None;
          confidence := 0.0;
          title_candidates := [];
          author_candidates := [];
          warnings := [no_valid_lines_warning] |}.
Proof. intros H. unfold rank_candidates. rewrite H. reflexivity. Qed.

(** A copyright page: two lines, both junk. *)
Definition copyright_page : OCRInput :=
  cover [ cover_line [100; 100; 900; 150] (Some 90%float) "Copyright 2019 Penguin";
          cover_line [100; 200; 900; 250] (Some 90%float) "ISBN 978-0-14-103614-4" ].

Definition copyright_records : list LineRecord :=
  Eval vm_compute in records_of (normalize_ocr copyright_page default_settings).

Lemma C10_all_junk_witness :
  normalize_ocr copyright_page default_settings = Ok copyright_records
  /\ map text copyright_records
     = ["Copyright 2019 Penguin"; "ISBN 978-0-14-103614-4"]%string
  /\ parse copyright_page default_settings
     = Ok {| title := None;
             author := None;
             confidence := 0.0;
             title_candidates := [];
             author_candidates := [];
             warnings := ["Filtered 2 junk lines"%string] |}.
Proof.
  assert (H : normalize_ocr copyright_page default_settings = Ok copyright_records)
    by (vm_compute; reflexivity).
  split; [exact H|]. split; [reflexivity|].
  unfold parse. rewrite H. cbn [bind].
  rewrite (C10_all_junk copyright_records copyright_page default_settings).
  - reflexivity.
  - reflexivity.
  - intros l Hl _. simpl in Hl. destruct Hl as [<-|[<-|[]]]; vm_compute; reflexivity.
Defined.

(** ** Reading results *)

(** The title, the author and the warnings of a result; [None] when the
    call raised. *)
Definition outcome (r : res RankResult)
  : option (option string * option string * list string) :=
  match r with
  | Ok r => Some (title r, author r, warnings r)
  | Raise _ => None
  end.

Definition texts_of (p : picks) : option string * option string :=
  (option_map text (fst p), option_map text (snd p)).

Definition ranked_texts (top : list scored) : list string :=
  map (fun e => text (fst e)) top.

Definition no_tops : Tops :=
  {| top_title_candidates := []; top_author_candidates := [];
     max_height := 0; tops_warnings := [] |}.

(** The value of a top-5 selection that did not raise. *)
Definition tops_of (r : res Tops) : Tops :=
  match r with
  | Ok t => t
  | Raise _ => no_tops
  end.

(** The top-5 lists of an input, as [rank_candidates] computes them. *)
Definition tops_on (ocr : OCRInput) (settings : ParseSettings) : res Tops :=
  records <- normalize_ocr ocr settings ;;
  select_top settings (filter valid_line records).

(** ** Identical title and author (C1) *)

(** A cover that prints the title twice: large at the top, small at the
    bottom. *)
Definition title_printed_twice : OCRInput :=
  cover [ cover_line [100; 200; 900; 500] (Some 95) "DUNE";
          cover_line [400; 1300; 600; 1350] (Some 90) "Dune" ].

(** C1 (defect of the code): the identity guard compares the two top
    candidates once and installs the runner-up unexamined.  On
    [title_printed_twice] the large line tops both lists; the guard
    replaces the author by the runner-up, the small line, whose text
    differs from the title by case only. *)
Theorem C1_equal_title_and_author_returned :
  outcome (parse title_printed_twice default_settings)
    = Some (Some "DUNE", Some "Dune", [])%string
  /\ Str.lower "DUNE" = Str.lower "Dune".
Proof. split; vm_compute; reflexivity. Qed.

(** ** The overlap guard (C2) *)

(** The overlap guard in the words of the specification: the runner-ups
    are accepted at an IoU of 0.2 or less, and the author runner-ups are
    searched only if the pair still overlaps after the title search. *)
Definition overlap_guard_as_specified (tt ta : list scored) (p : picks) : picks :=
  match p with
  | (Some best_title, Some best_author) =>
      if gt (calculate_bbox_iou (bbox best_title) (bbox best_author)) 0.2 then
        let best_title :=
          match first_alternative
                  (fun title_line =>
                     PrimFloat.leb
                       (calculate_bbox_iou (bbox title_line) (bbox best_author)) 0.2)
                  tt with
          | Some title_line => title_line
          | None => best_title
          end in
        if gt (calculate_bbox_iou (bbox best_title) (bbox best_author)) 0.2 then
          let best_author :=
            match first_alternative
                    (fun author_line =>
                       PrimFloat.leb
                         (calculate_bbox_iou (bbox best_title) (bbox author_line)) 0.2)
                    ta with
            | Some author_line => author_line
            | None => best_author
            end in
          (Some best_title, Some best_author)
        else (Some best_title, Some best_author)
      else p
  | _ => p
  end.

(** A cover whose author line is boxed over the lower part of the title,
    with a tag line at the bottom. *)
Definition overlapping_cover : OCRInput :=
  cover [ cover_line [100; 300; 900; 600] (Some 95) "DUNE";
          cover_line [100; 450; 900; 650] (Some 90) "by Frank Herbert";
          cover_line [300; 1200; 700; 1260] (Some 90) "Arrakis awaits" ].

Definition overlapping_tops : Tops :=
  Eval vm_compute in tops_of (tops_on overlapping_cover default_settings).

(** C2 (defect of the code): the test before the author search reads the
    IoU computed before the title search.  On [overlapping_cover] the top
    picks "DUNE" and "Frank Herbert" overlap (IoU 3/7); the title search
    installs "Arrakis awaits", which does not overlap the author at all;
    the author search runs nevertheless and replaces "Frank Herbert" by
    "DUNE".  The guard as specified keeps "Frank Herbert". *)
Theorem C2_author_search_after_resolved_overlap :
  tops_on overlapping_cover default_settings = Ok overlapping_tops
  /\ ranked_texts (top_title_candidates overlapping_tops)
     = ["DUNE"; "Frank Herbert"; "Arrakis awaits"]%string
  /\ ranked_texts (top_author_candidates overlapping_tops)
     = ["Frank Herbert"; "DUNE"; "Arrakis awaits"]%string
  /\ calculate_bbox_iou [100; 300; 900; 600] [100; 450; 900; 650]
     = 120000 / 280000
  /\ calculate_bbox_iou [300; 1200; 700; 1260] [100; 450; 900; 650] = 0
  /\ texts_of (overlap_guard (top_title_candidates overlapping_tops)
                 (top_author_candidates overlapping_tops)
                 (first_line (top_title_candidates overlapping_tops),
                  first_line (top_author_candidates overlapping_tops)))
     = (Some "Arrakis awaits", Some "DUNE")%string
  /\ texts_of (overlap_guard_as_specified
                 (top_title_candidates overlapping_tops)
                 (top_author_candidates overlapping_tops)
                 (first_line (top_title_candidates overlapping_tops),
                  first_line (top_author_candidates overlapping_tops)))
     = (Some "Arrakis awaits", Some "Frank Herbert")%string
  /\ outcome (parse overlapping_cover default_settings)
     = Some (Some "Arrakis awaits", Some "DUNE", [])%string.
Proof. repeat split; vm_compute; reflexivity. Qed.

(** The searches accept a runner-up below 0.2 only: two boxes that share
    a fifth of their union are at the threshold, which the strict test of
    the code rejects and the test of the specification accepts. *)
Lemma runner_up_at_threshold :
  calculate_bbox_iou [0; 0; 3; 1] [2; 0; 5; 1] = 0.2
  /\ PrimFloat.ltb (calculate_bbox_iou [0; 0; 3; 1] [2; 0; 5; 1]) 0.2 = false
  /\ PrimFloat.leb (calculate_bbox_iou [0; 0; 3; 1] [2; 0; 5; 1]) 0.2 = true.
Proof. repeat split; vm_compute; reflexivity. Qed.

(** Whatever the title search finds, the author search follows it: once
    the top pair overlaps, the picks are the result of both searches. *)
Lemma overlap_guard_runs_both_searches (tt ta : list scored)
  (best_title best_author : LineRecord) :
  gt (calculate_bbox_iou (bbox best_title) (bbox best_author)) 0.2 = true ->
  overlap_guard tt ta (Some best_title, Some best_author) =
    let new_title :=
      match first_alternative
              (fun l => PrimFloat.ltb
                          (calculate_bbox_iou (bbox l) (bbox best_author)) 0.2) tt with
      | Some l => l
      | None => best_title
      end in
    (Some new_title,
     Some match first_alternative
                  (fun l => PrimFloat.ltb
                              (calculate_bbox_iou (bbox new_title) (bbox l)) 0.2) ta with
          | Some l => l
          | None => best_author
          end).
Proof. intros H. unfold overlap_guard. rewrite H. reflexivity. Qed.

(** ** The swap (C5) *)

(** The three tests of the swap on the picks the guards leave, as the code
    makes them. *)
Definition swap_condition (tops : Tops) (best_title best_author : LineRecord)
  : bool :=
  gt (person_like_score (text best_title) (tokens best_title)) 0.6
  && PrimFloat.ltb (person_like_score (text best_author) (tokens best_author)) 0.3
  && match top_author_candidates tops, top_title_candidates tops with
     | (_, a0) :: _, (_, t0) :: _ => gt a0 (t0 * 0.8)
     | _, _ => false
     end.

(** The same tests with the third one as the specification words it: the
    top author score is at least 0.8 times the top title score. *)
Definition swap_condition_as_specified (tops : Tops)
  (best_title best_author : LineRecord) : bool :=
  gt (person_like_score (text best_title) (tokens best_title)) 0.6
  && PrimFloat.ltb (person_like_score (text best_author) (tokens best_author)) 0.3
  && match top_author_candidates tops, top_title_candidates tops with
     | (_, a0) :: _, (_, t0) :: _ => ge a0 (t0 * 0.8)
     | _, _ => false
     end.

(** The guards only ever pick lines of the two lists. *)
Lemma identity_guard_some (tt ta : list scored) (p : picks) (t a : LineRecord) :
  identity_guard tt ta (first_line tt, first_line ta) = Ok p ->
  p = (Some t, Some a) -> tt <> [] /\ ta <> [].
Proof.
  destruct tt as [|[t0 s0] tt]; destruct ta as [|[a0 r0] ta]; simpl.
  - intros [= <-]. discriminate.
  - intros [= <-]. discriminate.
  - intros [= <-]. discriminate.
  - intros _ _. split; discriminate.
Qed.

Lemma overlap_guard_some (tt ta : list scored) (p : picks) (t a : LineRecord) :
  overlap_guard tt ta p = (Some t, Some a) ->
  exists t' a', p = (Some t', Some a').
Proof.
  destruct p as [[t'|] [a'|]]; simpl; try discriminate.
  intros _. now exists t', a'.
Qed.

Lemma guarded_picks_some (tops : Tops) (t a : LineRecord) :
  guarded_picks tops = Ok (Some t, Some a) ->
  top_title_candidates tops <> [] /\ top_author_candidates tops <> [].
Proof.
  unfold guarded_picks.
  destruct (identity_guard _ _ _) as [p|] eqn:E; simpl; [|discriminate].
  intros [= H]. destruct (overlap_guard_some _ _ _ _ _ H) as (t' & a' & ->).
  exact (identity_guard_some _ _ _ t' a' E eq_refl).
Qed.

(** The swap stage on a chosen pair. *)
Lemma swap_logic_spec (tops : Tops) (t a : LineRecord) (warns : list string) :
  top_title_candidates tops <> [] ->
  top_author_candidates tops <> [] ->
  swap_logic (top_title_candidates tops) (top_author_candidates tops)
             (Some t, Some a) warns
  = Ok (if swap_condition tops t a
        then ((Some a, Some t), warns ++ [swap_warning])
        else ((Some t, Some a), warns)).
Proof.
  unfold swap_logic, swap_condition.
  destruct (top_title_candidates tops) as [|[t0 s0] tt]; [now intros []|].
  destruct (top_author_candidates tops) as [|[a0 r0] ta]; [now intros _ []|].
  intros _ _. simpl.
  destruct (gt (person_like_score (text t) (tokens t)) 0.6); simpl; [|reflexivity].
  destruct (PrimFloat.ltb (person_like_score (text a) (tokens a)) 0.3); simpl;
    [|reflexivity].
  destruct (gt r0 (s0 * 0.8)); reflexivity.
Qed.

(** C5, amended: when the guards leave a title and an author,
    [rank_candidates] swaps them, and appends the swap warning, exactly
    when the person-likeness of the title exceeds 0.6, that of the author
    is below 0.3, and the top author score is strictly greater than 0.8
    times the top title score; otherwise it returns the pair as the guards
    left it and adds no warning. *)
Theorem C5_swap_exactly_when (ls : list LineRecord) (ocr : OCRInput)
  (settings : ParseSettings) (tops : Tops) (t a : LineRecord) (r : RankResult) :
  select_top settings (filter valid_line ls) = Ok tops ->
  guarded_picks tops = Ok (Some t, Some a) ->
  rank_candidates ls ocr settings = Ok r ->
  (swap_condition tops t a = true ->
     title r = Some (text a) /\ author r = Some (text t)
     /\ warnings r = tops_warnings tops ++ [swap_warning])
  /\ (swap_condition tops t a = false ->
     title r = Some (text t) /\ author r = Some (text a)
     /\ warnings r = tops_warnings tops).
Proof.
  intros Htops Hpicks.
  destruct (guarded_picks_some _ _ _ Hpicks) as [Htt Hta].
  unfold rank_candidates.
  destruct (filter valid_line ls) as [|v vs] eqn:Hvalid.
  { exfalso. unfold select_top, apply_junk_filter in Htops.
    destruct (junk_filter settings); cbn in Htops;
      destruct (merge_adjacent_lines_flag settings); cbn in Htops;
      injection Htops as <-; now apply Htt. }
  rewrite Htops. cbn [bind].
  destruct (map_res _ (top_title_candidates tops)) as [tcs|]; cbn [bind];
    [|discriminate].
  destruct (map_res _ (top_author_candidates tops)) as [acs|]; cbn [bind];
    [|discriminate].
  rewrite Hpicks. cbn [bind].
  rewrite (swap_logic_spec tops t a _ Htt Hta).
  destruct (swap_condition tops t a); cbn [bind]; intros [= <-]; simpl;
    split; intros H; try discriminate; repeat split.
Qed.

Definition no_record : LineRecord :=
  {| text := ""; bbox := []; line_conf := None; height := 0; center_x := 0;
     center_y := 0; word_count := 0; char_len := 0; tokens := [];
     caps_ratio := 0 |}.

(** The pair the guards leave, when they leave one. *)
Definition title_pick (p : res picks) : LineRecord :=
  match p with
  | Ok (Some t, _) => t
  | _ => no_record
  end.

Definition author_pick (p : res picks) : LineRecord :=
  match p with
  | Ok (_, Some a) => a
  | _ => no_record
  end.

Definition result_of (r : res RankResult) : RankResult :=
  match r with
  | Ok r => r
  | Raise _ =>
      {| title := None; author := None; confidence := 0;
         title_candidates := []; author_candidates := []; warnings := [] |}
  end.

(** A cover with a name-like title that is confidently read and a
    descriptive author line at the margin. *)
Definition jane_eyre_cover : OCRInput :=
  cover [ cover_line [125; 600; 725; 900] (Some 90) "JANE EYRE";
          cover_line [0; 480; 160; 580] None "by the author of 1984" ].

Definition jane_eyre_tops : Tops :=
  Eval vm_compute in tops_of (tops_on jane_eyre_cover default_settings).
Definition jane_eyre_title : LineRecord :=
  Eval vm_compute in title_pick (guarded_picks jane_eyre_tops).
Definition jane_eyre_author : LineRecord :=
  Eval vm_compute in author_pick (guarded_picks jane_eyre_tops).

(** C5, as stated, fails at the boundary.  On [jane_eyre_cover] the title
    line tops both lists, with title score 0.85 and author score 0.68; the
    identity guard makes the other line the author.  The title is
    person-like (0.7), the author is not (0.0), and the top author score
    equals 0.8 times the top title score, so the condition as specified
    holds; the code asks for strictly more and does not swap. *)
Lemma C5_no_swap_at_equality :
  tops_on jane_eyre_cover default_settings = Ok jane_eyre_tops
  /\ guarded_picks jane_eyre_tops = Ok (Some jane_eyre_title, Some jane_eyre_author)
  /\ text jane_eyre_title = "JANE EYRE"%string
  /\ text jane_eyre_author = "the author of 1984"%string
  /\ map snd (top_title_candidates jane_eyre_tops) = [0.85; 0.482]
  /\ map snd (top_author_candidates jane_eyre_tops) = [0.68; 0.6]
  /\ 0.85 * 0.8 = 0.68
  /\ person_like_score (text jane_eyre_title) (tokens jane_eyre_title)
     = 0.3 + 0.2 + 0.3 - 0.1
  /\ person_like_score (text jane_eyre_author) (tokens jane_eyre_author) = 0
  /\ swap_condition_as_specified jane_eyre_tops jane_eyre_title jane_eyre_author
     = true
  /\ outcome (parse jane_eyre_cover default_settings)
     = Some (Some "JANE EYRE", Some "the author of 1984", [])%string.
Proof. repeat split; vm_compute; reflexivity. Qed.

(** The same cover with the title further from the centre line: its title
    score drops to 0.81, and the swap is made. *)
Definition swapped_cover : OCRInput :=
  cover [ cover_line [25; 600; 625; 900] (Some 90) "JANE EYRE";
          cover_line [0; 480; 160; 580] None "by the author of 1984" ].

Definition swapped_records : list LineRecord :=
  Eval vm_compute in records_of (normalize_ocr swapped_cover default_settings).
Definition swapped_tops : Tops :=
  Eval vm_compute in tops_of (tops_on swapped_cover default_settings).
Definition swapped_title : LineRecord :=
  Eval vm_compute in title_pick (guarded_picks swapped_tops).
Definition swapped_author : LineRecord :=
  Eval vm_compute in author_pick (guarded_picks swapped_tops).
Definition swapped_result : RankResult :=
  Eval vm_compute in result_of (parse swapped_cover default_settings).

Lemma swapped_cover_records :
  normalize_ocr swapped_cover default_settings = Ok swapped_records.
Proof. vm_compute. reflexivity. Qed.

Lemma swapped_cover_tops :
  select_top default_settings (filter valid_line swapped_records)
  = Ok swapped_tops.
Proof. vm_compute. reflexivity. Qed.

Lemma swapped_cover_picks :
  guarded_picks swapped_tops = Ok (Some swapped_title, Some swapped_author).
Proof. vm_compute. reflexivity. Qed.

Lemma swapped_cover_result :
  rank_candidates swapped_records swapped_cover default_settings
  = Ok swapped_result.
Proof. vm_compute. reflexivity. Qed.

Lemma C5_swap_exactly_when_witness :
  text swapped_title = "JANE EYRE"%string
  /\ text swapped_author = "the author of 1984"%string
  /\ swap_condition swapped_tops swapped_title swapped_author = true
  /\ (title swapped_result = Some (text swapped_author)
      /\ author swapped_result = Some (text swapped_title)
      /\ warnings swapped_result = tops_warnings swapped_tops ++ [swap_warning]).
Proof.
  split; [reflexivity|]. split; [reflexivity|].
  split; [vm_compute; reflexivity|].
  apply (proj1 (C5_swap_exactly_when
                  swapped_records
                  swapped_cover default_settings
                  swapped_tops swapped_title swapped_author swapped_result
                  swapped_cover_tops swapped_cover_picks swapped_cover_result)).
  vm_compute. reflexivity.
Defined.

End RankFacts.

(* ===================================================================== *)
(** * Properties of the verification orchestrator *)
(* ===================================================================== *)

Module VerifierFacts.

Import Verifier.
Local Open Scope float_scope.

(** ** A match carries a canonical record and a confidence (C4) *)

(** What a result that claims a match must hold. *)
Definition sound_match (m : bool) (c : option VerificationCanonical)
  (conf : option float) : Prop :=
  m = true -> exists record score,
    c = Some record /\ conf = Some score /\ ge score 0.6 = true.

Section Matching.

Variable rapidfuzz : option (string -> string -> float).
Variable http : nat -> Request -> HttpOutcome.

Lemma provider_return_sound (b : best) (made : nat) (notes : list string)
  (r : ProviderResult) :
  provider_return b made notes = Ok r ->
  sound_match (res_matched r) (res_canonical r) (res_match_confidence r).
Proof.
  destruct b as [best_score [hit|]]; simpl.
  - destruct (ge best_score 0.6) eqn:Hge.
    + destruct (make_canonical hit) as [c|]; cbn [bind]; [|discriminate].
      intros [= <-]. simpl. intros _. eexists _, _. repeat split. exact Hge.
    + intros [= <-]. discriminate.
  - intros [= <-]. discriminate.
Qed.

Lemma title_only_phase_sound (p : ProviderText) (title author : option string)
  (max_queries : Z) (b : best) (made : nat) (notes : list string) (w : World)
  (r : ProviderResult) :
  fst (title_only_phase rapidfuzz http p title author max_queries
         b made notes w) = Ok r ->
  sound_match (res_matched r) (res_canonical r) (res_match_confidence r).
Proof.
  unfold title_only_phase.
  destruct (PrimFloat.ltb (fst b) 0.7 && present title
            && (Z.of_nat made <? max_queries)%Z);
    [|apply provider_return_sound].
  destruct (client_get http w _) as [[msg|msg|status body] w1];
    try apply provider_return_sound.
  destruct (status =? 200)%Z; [|apply provider_return_sound].
  destruct (read_response _ _ _ _ _ _ _ _) as [[b' w2] failure].
  apply provider_return_sound.
Qed.

Lemma verify_provider_sound (p : ProviderText) (title author : option string)
  (max_queries : Z) (w : World) (r : ProviderResult) :
  fst (verify_provider rapidfuzz http p title author max_queries w) = Ok r ->
  sound_match (res_matched r) (res_canonical r) (res_match_confidence r).
Proof.
  unfold verify_provider.
  destruct (negb (present title) && negb (present author));
    [intros [= <-]; discriminate|].
  destruct (present title && present author && (0 <? max_queries)%Z);
    [|apply title_only_phase_sound].
  destruct (client_get http w _) as [[msg|msg|status body] w1];
    try apply title_only_phase_sound.
  destruct (status =? 200)%Z.
  - destruct (read_response _ _ _ _ _ _ _ _) as [[b' w2] failure].
    apply title_only_phase_sound.
  - destruct (stops_on_429 p && (status =? 429)%Z);
      [intros [= <-]; discriminate|].
    apply title_only_phase_sound.
Qed.

Lemma try_providers_sound (title author : option string) (max_queries : Z)
  (order : list string) :
  forall (made : Z) (w : World),
    let v := fst (try_providers rapidfuzz http title author max_queries
                    order made w) in
    sound_match (matched v) (canonical v) (match_confidence v).
Proof.
  induction order as [|name rest IH]; intros made w; simpl.
  - discriminate.
  - destruct (max_queries <=? made)%Z; [discriminate|].
    destruct (dispatch name) as [p|]; [|apply IH].
    pose proof (verify_provider_sound p title author (max_queries - made) w) as Hp.
    destruct (verify_provider rapidfuzz http p title author (max_queries - made) w)
      as [[result|e] w1]; [|apply IH].
    specialize (Hp result eq_refl).
    destruct (res_matched result) eqn:Hm; [|apply IH].
    simpl. intros _. destruct (Hp eq_refl) as (record & sc & Hc & Hs & Hge).
    exists record, sc. rewrite Hc, Hs. repeat split. exact Hge.
Qed.

(** C4: whatever the services answer, a result of [verify_google_books],
    of [verify_open_library] or of [verify_candidates] that says
    [matched] holds a canonical record and a match confidence of at least
    0.6. *)
Theorem C4_match_has_canonical_and_confidence (title author : option string)
  (settings : ParseSettings) (budget : Z) (w : World) :
  (forall g,
     fst (verify_google_books rapidfuzz http title author budget w) = Ok g ->
     res_matched g = true ->
     exists record score, res_canonical g = Some record
                          /\ res_match_confidence g = Some score
                          /\ ge score 0.6 = true)
  /\ (forall o,
        fst (verify_open_library rapidfuzz http title author budget w) = Ok o ->
        res_matched o = true ->
        exists record score, res_canonical o = Some record
                             /\ res_match_confidence o = Some score
                             /\ ge score 0.6 = true)
  /\ (let v := fst (verify_candidates rapidfuzz http title author settings) in
      matched v = true ->
      exists record score, canonical v = Some record
                           /\ match_confidence v = Some score
                           /\ ge score 0.6 = true).
Proof.
  split; [|split].
  - intros g. apply (verify_provider_sound google_books).
  - intros o. apply (verify_provider_sound open_library).
  - unfold verify_candidates.
    destruct (negb (present title) && negb (present author)); [discriminate|].
    apply try_providers_sound.
Qed.

End Matching.

(** The body of a Google Books response that lists one volume. *)
Definition orwell_volume : json :=
  JDict
    [ ("id", JStr "kotPYEqx7kMC");
      ("volumeInfo",
       JDict
         [ ("title", JStr "1984");
           ("authors", JList [JStr "George Orwell"]);
           ("industryIdentifiers",
            JList [ JDict [("type", JStr "ISBN_10");
                           ("identifier", JStr "0451524934")];
                    JDict [("type", JStr "ISBN_13");
                           ("identifier", JStr "9780451524935")] ]) ]) ]%string.

(** A catalogue that knows one book and answers every request with it. *)
Definition orwell_catalogue : nat -> Request -> HttpOutcome :=
  fun _ _ => Response 200 (Done (JDict [("items"%string, JList [orwell_volume])])).

(** The theorem at a call that matches: "1984" by "George Orwell" against
    [orwell_catalogue], without rapidfuzz. *)
Lemma C4_match_witness :
  let v := fst (verify_candidates None orwell_catalogue
                  (Some "1984"%string) (Some "George Orwell"%string)
                  default_settings) in
  matched v = true
  /\ provider v = Some "google_books"%string
  /\ exists record score, canonical v = Some record
                          /\ match_confidence v = Some score
                          /\ ge score 0.6 = true.
Proof.
  split; [vm_compute; reflexivity|]. split; [vm_compute; reflexivity|].
  apply (proj2 (proj2 (C4_match_has_canonical_and_confidence
                         None orwell_catalogue (Some "1984"%string)
                         (Some "George Orwell"%string) default_settings 6
                         initial_world))).
  vm_compute. reflexivity.
Defined.

(** ** The query budget (C3) *)

(** Both services are down: every request times out. *)
Definition all_time_out : nat -> Request -> HttpOutcome :=
  fun _ _ => TimeoutException "timed out".

Definition one_query : ParseSettings :=
  {| conf_min_word := 30;
     conf_min_line := 35;
     max_lines_considered := 80;
     merge_adjacent_lines_flag := true;
     junk_filter := true;
     verify := true;
     verify_provider_order := ["google_books"; "open_library"];
     max_verify_queries := 1 |}.

(** C3 (defect of the code): a provider counts a query after
    [client.get] has returned, so a request that raises is sent but not
    counted, and the budget never runs down.  With a budget of one query
    and both services timing out, each provider sends its strict and its
    title-only request: four requests, none of them counted. *)
Theorem C3_budget_exceeded_on_timeouts :
  let '(v, w) := verify_candidates None all_time_out
                   (Some "Dune"%string) (Some "Frank Herbert"%string) one_query in
  Z.min (max_verify_queries one_query) 6 = 1%Z
  /\ issued w = 4%nat
  /\ all_queries w = []
  /\ attempted v = true
  /\ matched v = false.
Proof. vm_compute. repeat split. Qed.

End VerifierFacts.

(* ===================================================================== *)
(** * The order of floats *)
(* ===================================================================== *)

(** Facts about [<] and [<=] on binary64 floats, from the specification of
    the primitive comparisons. *)

Module FloatOrder.

(** The position of a float that is not NaN in the order of [<]: its class
    (-2 for minus infinity, -1 for negative numbers, 0 for both zeros, 1
    for positive numbers, 2 for plus infinity), then exponent and
    mantissa, negated for negative numbers. *)
Definition place (f : spec_float) : option (Z * Z * Z) :=
  match f with
  | S754_nan => None
  | S754_infinity true => Some (-2, 0, 0)%Z
  | S754_infinity false => Some (2, 0, 0)%Z
  | S754_zero _ => Some (0, 0, 0)%Z
  | S754_finite true m e => Some (-1, - e, Z.neg m)%Z
  | S754_finite false m e => Some (1, e, Z.pos m)%Z
  end.

Definition lex3 (a b : Z * Z * Z) : comparison :=
  let '(a1, a2, a3) := a in
  let '(b1, b2, b3) := b in
  match (a1 ?= b1)%Z with
  | Eq => match (a2 ?= b2)%Z with
          | Eq => (a3 ?= b3)%Z
          | c => c
          end
  | c => c
  end.

Lemma SFcompare_place (f g : spec_float) :
  SFcompare f g =
    match place f, place g with
    | Some a, Some b => Some (lex3 a b)
    | _, _ => None
    end.
Proof.
  destruct f as [[]|[]| |[] m1 e1], g as [[]|[]| |[] m2 e2]; try reflexivity.
  all: simpl; f_equal.
  all: try (destruct (e1 ?= e2)%Z; reflexivity).
  rewrite Z.compare_opp. rewrite (Z.compare_antisym e1 e2).
  destruct (e1 ?= e2)%Z; reflexivity.
Qed.

Definition le3 (a b : Z * Z * Z) : Prop := lex3 a b <> Gt.

Lemma lex3_cases (a b : Z * Z * Z) :
  let '(a1, a2, a3) := a in
  let '(b1, b2, b3) := b in
  (lex3 a b = Lt /\ (a1 < b1 \/ (a1 = b1 /\ (a2 < b2 \/ (a2 = b2 /\ a3 < b3)))))%Z
  \/ (lex3 a b = Eq /\ a = b)
  \/ (lex3 a b = Gt /\ (b1 < a1 \/ (a1 = b1 /\ (b2 < a2 \/ (a2 = b2 /\ b3 < a3)))))%Z.
Proof.
  destruct a as [[a1 a2] a3], b as [[b1 b2] b3]. unfold lex3.
  destruct (Z.compare_spec a1 b1); [|left; split; [reflexivity|lia]
                                    |right; right; split; [reflexivity|lia]].
  destruct (Z.compare_spec a2 b2); [|left; split; [reflexivity|lia]
                                    |right; right; split; [reflexivity|lia]].
  destruct (Z.compare_spec a3 b3).
  - right; left. split; [reflexivity|congruence].
  - left; split; [reflexivity|lia].
  - right; right; split; [reflexivity|lia].
Qed.

Lemma le3_trans (a b c : Z * Z * Z) : le3 a b -> le3 b c -> le3 a c.
Proof.
  unfold le3.
  pose proof (lex3_cases a b) as Hab. pose proof (lex3_cases b c) as Hbc.
  pose proof (lex3_cases a c) as Hac.
  destruct a as [[a1 a2] a3], b as [[b1 b2] b3], c as [[c1 c2] c3].
  intros H1 H2.
  destruct Hab as [[E1 ?]|[[E1 ?]|[E1 ?]]]; [| |congruence];
  destruct Hbc as [[E2 ?]|[[E2 ?]|[E2 ?]]]; try congruence;
  destruct Hac as [[E3 ?]|[[E3 ?]|[E3 ?]]]; try congruence;
  exfalso; repeat match goal with H : (_, _, _) = (_, _, _) |- _ => injection H as ? ? ? end; lia.
Qed.

Lemma le3_total (a b : Z * Z * Z) : lex3 a b <> Lt -> le3 b a.
Proof.
  unfold le3.
  pose proof (lex3_cases a b) as Hab. pose proof (lex3_cases b a) as Hba.
  destruct a as [[a1 a2] a3], b as [[b1 b2] b3].
  intros H1.
  destruct Hab as [[E1 ?]|[[E1 ?]|[E1 ?]]]; [congruence| |];
  destruct Hba as [[E2 ?]|[[E2 ?]|[E2 ?]]]; try congruence;
  exfalso; repeat match goal with H : (_, _, _) = (_, _, _) |- _ => injection H as ? ? ? end; lia.
Qed.

(** The place of a primitive float. *)
Definition where_ (x : float) : option (Z * Z * Z) := place (Prim2SF x).

Lemma leb_where (x y : float) :
  PrimFloat.leb x y = true <->
  exists a b, where_ x = Some a /\ where_ y = Some b /\ le3 a b.
Proof.
  rewrite leb_spec. unfold SFleb, where_, le3. rewrite SFcompare_place.
  destruct (place (Prim2SF x)) as [a|], (place (Prim2SF y)) as [b|]; split;
    try discriminate; try (intros (a' & b' & Ha & Hb & _); discriminate).
  - intros H. exists a, b. repeat split. destruct (lex3 a b); congruence.
  - intros (a' & b' & [= <-] & [= <-] & H). destruct (lex3 a b); congruence.
Qed.

Lemma ltb_where (x y : float) :
  PrimFloat.ltb x y = true <->
  exists a b, where_ x = Some a /\ where_ y = Some b /\ lex3 a b = Lt.
Proof.
  rewrite ltb_spec. unfold SFltb, where_. rewrite SFcompare_place.
  destruct (place (Prim2SF x)) as [a|], (place (Prim2SF y)) as [b|]; split;
    try discriminate; try (intros (a' & b' & Ha & Hb & _); discriminate).
  - intros H. exists a, b. repeat split. destruct (lex3 a b); congruence.
  - intros (a' & b' & [= <-] & [= <-] & H). now rewrite H.
Qed.

(** [x < y] gives [x <= y]. *)
Lemma ltb_leb (x y : float) :
  PrimFloat.ltb x y = true -> PrimFloat.leb x y = true.
Proof.
  rewrite ltb_where, leb_where. intros (a & b & Ha & Hb & H).
  exists a, b. repeat split; try assumption. unfold le3. congruence.
Qed.

(** [<=] is transitive. *)
Lemma leb_trans (x y z : float) :
  PrimFloat.leb x y = true -> PrimFloat.leb y z = true ->
  PrimFloat.leb x z = true.
Proof.
  rewrite !leb_where.
  intros (a & b & Ha & Hb & Hab) (b' & c & Hb' & Hc & Hbc).
  rewrite Hb in Hb'. injection Hb' as <-.
  exists a, c. repeat split; try assumption. eapply le3_trans; eassumption.
Qed.

(** A float compared with something is not NaN. *)
Definition ordered (x : float) : Prop := exists a, where_ x = Some a.

Lemma leb_ordered_l (x y : float) : PrimFloat.leb x y = true -> ordered x.
Proof. rewrite leb_where. intros (a & b & Ha & _). now exists a. Qed.

Lemma leb_ordered_r (x y : float) : PrimFloat.leb x y = true -> ordered y.
Proof. rewrite leb_where. intros (a & b & _ & Hb & _). now exists b. Qed.

(** On floats that are not NaN, "not [x < y]" is [y <= x]. *)
Lemma not_ltb_leb (x y : float) :
  ordered x -> ordered y ->
  PrimFloat.ltb x y = false -> PrimFloat.leb y x = true.
Proof.
  intros [a Ha] [b Hb] H. apply leb_where. exists b, a. repeat split; try assumption.
  apply le3_total. intros Hlt.
  assert (PrimFloat.ltb x y = true) by (apply ltb_where; now exists a, b).
  congruence.
Qed.

Lemma leb_refl (x : float) : ordered x -> PrimFloat.leb x x = true.
Proof.
  intros [a Ha]. apply leb_where. exists a, a. repeat split; try assumption.
  unfold le3. pose proof (lex3_cases a a) as C.
  destruct a as [[a1 a2] a3].
  destruct C as [[E H]|[[E H]|[E H]]]; try congruence; lia.
Qed.

(** [x <= y] excludes [y < x]. *)
Lemma leb_not_ltb (x y : float) :
  PrimFloat.leb x y = true -> PrimFloat.ltb y x = false.
Proof.
  intros H. destruct (PrimFloat.ltb y x) eqn:E; [|reflexivity]. exfalso.
  apply leb_where in H. apply ltb_where in E.
  destruct H as (a & b & Ha & Hb & Hab). destruct E as (b' & a' & Hb' & Ha' & Hlt).
  rewrite Hb in Hb'. rewrite Ha in Ha'. injection Hb' as <-. injection Ha' as <-.
  unfold le3 in Hab.
  pose proof (lex3_cases a b) as C1. pose proof (lex3_cases b a) as C2.
  destruct a as [[a1 a2] a3], b as [[b1 b2] b3].
  destruct C1 as [[E1 ?]|[[E1 ?]|[E1 ?]]]; [| |congruence];
  destruct C2 as [[E2 ?]|[[E2 ?]|[E2 ?]]]; try congruence;
  repeat match goal with H : (_, _, _) = (_, _, _) |- _ => injection H as ? ? ? end; lia.
Qed.

End FloatOrder.

(* ===================================================================== *)
(** * Ranges of the scores *)
(* ===================================================================== *)

Module ScoreRanges.

Import Ranker FloatOrder.
Local Open Scope float_scope.

Lemma zero_ordered : ordered 0.
Proof. eexists. vm_compute. reflexivity. Qed.

(** [max(0.0, s)] is at least zero, whatever [s] is (NaN included). *)
Lemma py_max_zero_nonneg (s : float) : PrimFloat.leb 0 (py_max 0 s) = true.
Proof.
  unfold py_max. destruct (PrimFloat.ltb 0 s) eqn:E.
  - now apply ltb_leb.
  - reflexivity.
Qed.

(** [max(0.0, min(1.0, s))] is at most one. *)
Lemma clamp_at_most_one (s : float) :
  PrimFloat.leb (py_max 0 (py_min 1 s)) 1 = true.
Proof.
  unfold py_max, py_min.
  destruct (PrimFloat.ltb s 1) eqn:E1.
  - destruct (PrimFloat.ltb 0 s); [now apply ltb_leb | reflexivity].
  - reflexivity.
Qed.

(** [person_like_score] returns a number between 0 and 1 (never NaN),
    for every text and every token list. *)
Theorem person_like_score_range (t : string) (toks : list string) :
  PrimFloat.leb 0 (person_like_score t toks) = true
  /\ PrimFloat.leb (person_like_score t toks) 1 = true.
Proof.
  unfold person_like_score.
  destruct (Str.is_empty t || match toks with [] => true | _ => false end).
  - split; reflexivity.
  - split; [apply py_max_zero_nonneg | apply clamp_at_most_one].
Qed.

Lemma title_score_nonneg (line : LineRecord) (mh : float) :
  PrimFloat.leb 0 (title_score line mh) = true.
Proof. unfold title_score. apply py_max_zero_nonneg. Qed.

Lemma author_score_nonneg (line : LineRecord) (mh : float) :
  PrimFloat.leb 0 (fst (author_score line mh)) = true.
Proof.
  unfold author_score.
  destruct (has_by_prefix (text line)); simpl; apply py_max_zero_nonneg.
Qed.

(** Both scores of a line are zero or more, and so never NaN, whatever
    the geometry of the line (NaN and infinite coordinates included). *)
Theorem scores_nonnegative (line : LineRecord) (mh : float) :
  PrimFloat.leb 0 (title_score line mh) = true
  /\ PrimFloat.leb 0 (fst (author_score line mh)) = true.
Proof. split; [apply title_score_nonneg | apply author_score_nonneg]. Qed.

End ScoreRanges.

From Stdlib Require Import Sorting.Sorted Sorting.Permutation.

(* ===================================================================== *)
(** * Sorting and the top-5 selection *)
(* ===================================================================== *)

Module Selection.

Import Ranker FloatOrder ScoreRanges.
Local Open Scope float_scope.

(** [a] scores at least as much as [b]. *)
Definition at_least (a b : scored) : Prop := PrimFloat.leb (snd b) (snd a) = true.

(** A list of scored lines with the best first: every entry scores at
    least as much as every later entry. *)
Definition best_first (l : list scored) : Prop := StronglySorted at_least l.

(** No score of the list is NaN. *)
Definition comparable (l : list scored) : Prop :=
  Forall (fun e => ordered (snd e)) l.

Lemma insert_desc_perm (x : scored) (l : list scored) :
  Permutation (insert_desc x l) (x :: l).
Proof.
  induction l as [|y ys IH]; simpl; [reflexivity|].
  destruct (PrimFloat.ltb (snd y) (snd x)); [reflexivity|].
  rewrite IH. apply perm_swap.
Qed.

Lemma fold_insert_perm (l acc : list scored) :
  Permutation (fold_left (fun a x => insert_desc x a) l acc) (l ++ acc).
Proof.
  revert acc. induction l as [|x l IH]; intros acc; simpl; [reflexivity|].
  rewrite IH. rewrite insert_desc_perm. symmetry. apply Permutation_middle.
Qed.

(** Sorting keeps the entries: the result is a permutation of the input. *)
Lemma sort_desc_perm (l : list scored) : Permutation (sort_desc l) l.
Proof. unfold sort_desc. rewrite fold_insert_perm. now rewrite app_nil_r. Qed.

Lemma insert_desc_best_first (x : scored) (l : list scored) :
  ordered (snd x) -> comparable l -> best_first l ->
  best_first (insert_desc x l).
Proof.
  intros Hx Hl Hs. induction Hs as [|y ys Hys IH Hy]; simpl.
  - constructor; constructor.
  - inversion Hl as [|? ? Hoy Hoys]; subst.
    destruct (PrimFloat.ltb (snd y) (snd x)) eqn:E.
    + constructor; [constructor; assumption|].
      assert (Hxy : at_least x y) by (apply ltb_leb; exact E).
      constructor; [exact Hxy|].
      rewrite Forall_forall in Hy |- *. intros z Hz.
      unfold at_least in *. eapply leb_trans; [apply (Hy z Hz) | exact Hxy].
    + constructor; [now apply IH|].
      rewrite Forall_forall. intros z Hz.
      apply (Permutation_in _ (insert_desc_perm x ys)) in Hz.
      destruct Hz as [<-|Hz].
      * apply not_ltb_leb; assumption.
      * rewrite Forall_forall in Hy. now apply Hy.
Qed.

Lemma fold_insert_best_first (l acc : list scored) :
  comparable l -> comparable acc -> best_first acc ->
  best_first (fold_left (fun a x => insert_desc x a) l acc).
Proof.
  revert acc. induction l as [|x l IH]; intros acc Hl Hacc Hs; simpl; [exact Hs|].
  inversion Hl as [|? ? Hx Hl']; subst.
  apply IH; [exact Hl' | | now apply insert_desc_best_first].
  unfold comparable. rewrite Forall_forall. intros z Hz.
  apply (Permutation_in _ (insert_desc_perm x acc)) in Hz.
  destruct Hz as [<-|Hz]; [exact Hx|].
  unfold comparable in Hacc. rewrite Forall_forall in Hacc. now apply Hacc.
Qed.

(** [sort_desc] sorts: when no score is NaN, the result is a permutation
    of the input with the best entry first. *)
Lemma sort_desc_sorts (l : list scored) :
  comparable l -> best_first (sort_desc l) /\ Permutation (sort_desc l) l.
Proof.
  intros H. split; [|apply sort_desc_perm].
  unfold sort_desc. apply fold_insert_best_first; [exact H| |]; constructor.
Qed.

Lemma best_first_firstn (n : nat) (l : list scored) :
  best_first l -> best_first (firstn n l).
Proof.
  intros H. revert n. induction H as [|x l Hl IH Hx]; intros [|n]; simpl;
    try constructor.
  - apply IH.
  - now apply NormalizeFacts.Forall_firstn.
Qed.

(** The entries of the two score lists. *)
Lemma title_entries_comparable (mh : float) (ls : list LineRecord) :
  comparable (map title_entry (map (score_line mh) ls)).
Proof.
  unfold comparable. rewrite map_map. apply Forall_map. apply Forall_forall.
  intros l _. unfold score_line, title_entry.
  destruct (author_score l mh) as [a l']. simpl.
  apply (leb_ordered_r 0). apply title_score_nonneg.
Qed.

Lemma author_entries_comparable (mh : float) (ls : list LineRecord) :
  comparable (map author_entry (map (score_line mh) ls)).
Proof.
  unfold comparable. rewrite map_map. apply Forall_map. apply Forall_forall.
  intros l _. unfold score_line, author_entry.
  pose proof (author_score_nonneg l mh) as H.
  destruct (author_score l mh) as [a l']. simpl in *.
  now apply (leb_ordered_r 0).
Qed.

Lemma select_top_inv (settings : ParseSettings) (valid : list LineRecord)
  (tops : Tops) :
  select_top settings valid = Ok tops ->
  exists ls,
    top_title_candidates tops
      = firstn 5 (sort_desc (map title_entry (map (score_line (max_height tops)) ls)))
    /\ top_author_candidates tops
      = firstn 5 (sort_desc (map author_entry (map (score_line (max_height tops)) ls)))
    /\ max_height tops = py_max_list (map height ls) 1.0
    /\ tops_warnings tops = snd (apply_junk_filter settings valid [])
    /\ (if merge_adjacent_lines_flag settings
        then merge_adjacent_lines (fst (apply_junk_filter settings valid []))
        else Ok (fst (apply_junk_filter settings valid []))) = Ok ls.
Proof.
  unfold select_top.
  destruct (apply_junk_filter settings valid []) as [kept warns]. simpl.
  destruct (if merge_adjacent_lines_flag settings
            then merge_adjacent_lines kept else Ok kept) as [ls|]; simpl;
    [|discriminate].
  intros [= <-]. exists ls. simpl. repeat split.
Qed.

(** The two top lists of [rank_candidates]: each holds at most five
    entries, both have the same number of entries, and each is in order of
    non-increasing score. *)
Lemma select_top_best_first (settings : ParseSettings) (valid : list LineRecord)
  (tops : Tops) :
  select_top settings valid = Ok tops ->
  best_first (top_title_candidates tops)
  /\ best_first (top_author_candidates tops)
  /\ List.length (top_title_candidates tops) <= 5
  /\ List.length (top_author_candidates tops)
     = List.length (top_title_candidates tops).
Proof.
  intros H. destruct (select_top_inv _ _ _ H) as (ls & -> & -> & _).
  repeat split.
  - apply best_first_firstn. apply sort_desc_sorts. apply title_entries_comparable.
  - apply best_first_firstn. apply sort_desc_sorts. apply author_entries_comparable.
  - rewrite length_firstn. lia.
  - rewrite !length_firstn.
    rewrite (Permutation_length (sort_desc_perm _)).
    rewrite (Permutation_length (sort_desc_perm _)).
    now rewrite !length_map.
Qed.

End Selection.

(* ===================================================================== *)
(** * The merge pass and the ranker never raise on four-coordinate boxes *)
(* ===================================================================== *)

Module Totality.

Import Ranker FloatOrder ScoreRanges Selection.

(** ** The merge pass *)

Lemma merge_pair_total (current candidate : LineRecord) :
  4 <= List.length (bbox current) -> 4 <= List.length (bbox candidate) ->
  exists m, merge_pair current candidate = Ok m /\ List.length (bbox m) = 4.
Proof.
  intros Hc Hd. unfold merge_pair, bbox_get.
  destruct (bbox current) as [|c0 [|c1 [|c2 [|c3 cs]]]]; simpl in Hc; try lia.
  destruct (bbox candidate) as [|d0 [|d1 [|d2 [|d3 ds]]]]; simpl in Hd; try lia.
  simpl. eexists. split; reflexivity.
Qed.

Lemma look_ahead_total (avg : float) (current candidate : LineRecord) :
  4 <= List.length (bbox current) -> 4 <= List.length (bbox candidate) ->
  exists what, look_ahead avg current candidate = Ok what.
Proof.
  intros Hc Hd. unfold look_ahead, bbox_get.
  destruct (bbox current) as [|c0 [|c1 [|c2 [|c3 cs]]]]; simpl in Hc; try lia.
  destruct (bbox candidate) as [|d0 [|d1 [|d2 [|d3 ds]]]]; simpl in Hd; try lia.
  simpl.
  destruct (gt _ (0.6 * avg)%float); [eexists; reflexivity|].
  destruct (gt _ 0.1%float); [eexists; reflexivity|].
  destruct ((word_count current <=? 5)%nat && (word_count candidate <=? 5)%nat);
    eexists; reflexivity.
Qed.

Section Boxes.

(** A property of records that gives at least four coordinates and that
    every record with exactly four has. *)
Variable boxed : LineRecord -> Prop.
Hypothesis boxed_enough : forall l, boxed l -> 4 <= List.length (bbox l).
Hypothesis four_boxed : forall l, List.length (bbox l) = 4 -> boxed l.

Lemma sweep_total (avg : float) (rest : list LineRecord) :
  forall current, boxed current -> Forall boxed rest ->
    exists out, sweep avg current rest = Ok out /\ Forall boxed out
                /\ out <> [].
Proof.
  induction rest as [|candidate rest IH]; intros current Hc Hrest; simpl.
  - exists [current]. repeat split; [now constructor | discriminate].
  - inversion Hrest as [|? ? Hd Hrest']; subst.
    destruct (look_ahead_total avg current candidate
                (boxed_enough _ Hc) (boxed_enough _ Hd)) as [what ->].
    simpl. destruct what.
    + destruct (IH candidate Hd Hrest') as (groups & -> & Hg & _). simpl.
      exists (current :: groups). repeat split; [now constructor | discriminate].
    + apply IH; assumption.
    + destruct (merge_pair_total current candidate
                  (boxed_enough _ Hc) (boxed_enough _ Hd)) as (m & -> & Hm).
      simpl. apply IH; [now apply four_boxed | assumption].
Qed.

Lemma merge_adjacent_lines_total (ls : list LineRecord) :
  Forall boxed ls ->
  exists out, merge_adjacent_lines ls = Ok out /\ Forall boxed out
              /\ (ls <> [] -> out <> []).
Proof.
  intros H. destruct ls as [|first rest]; simpl.
  - exists []. repeat split; [constructor | tauto].
  - inversion H; subst.
    destruct (sweep_total (average_height (first :: rest)) rest first)
      as (out & -> & Hout & Hne); try assumption.
    exists out. repeat split; auto.
Qed.

End Boxes.

(** On records whose boxes have at least four coordinates (the records of
    [normalize_ocr]), [merge_adjacent_lines] does not raise: it returns a
    list of records whose boxes have at least four coordinates, no longer
    than its input, and not empty unless the input is. *)
Theorem merge_adjacent_lines_returns (ls : list LineRecord) :
  Forall (fun l => 4 <= List.length (bbox l)) ls ->
  exists out,
    merge_adjacent_lines ls = Ok out
    /\ Forall (fun l => 4 <= List.length (bbox l)) out
    /\ List.length out <= List.length ls
    /\ (ls <> [] -> out <> []).
Proof.
  intros H.
  destruct (merge_adjacent_lines_total (fun l => 4 <= List.length (bbox l))
              (fun l Hl => Hl) (fun l Hl => eq_ind_r (fun n => 4 <= n) (le_n 4) Hl)
              ls H) as (out & Hout & Hbox & Hne).
  exists out. repeat split; try assumption.
  now apply MergeFacts.merge_adjacent_lines_length.
Qed.

Definition stacked_records : list LineRecord :=
  Eval vm_compute in
    RankFacts.records_of
      (Normalize.normalize_ocr MergeFacts.stacked_title default_settings).

Lemma merge_adjacent_lines_returns_witness :
  Normalize.normalize_ocr MergeFacts.stacked_title default_settings
  = Ok stacked_records
  /\ exists out,
       merge_adjacent_lines stacked_records = Ok out
       /\ List.length out <= 2.
Proof.
  split; [vm_compute; reflexivity|].
  destruct (merge_adjacent_lines_returns stacked_records)
    as (out & Hout & _ & Hlen & _).
  - repeat constructor.
  - exists out. split; [exact Hout | exact Hlen].
Defined.

(** ** The ranker *)

Lemma author_score_bbox (line : LineRecord) (mh : float) :
  bbox (snd (author_score line mh)) = bbox line.
Proof. unfold author_score. destruct (has_by_prefix (text line)); reflexivity. Qed.

Lemma score_line_bbox (mh : float) (line : LineRecord) :
  bbox (fst (title_entry (score_line mh line))) = bbox line
  /\ bbox (fst (author_entry (score_line mh line))) = bbox line.
Proof.
  unfold score_line, title_entry, author_entry.
  pose proof (author_score_bbox line mh) as H.
  destruct (author_score line mh) as [a l']. simpl in *. now split.
Qed.

Lemma map_res_Forall2 {A B : Type} (f : A -> res B) (l : list A) :
  forall bs, map_res f l = Ok bs -> Forall2 (fun a b => f a = Ok b) l bs.
Proof.
  induction l as [|a l IH]; simpl; intros bs.
  - intros [= <-]. constructor.
  - destruct (f a) as [b|] eqn:Ea; simpl; [|discriminate].
    destruct (map_res f l) as [bs'|]; simpl; [|discriminate].
    intros [= <-]. constructor; [exact Ea | now apply IH].
Qed.

Lemma map_res_total {A B : Type} (f : A -> res B) (l : list A) :
  Forall (fun a => exists b, f a = Ok b) l -> exists bs, map_res f l = Ok bs.
Proof.
  induction 1 as [|a l [b Hb] _ [bs Hbs]]; simpl.
  - now exists [].
  - rewrite Hb. simpl. rewrite Hbs. simpl. now exists (b :: bs).
Qed.

(** What a candidate copies from its entry. *)
Definition copies (strip : bool) (e : scored) (c : Candidate) : Prop :=
  score c = snd e
  /\ cand_bbox c = bbox (fst e)
  /\ List.length (cand_bbox c) = 4
  /\ cand_text c = (if strip then strip_by (text (fst e)) else text (fst e)).

Lemma make_candidate_copies (t : string) (sc : float) (b : list float)
  (f : CandidateFeatures) (c : Candidate) :
  make_candidate t sc b f = Ok c ->
  score c = sc /\ cand_bbox c = b /\ List.length b = 4 /\ cand_text c = t.
Proof.
  unfold make_candidate. destruct (List.length b =? 4)%nat eqn:E; [|discriminate].
  apply Nat.eqb_eq in E. intros [= <-]. simpl. auto.
Qed.

Lemma title_candidate_copies (mh : float) (e : scored) (c : Candidate) :
  title_candidate mh e = Ok c -> copies false e c.
Proof.
  destruct e as [l sc]. unfold title_candidate. intros H.
  destruct (make_candidate_copies _ _ _ _ _ H) as (H1 & H2 & H3 & H4).
  unfold copies. simpl. rewrite H2. auto.
Qed.

Lemma author_candidate_copies (mh : float) (e : scored) (c : Candidate) :
  author_candidate mh e = Ok c -> copies true e c.
Proof.
  destruct e as [l sc]. unfold author_candidate. intros H.
  destruct (make_candidate_copies _ _ _ _ _ H) as (H1 & H2 & H3 & H4).
  unfold copies. simpl. rewrite H2. auto.
Qed.

(** The shape of a result: either no line was valid, or the result is
    assembled from the top lists, their candidates, the guarded picks and
    the swap. *)
Lemma rank_candidates_inv (ls : list LineRecord) (ocr : OCRInput)
  (settings : ParseSettings) (r : RankResult) :
  rank_candidates ls ocr settings = Ok r ->
  (filter valid_line ls = []
   /\ title_candidates r = [] /\ author_candidates r = []
   /\ title r = None /\ author r = None
   /\ warnings r = [no_valid_lines_warning])
  \/ (exists tops p q warns,
        filter valid_line ls <> []
        /\ select_top settings (filter valid_line ls) = Ok tops
        /\ Forall2 (copies false) (top_title_candidates tops) (title_candidates r)
        /\ Forall2 (copies true) (top_author_candidates tops) (author_candidates r)
        /\ guarded_picks tops = Ok p
        /\ swap_logic (top_title_candidates tops) (top_author_candidates tops)
             p (tops_warnings tops) = Ok (q, warns)
        /\ title r = option_map text (fst q)
        /\ author r = option_map text (snd q)
        /\ warnings r = warns).
Proof.
  unfold rank_candidates.
  destruct (filter valid_line ls) as [|v vs] eqn:Hvalid.
  { intros [= <-]. left. simpl. repeat split. }
  destruct (select_top settings (v :: vs)) as [tops|] eqn:Htops; cbn [bind];
    [|discriminate].
  destruct (map_res _ (top_title_candidates tops)) as [tcs|] eqn:Ht; cbn [bind];
    [|discriminate].
  destruct (map_res _ (top_author_candidates tops)) as [acs|] eqn:Ha; cbn [bind];
    [|discriminate].
  destruct (guarded_picks tops) as [p|] eqn:Hp; cbn [bind]; [|discriminate].
  destruct (swap_logic _ _ p _) as [[[bt ba] warns]|] eqn:Hs; cbn [bind];
    [|discriminate].
  intros [= <-]. right. exists tops, p, (bt, ba), warns. simpl.
  repeat split; try assumption; try discriminate.
  - apply map_res_Forall2 in Ht.
    eapply Forall2_impl; [|exact Ht]. intros e c. apply title_candidate_copies.
  - apply map_res_Forall2 in Ha.
    eapply Forall2_impl; [|exact Ha]. intros e c. apply author_candidate_copies.
Qed.

(** A candidate scores at least as much as another. *)
Definition outranks (c d : Candidate) : Prop :=
  PrimFloat.leb (score d) (score c) = true.

Lemma best_first_candidates (strip : bool) (tops : list scored)
  (cs : list Candidate) :
  Forall2 (copies strip) tops cs -> best_first tops -> StronglySorted outranks cs.
Proof.
  intros H. induction H as [|e c tops cs Hec Hrest IH]; intros Hs.
  - constructor.
  - inversion Hs as [|? ? Hs' He]; subst. constructor; [now apply IH|].
    clear IH Hs Hs'. induction Hrest as [|e' c' tops cs He'c' Hrest IH].
    + constructor.
    + inversion He as [|? ? Hee' He'']; subst. constructor; [|now apply IH].
      unfold outranks. destruct Hec as [-> _]. destruct He'c' as [-> _]. exact Hee'.
Qed.

(** The candidate lists [rank_candidates] returns are listed best first
    (every candidate scores at least as much as every later one), hold at
    most five candidates each, are equally long, and every candidate has a
    box of exactly four coordinates. *)
Theorem candidates_best_first (ls : list LineRecord) (ocr : OCRInput)
  (settings : ParseSettings) (r : RankResult) :
  rank_candidates ls ocr settings = Ok r ->
  StronglySorted outranks (title_candidates r)
  /\ StronglySorted outranks (author_candidates r)
  /\ List.length (title_candidates r) <= 5
  /\ List.length (author_candidates r) = List.length (title_candidates r)
  /\ Forall (fun c => List.length (cand_bbox c) = 4)
       (title_candidates r ++ author_candidates r).
Proof.
  intros H. destruct (rank_candidates_inv _ _ _ _ H)
    as [(_ & -> & -> & _)|(tops & p & q & warns & _ & Htops & Ht & Ha & _)].
  { split; [constructor|]. split; [constructor|]. split; [simpl; lia|].
    split; [reflexivity | constructor]. }
  destruct (select_top_best_first _ _ _ Htops) as (St & Sa & L5 & Leq).
  pose proof (Forall2_length Ht) as Lt. pose proof (Forall2_length Ha) as La.
  repeat split.
  - exact (best_first_candidates _ _ _ Ht St).
  - exact (best_first_candidates _ _ _ Ha Sa).
  - lia.
  - lia.
  - apply Forall_app. split.
    + clear -Ht. induction Ht as [|e c ? ? (_ & _ & H4 & _)]; constructor; auto.
    + clear -Ha. induction Ha as [|e c ? ? (_ & _ & H4 & _)]; constructor; auto.
Qed.

Lemma candidates_best_first_witness :
  exists r,
    RankFacts.parse RankFacts.overlapping_cover default_settings = Ok r
    /\ List.length (title_candidates r) <= 5
    /\ StronglySorted outranks (title_candidates r).
Proof.
  destruct (RankFacts.parse RankFacts.overlapping_cover default_settings)
    as [r|] eqn:E; [|vm_compute in E; discriminate].
  exists r. split; [reflexivity|].
  destruct (candidates_best_first _ _ _ _ E) as (St & _ & L & _).
  split; assumption.
Defined.

Lemma identity_guard_total (tt ta : list scored) :
  exists p, identity_guard tt ta (first_line tt, first_line ta) = Ok p.
Proof.
  destruct tt as [|[t0 s0] tt], ta as [|[a0 r0] ta]; simpl;
    try (eexists; reflexivity).
  destruct (String.eqb _ _); [|eexists; reflexivity].
  destruct (gt s0 r0); eexists; reflexivity.
Qed.

Lemma swap_logic_total (tops : Tops) (p : picks) (warns : list string) :
  guarded_picks tops = Ok p ->
  exists q warns',
    swap_logic (top_title_candidates tops) (top_author_candidates tops) p warns
    = Ok (q, warns').
Proof.
  intros Hp. destruct p as [[t|] [a|]]; try (eexists _, _; reflexivity).
  destruct (RankFacts.guarded_picks_some _ _ _ Hp) as [Htt Hta].
  rewrite (RankFacts.swap_logic_spec tops t a warns Htt Hta).
  destruct (RankFacts.swap_condition tops t a); eexists _, _; reflexivity.
Qed.

Definition four (l : LineRecord) : Prop := List.length (bbox l) = 4.

Lemma top_lists_four (mh : float) (ls : list LineRecord) :
  Forall four ls ->
  Forall (fun e => four (fst e))
    (firstn 5 (sort_desc (map title_entry (map (score_line mh) ls))))
  /\ Forall (fun e => four (fst e))
    (firstn 5 (sort_desc (map author_entry (map (score_line mh) ls)))).
Proof.
  intros H. split; apply NormalizeFacts.Forall_firstn;
    apply (Permutation_Forall (Permutation_sym (sort_desc_perm _)));
    rewrite map_map; apply Forall_map; (eapply Forall_impl; [|exact H]);
    intros l Hl; unfold four; destruct (score_line_bbox mh l) as [E1 E2];
    [rewrite E1 | rewrite E2]; exact Hl.
Qed.

Lemma rank_candidates_total (ls : list LineRecord) (ocr : OCRInput)
  (settings : ParseSettings) :
  Forall four ls -> exists r, rank_candidates ls ocr settings = Ok r.
Proof.
  intros Hls. unfold rank_candidates.
  assert (Hvalid : Forall four (filter valid_line ls)).
  { apply Forall_forall. intros l Hl. apply filter_In in Hl.
    rewrite Forall_forall in Hls. now apply Hls. }
  destruct (filter valid_line ls) as [|v vs] eqn:Ev; [eexists; reflexivity|].
  assert (Hkept : Forall four (fst (apply_junk_filter settings (v :: vs) []))).
  { unfold apply_junk_filter. destruct (junk_filter settings); [|exact Hvalid].
    assert (Forall four (filter (fun l => negb (is_junk (text l))) (v :: vs))).
    { apply Forall_forall. intros l Hl. apply filter_In in Hl.
      rewrite Forall_forall in Hvalid. now apply Hvalid. }
    destruct (_ <? _)%nat; assumption. }
  assert (Hmerged : exists merged,
             (if merge_adjacent_lines_flag settings
              then merge_adjacent_lines (fst (apply_junk_filter settings (v :: vs) []))
              else Ok (fst (apply_junk_filter settings (v :: vs) []))) = Ok merged
             /\ Forall four merged).
  { destruct (merge_adjacent_lines_flag settings).
    - destruct (merge_adjacent_lines_total four
                  (fun l Hl => eq_ind_r (fun n => 4 <= n) (le_n 4) Hl)
                  (fun l Hl => Hl) _ Hkept) as (out & Hout & Hfour & _).
      now exists out.
    - now eexists. }
  destruct Hmerged as (merged & Hm & Hfour).
  unfold select_top.
  destruct (apply_junk_filter settings (v :: vs) []) as [kept warns].
  simpl in Hm. rewrite Hm. cbn [bind].
  destruct (top_lists_four (py_max_list (map height merged) 1.0%float) merged Hfour)
    as [Ht Ha].
  set (tops := {| top_title_candidates := _; top_author_candidates := _;
                  max_height := _; tops_warnings := warns |}).
  destruct (map_res_total (title_candidate (max_height tops))
              (top_title_candidates tops)) as [tcs Htcs].
  { eapply Forall_impl; [|exact Ht]. intros [l sc] Hl. unfold title_candidate,
      make_candidate. unfold four in Hl. simpl in Hl. rewrite Hl. simpl.
    eexists; reflexivity. }
  destruct (map_res_total (author_candidate (max_height tops))
              (top_author_candidates tops)) as [acs Hacs].
  { eapply Forall_impl; [|exact Ha]. intros [l sc] Hl. unfold author_candidate,
      make_candidate. unfold four in Hl. simpl in Hl. rewrite Hl. simpl.
    eexists; reflexivity. }
  rewrite Htcs. cbn [bind]. rewrite Hacs. cbn [bind].
  destruct (identity_guard_total (top_title_candidates tops)
              (top_author_candidates tops)) as [p Hp].
  assert (Hg : guarded_picks tops
               = Ok (overlap_guard (top_title_candidates tops)
                       (top_author_candidates tops) p)).
  { unfold guarded_picks. rewrite Hp. reflexivity. }
  rewrite Hg. cbn [bind].
  destruct (swap_logic_total tops _ (tops_warnings tops) Hg) as (q & warns' & Hs).
  rewrite Hs. cbn [bind]. destruct q as [bt ba]. eexists. reflexivity.
Qed.

(** [rank_candidates] does not raise on records whose boxes have exactly
    four coordinates (what the OCR input model guarantees): for every
    such list, every OCR input and every settings it returns a result. *)
Theorem rank_candidates_returns (ls : list LineRecord) (ocr : OCRInput)
  (settings : ParseSettings) :
  Forall (fun l => List.length (bbox l) = 4) ls ->
  exists r, rank_candidates ls ocr settings = Ok r.
Proof. intros Hls. apply rank_candidates_total. exact Hls. Qed.

Definition twice_records : list LineRecord :=
  Eval vm_compute in
    RankFacts.records_of
      (Normalize.normalize_ocr RankFacts.title_printed_twice default_settings).

Lemma rank_candidates_returns_witness :
  Normalize.normalize_ocr RankFacts.title_printed_twice default_settings
  = Ok twice_records
  /\ exists r,
       rank_candidates twice_records RankFacts.title_printed_twice
         default_settings = Ok r.
Proof.
  split; [vm_compute; reflexivity|].
  apply rank_candidates_returns. repeat constructor.
Defined.

End Totality.

(* ===================================================================== *)
(** * A second merge pass (C7) *)
(* ===================================================================== *)

Module SecondPass.

Import Ranker Totality.

(** [next] is out of reach of [current], read off the two records: the
    gap between the top of [next] and the bottom of [current] exceeds 0.6
    x the mean height, or the two are aligned (their centres are not more
    than 0.1 apart) and one of them has more than five tokens. *)
Definition out_of_reach (avg : float) (current next : LineRecord) : bool :=
  gt (abs (nth 1 (bbox next) 0 - nth 3 (bbox current) 0)%float)
     (0.6 * avg)%float
  || (negb (gt (abs (center_x next - center_x current)%float) 0.1%float)
      && ((5 <? word_count current)%nat || (5 <? word_count next)%nat)).

(** Every record of the list is out of reach of the record before it. *)
Fixpoint separated (avg : float) (current : LineRecord)
  (rest : list LineRecord) : bool :=
  match rest with
  | [] => true
  | next :: rest' => out_of_reach avg current next && separated avg next rest'
  end.

(** The same, measured against the mean height of the list itself. *)
Definition settled (ls : list LineRecord) : bool :=
  match ls with
  | [] => true
  | first :: rest => separated (average_height ls) first rest
  end.

Definition boxed (l : LineRecord) : Prop := 4 <= List.length (bbox l).

(** What the look-ahead answers on two boxed records. *)
Lemma look_ahead_cases (avg : float) (current next : LineRecord) :
  boxed current -> boxed next ->
  (out_of_reach avg current next = true
   /\ look_ahead avg current next = Ok Break)
  \/ (out_of_reach avg current next = false
      /\ (look_ahead avg current next = Ok Skip
          \/ look_ahead avg current next = Ok Absorb)).
Proof.
  unfold boxed, out_of_reach, look_ahead, bbox_get. intros Hc Hn.
  destruct (bbox current) as [|c0 [|c1 [|c2 [|c3 cs]]]]; simpl in Hc; try lia.
  destruct (bbox next) as [|d0 [|d1 [|d2 [|d3 ds]]]]; simpl in Hn; try lia.
  simpl.
  destruct (gt (abs (d1 - c3)%float) (0.6 * avg)%float); simpl;
    [left; now split|].
  destruct (gt (abs (center_x next - center_x current)%float) 0.1%float); simpl;
    [right; split; [reflexivity | now left]|].
  rewrite !Nat.ltb_antisym.
  destruct (word_count current <=? 5)%nat, (word_count next <=? 5)%nat; simpl;
    try (left; now split).
  right. split; [reflexivity | now right].
Qed.

Lemma sweep_separated (avg : float) (rest : list LineRecord) :
  forall current,
    boxed current -> Forall boxed rest ->
    separated avg current rest = true ->
    sweep avg current rest = Ok (current :: rest).
Proof.
  induction rest as [|next rest IH]; intros current Hc Hrest Hsep; simpl in *.
  - reflexivity.
  - inversion Hrest as [|? ? Hn Hrest']; subst.
    apply andb_true_iff in Hsep. destruct Hsep as [Hout Hsep].
    destruct (look_ahead_cases avg current next Hc Hn)
      as [[_ Hlook]|[Hno _]]; [|congruence].
    rewrite Hlook. simpl. rewrite (IH next Hn Hrest' Hsep). reflexivity.
Qed.

Lemma sweep_not_separated (avg : float) (rest : list LineRecord) :
  forall current out,
    boxed current -> Forall boxed rest ->
    separated avg current rest = false ->
    sweep avg current rest = Ok out ->
    List.length out <= List.length rest.
Proof.
  induction rest as [|next rest IH]; intros current out Hc Hrest Hsep; simpl in *.
  - discriminate.
  - inversion Hrest as [|? ? Hn Hrest']; subst.
    destruct (look_ahead_cases avg current next Hc Hn)
      as [[Hout Hlook]|[_ [Hlook|Hlook]]]; rewrite Hlook; simpl.
    + rewrite Hout in Hsep. simpl in Hsep.
      destruct (sweep avg next rest) as [groups|] eqn:E; simpl; [|discriminate].
      intros [= <-]. simpl.
      pose proof (IH next groups Hn Hrest' Hsep E). lia.
    + intros H. apply MergeFacts.sweep_length in H. lia.
    + destruct (merge_pair current next) as [m|]; simpl; [|discriminate].
      intros H. apply MergeFacts.sweep_length in H. lia.
Qed.

(** C7, amended: the merge pass is not idempotent, because the second
    pass measures gaps against the mean height of the merged records.  On
    the output [first] of a pass over records whose boxes have at least
    four coordinates, a second pass does not raise, and its result is
    decided by the records of [first] alone: it returns [first] unchanged
    when every record of [first] is out of reach of the record before it,
    measured against the mean height of [first] (the gap exceeds 0.6 x
    that mean, or the two are aligned and one has more than five tokens);
    otherwise it returns fewer records than [first] has. *)
Theorem C7_second_pass_exactly_when (ls first : list LineRecord) :
  Forall (fun l => 4 <= List.length (bbox l)) ls ->
  merge_adjacent_lines ls = Ok first ->
  exists second,
    merge_adjacent_lines first = Ok second
    /\ (settled first = true -> second = first)
    /\ (settled first = false -> List.length second < List.length first).
Proof.
  intros Hls Hfirst.
  destruct (merge_adjacent_lines_total boxed
              (fun l Hl => Hl) (fun l Hl => eq_ind_r (fun n => 4 <= n) (le_n 4) Hl)
              ls Hls) as (out & Hout & Hboxed & _).
  rewrite Hfirst in Hout. injection Hout as <-.
  destruct (merge_adjacent_lines_total boxed
              (fun l Hl => Hl) (fun l Hl => eq_ind_r (fun n => 4 <= n) (le_n 4) Hl)
              first Hboxed) as (second & Hsecond & _ & _).
  exists second. split; [exact Hsecond|].
  destruct first as [|r rest].
  { simpl in *. injection Hsecond as <-. split; [reflexivity | discriminate]. }
  inversion Hboxed as [|? ? Hr Hrest]; subst.
  unfold merge_adjacent_lines in Hsecond. unfold settled. split; intros Hs.
  - rewrite (sweep_separated _ _ _ Hr Hrest Hs) in Hsecond. now injection Hsecond.
  - pose proof (sweep_not_separated _ _ _ _ Hr Hrest Hs Hsecond). simpl. lia.
Qed.

(** A title set on two lines and, far below, the author. *)
Definition title_over_author : OCRInput :=
  MergeFacts.page
    [ MergeFacts.ocr_line [400; 100; 600; 200]%float "The";
      MergeFacts.ocr_line [400; 200; 600; 220]%float "Great";
      MergeFacts.ocr_line [300; 1200; 700; 1300]%float "F. Scott Fitzgerald" ].

Definition title_over_author_records : list LineRecord :=
  Eval vm_compute in
    RankFacts.records_of (Normalize.normalize_ocr title_over_author default_settings).

Definition title_over_author_first : list LineRecord :=
  Eval vm_compute in
    RankFacts.records_of (merge_adjacent_lines title_over_author_records).

(** The theorem at [title_over_author]: the first pass merges the two
    lines of the title, and the second pass returns its output
    unchanged. *)
Lemma C7_second_pass_witness :
  Normalize.normalize_ocr title_over_author default_settings
  = Ok title_over_author_records
  /\ map text title_over_author_records
     = ["The"; "Great"; "F. Scott Fitzgerald"]%string
  /\ merge_adjacent_lines title_over_author_records = Ok title_over_author_first
  /\ map text title_over_author_first
     = ["The Great"; "F. Scott Fitzgerald"]%string
  /\ settled title_over_author_first = true
  /\ merge_adjacent_lines title_over_author_first = Ok title_over_author_first.
Proof.
  assert (Hfirst : merge_adjacent_lines title_over_author_records
                   = Ok title_over_author_first) by (vm_compute; reflexivity).
  assert (Hsettled : settled title_over_author_first = true)
    by (vm_compute; reflexivity).
  split; [vm_compute; reflexivity|]. split; [reflexivity|].
  split; [exact Hfirst|]. split; [reflexivity|]. split; [exact Hsettled|].
  destruct (C7_second_pass_exactly_when title_over_author_records
              title_over_author_first) as (second & Hsecond & Hsame & _).
  - repeat constructor.
  - exact Hfirst.
  - rewrite Hsecond. f_equal. exact (Hsame Hsettled).
Defined.

(** On the output of the first pass over [MergeFacts.two_stacks] the
    condition fails, and the second pass returns one record for two. *)
Lemma two_stacks_not_settled :
  exists records first second,
    Normalize.normalize_ocr MergeFacts.two_stacks default_settings = Ok records
    /\ merge_adjacent_lines records = Ok first
    /\ settled first = false
    /\ merge_adjacent_lines first = Ok second
    /\ List.length first = 2 /\ List.length second = 1.
Proof. eexists _, _, _. repeat split; vm_compute; reflexivity. Qed.

End SecondPass.

(* ===================================================================== *)
(** * The junk filter ignores case *)
(* ===================================================================== *)

Module JunkFacts.

Import Ranker.

Ltac by_cases_on_char c :=
  destruct c as [[] [] [] [] [] [] [] []]; reflexivity.

Lemma upper_of_lower (c : ascii) : Str.to_upper (Str.to_lower c) = Str.to_upper c.
Proof. by_cases_on_char c. Qed.

Lemma lower_of_lower (c : ascii) : Str.to_lower (Str.to_lower c) = Str.to_lower c.
Proof. by_cases_on_char c. Qed.

Lemma lower_of_upper (c : ascii) : Str.to_lower (Str.to_upper c) = Str.to_lower c.
Proof. by_cases_on_char c. Qed.

Lemma upper_of_upper (c : ascii) : Str.to_upper (Str.to_upper c) = Str.to_upper c.
Proof. by_cases_on_char c. Qed.

(** A change of case keeps the classes the e-mail pattern reads. *)
Record keeps_classes (f : ascii -> ascii) : Prop := {
  keeps_at : forall c, Ascii.eqb (f c) "@"%char = Ascii.eqb c "@"%char;
  keeps_dot : forall c, Ascii.eqb (f c) "."%char = Ascii.eqb c "."%char;
  keeps_local : forall c, email_local (f c) = email_local c;
  keeps_domain : forall c, email_domain (f c) = email_domain c;
  keeps_alpha : forall c, Str.is_alpha (f c) = Str.is_alpha c
}.

Lemma to_lower_keeps : keeps_classes Str.to_lower.
Proof. split; intros c; by_cases_on_char c. Qed.

Lemma to_upper_keeps : keeps_classes Str.to_upper.
Proof. split; intros c; by_cases_on_char c. Qed.

Section Recased.

Variable f : ascii -> ascii.
Hypothesis Hf : keeps_classes f.

Lemma two_letters_map (l : list ascii) : two_letters (map f l) = two_letters l.
Proof.
  destruct l as [|a [|b l]]; simpl; try reflexivity.
  now rewrite !(keeps_alpha f Hf).
Qed.

Lemma email_domain_match_map (l : list ascii) :
  forall seen, email_domain_match (map f l) seen = email_domain_match l seen.
Proof.
  induction l as [|c l IH]; intros seen; simpl; [reflexivity|].
  rewrite (keeps_domain f Hf), (keeps_dot f Hf), two_letters_map, IH.
  reflexivity.
Qed.

Lemma email_scan_map (l : list ascii) :
  forall prev, email_scan (option_map f prev) (map f l) = email_scan prev l.
Proof.
  induction l as [|c l IH]; intros prev; simpl; [reflexivity|].
  rewrite (keeps_at f Hf), email_domain_match_map.
  pose proof (IH (Some c)) as IHc. simpl in IHc. rewrite IHc.
  destruct prev as [p|]; simpl; [rewrite (keeps_local f Hf)|]; reflexivity.
Qed.

End Recased.

Lemma chars_roundtrip (l : list ascii) : Str.chars (Str.of_chars l) = l.
Proof. apply list_ascii_of_string_of_list_ascii. Qed.

Lemma len_of_chars (l : list ascii) : Str.len (Str.of_chars l) = List.length l.
Proof. induction l as [|c l IH]; simpl; [reflexivity | now rewrite <- IH]. Qed.

Lemma length_chars (s : string) : List.length (Str.chars s) = Str.len s.
Proof. induction s as [|c s IH]; simpl; [reflexivity | now rewrite IH]. Qed.

Lemma upper_lower (t : string) : Str.upper (Str.lower t) = Str.upper t.
Proof.
  unfold Str.upper, Str.lower. rewrite chars_roundtrip, map_map.
  f_equal. apply map_ext. apply upper_of_lower.
Qed.

Lemma lower_lower (t : string) : Str.lower (Str.lower t) = Str.lower t.
Proof.
  unfold Str.lower. rewrite chars_roundtrip, map_map.
  f_equal. apply map_ext. apply lower_of_lower.
Qed.

Lemma lower_upper (t : string) : Str.lower (Str.upper t) = Str.lower t.
Proof.
  unfold Str.upper, Str.lower. rewrite chars_roundtrip, map_map.
  f_equal. apply map_ext. apply lower_of_upper.
Qed.

Lemma upper_upper (t : string) : Str.upper (Str.upper t) = Str.upper t.
Proof.
  unfold Str.upper. rewrite chars_roundtrip, map_map.
  f_equal. apply map_ext. apply upper_of_upper.
Qed.

Lemma len_lower (t : string) : Str.len (Str.lower t) = Str.len t.
Proof. unfold Str.lower. now rewrite len_of_chars, length_map, length_chars. Qed.

Lemma len_upper (t : string) : Str.len (Str.upper t) = Str.len t.
Proof. unfold Str.upper. now rewrite len_of_chars, length_map, length_chars. Qed.

Lemma email_search_lower (t : string) : email_search (Str.lower t) = email_search t.
Proof.
  unfold email_search, Str.lower. rewrite chars_roundtrip.
  exact (email_scan_map Str.to_lower to_lower_keeps (Str.chars t) None).
Qed.

Lemma email_search_upper (t : string) : email_search (Str.upper t) = email_search t.
Proof.
  unfold email_search, Str.upper. rewrite chars_roundtrip.
  exact (email_scan_map Str.to_upper to_upper_keeps (Str.chars t) None).
Qed.

(** [is_junk] does not depend on the case of the letters of the text: the
    keywords are sought in the upper-cased text, the URL pattern ignores
    case, the e-mail pattern accepts both cases, and the length is the
    same. *)
Theorem is_junk_ignores_case (t : string) :
  is_junk (Str.lower t) = is_junk t /\ is_junk (Str.upper t) = is_junk t.
Proof.
  unfold is_junk, url_search. split.
  - now rewrite upper_lower, lower_lower, email_search_lower, len_lower.
  - now rewrite upper_upper, lower_upper, email_search_upper, len_upper.
Qed.

End JunkFacts.

(* ===================================================================== *)
(** * More on the records of the normaliser *)
(* ===================================================================== *)

Module RecordFacts.

Import Normalize NormalizeFacts.

(** ** Tokens *)

Lemma drop_while_incl (p : ascii -> bool) (c : ascii) (l : list ascii) :
  In c (Str.drop_while p l) -> In c l.
Proof.
  induction l as [|x l IH]; simpl; [tauto|].
  destruct (p x); [intros H; right; now apply IH | tauto].
Qed.

Lemma drop_while_length (p : ascii -> bool) (l : list ascii) :
  List.length (Str.drop_while p l) <= List.length l.
Proof.
  induction l as [|x l IH]; simpl; [lia|]. destruct (p x); simpl; lia.
Qed.

Lemma strip_chars_incl (c : ascii) (l : list ascii) :
  In c (strip_chars l) -> In c l.
Proof.
  unfold strip_chars, Str.rstrip_chars, Str.lstrip_chars. intros H.
  apply in_rev in H. apply drop_while_incl in H. apply in_rev in H.
  now apply drop_while_incl in H.
Qed.

Lemma strip_chars_length (l : list ascii) :
  List.length (strip_chars l) <= List.length l.
Proof.
  unfold strip_chars, Str.rstrip_chars, Str.lstrip_chars.
  rewrite length_rev.
  etransitivity; [apply drop_while_length|]. rewrite length_rev.
  apply drop_while_length.
Qed.

(** A token as [split] makes them: not empty, and free of white space. *)
Definition token_ok (tok : string) : Prop :=
  Str.is_empty tok = false
  /\ Forall (fun c => Str.is_space c = false) (Str.chars tok).

Lemma run_ok (cur : list ascii) :
  cur <> [] -> Forall (fun c => Str.is_space c = false) cur ->
  token_ok (Str.of_chars (rev cur)).
Proof.
  intros Hne Hcur. split.
  - destruct (Str.is_empty (Str.of_chars (rev cur))) eqn:E; [|reflexivity].
    apply is_empty_of_chars in E.
    apply (f_equal (@rev ascii)) in E. rewrite rev_involutive in E. now elim Hne.
  - rewrite chars_of_chars. now apply Forall_rev.
Qed.

Lemma split_chars_tokens (l : list ascii) :
  forall cur, Forall (fun c => Str.is_space c = false) cur ->
              Forall token_ok (Str.split_chars l cur).
Proof.
  induction l as [|c l IH]; intros cur Hcur; simpl.
  - destruct cur as [|x cur]; [constructor|].
    constructor; [|constructor]. apply run_ok; [discriminate | exact Hcur].
  - destruct (Str.is_space c) eqn:Hc.
    + destruct cur as [|x cur]; [apply IH; constructor|].
      constructor; [apply run_ok; [discriminate | exact Hcur] | apply IH; constructor].
    + apply IH. now constructor.
Qed.

Lemma split_chars_some (l : list ascii) :
  forall cur, (cur <> [] \/ exists c, In c l /\ Str.is_space c = false) ->
              Str.split_chars l cur <> [].
Proof.
  induction l as [|c l IH]; intros cur H; simpl.
  - destruct cur; [|discriminate].
    destruct H as [H|(c & [] & _)]. now elim H.
  - destruct (Str.is_space c) eqn:Hc.
    + destruct cur as [|x cur]; [|discriminate].
      apply IH. right. destruct H as [H|(d & [<-|Hd] & Hs)];
        [now elim H | congruence | now exists d].
    + apply IH. left. discriminate.
Qed.

(** A text that is not blank has a token. *)
Lemma split_not_blank (t : string) :
  Str.is_empty (Str.strip t) = false -> Str.split t <> [].
Proof.
  intros H. rewrite strip_unfold in H.
  assert (Hne : strip_chars (Str.chars t) <> []).
  { intros E. rewrite E in H. discriminate. }
  destruct (strip_chars_has_ink _ Hne) as (c & Hin & Hc).
  apply split_chars_some. right. exists c. split; [|exact Hc].
  now apply strip_chars_incl.
Qed.

(** ** Records *)

Lemma normalize_line_inv (w h : Z) (line : Line) (r : LineRecord) :
  normalize_line w h line = Ok (Some r) ->
  Str.is_empty (effective_text line) = false
  /\ Str.is_empty (Str.strip (effective_text line)) = false
  /\ text r = Str.strip (effective_text line)
  /\ tokens r = Str.split (effective_text line)
  /\ word_count r = List.length (Str.split (effective_text line))
  /\ char_len r = Str.len (effective_text line)
  /\ line_conf r = effective_conf line
  /\ bbox r = line_bbox line.
Proof.
  unfold normalize_line.
  destruct (Str.is_empty (effective_text line)
            || Str.is_empty (Str.strip (effective_text line))) eqn:Hskip;
    [discriminate|].
  apply orb_false_iff in Hskip. destruct Hskip as [He Hs].
  destruct (line_bbox line) as [|x1 [|y1 [|x2 [|y2 more]]]]; try discriminate.
  destruct (normalized _ w) as [cx|]; cbn [bind]; [|discriminate].
  destruct (normalized _ h) as [cy|]; cbn [bind]; [|discriminate].
  intros [= <-]. simpl. repeat split; assumption.
Qed.

(** What the counts of a record say. *)
Definition counted (r : LineRecord) : Prop :=
  word_count r = List.length (tokens r)
  /\ 1 <= word_count r
  /\ Forall token_ok (tokens r)
  /\ 1 <= char_len r
  /\ Str.len (text r) <= char_len r.

Lemma normalize_line_counted (w h : Z) (line : Line) (r : LineRecord) :
  normalize_line w h line = Ok (Some r) -> counted r.
Proof.
  intros H. destruct (normalize_line_inv _ _ _ _ H)
    as (He & Hs & Ht & Htok & Hw & Hc & _).
  unfold counted. rewrite Hw, Htok, Hc, Ht. repeat split.
  - pose proof (split_not_blank _ Hs) as Hne.
    destruct (Str.split (effective_text line)); [now elim Hne | simpl; lia].
  - apply split_chars_tokens. constructor.
  - destruct (effective_text line); [discriminate | simpl; lia].
  - rewrite strip_unfold, JunkFacts.len_of_chars, <- JunkFacts.length_chars.
    apply strip_chars_length.
Qed.

(** Every record [normalize_ocr] returns has at least one token and one
    character: [word_count] is the number of tokens and is at least 1, no
    token is empty or holds white space, and [char_len], the length of the
    text before stripping, is at least 1 and at least the length of the
    stripped [text]. *)
Theorem normalized_records_counted (ocr : OCRInput) (settings : ParseSettings)
  (records : list LineRecord) :
  normalize_ocr ocr settings = Ok records -> Forall counted records.
Proof.
  exact (NormalizeFacts.normalize_ocr_records counted normalize_line_counted
           ocr settings records).
Qed.

Lemma normalized_records_counted_witness :
  exists records,
    normalize_ocr NormalizeFacts.three_lines default_settings = Ok records
    /\ map word_count records = [1; 2; 2]
    /\ Forall counted records.
Proof.
  destruct (normalize_ocr NormalizeFacts.three_lines default_settings)
    as [records|] eqn:E; [|vm_compute in E; discriminate].
  exists records. split; [reflexivity|].
  split; [|exact (normalized_records_counted _ _ _ E)].
  vm_compute in E. injection E as <-. reflexivity.
Defined.

(** ** Confidence *)

Lemma no_word_confidence (ws : list Word) :
  flat_map (fun w => match word_confidence w with
                     | Some c => [c]
                     | None => []
                     end) ws = []
  <-> Forall (fun w => word_confidence w = None) ws.
Proof.
  induction ws as [|w ws IH]; simpl.
  - split; [constructor | reflexivity].
  - destruct (word_confidence w) as [c|] eqn:E; simpl.
    + split; [discriminate|]. intros H. inversion H; congruence.
    + rewrite IH. split; [now constructor | now inversion 1].
Qed.

(** The confidence of a record is unset exactly when the line has no
    confidence of its own and none of its words has one: an absent
    confidence is never replaced by zero. *)
Theorem line_conf_unset (w h : Z) (line : Line) (r : LineRecord) :
  normalize_line w h line = Ok (Some r) ->
  (line_conf r = None <->
   line_confidence line = None
   /\ Forall (fun wd => word_confidence wd = None) (words line)).
Proof.
  intros H. destruct (normalize_line_inv _ _ _ _ H) as (_ & _ & _ & _ & _ & _ & -> & _).
  unfold effective_conf.
  destruct (line_confidence line) as [c|].
  { split; [discriminate | intros [? _]; discriminate]. }
  destruct (words line) as [|w0 ws] eqn:Ew.
  { split; [intros _; split; [reflexivity | constructor] | reflexivity]. }
  rewrite <- no_word_confidence.
  destruct (flat_map _ (w0 :: ws)) as [|c cs].
  - split; [now split | reflexivity].
  - split; [discriminate | intros [_ ?]; discriminate].
Qed.

Definition unread_line : Line :=
  {| line_bbox := [100; 400; 900; 550]%float;
     line_confidence := None;
     line_text := Some "THE GREAT GATSBY";
     words := [ {| word_confidence := None; word_text := "THE" |} ] |}.

Lemma line_conf_unset_witness :
  exists r, normalize_line 1000 1500 unread_line = Ok (Some r)
            /\ line_conf r = None.
Proof.
  destruct (normalize_line 1000 1500 unread_line) as [[r|]|] eqn:E;
    try (vm_compute in E; discriminate).
  exists r. split; [reflexivity|].
  apply (line_conf_unset 1000 1500 unread_line r E).
  split; [reflexivity | repeat constructor].
Defined.

(** Settings that set no limit and switch every stage off. *)
Definition no_limit : ParseSettings :=
  {| conf_min_word := 0;
     conf_min_line := 0;
     max_lines_considered := 0;
     merge_adjacent_lines_flag := false;
     junk_filter := false;
     verify := false;
     verify_provider_order := [];
     max_verify_queries := 0 |}.

End RecordFacts.

(* ===================================================================== *)
(** * Lines the merge pass loses, and the warnings of a result *)
(* ===================================================================== *)

Module PassFacts.

Import Ranker Normalize Totality.

(** A line that is within vertical reach of the line that opens its
    group but not aligned with it is passed over by the inner loop, and
    the outer loop resumes after it: the line is in no record of the
    output.  When the gap between the bottom of the first line and the top
    of the second is at most 0.6 x the mean height and their centres are
    more than 0.1 apart, [merge_adjacent_lines] goes on from the first
    line to the third as if the second were not there (it counts in the
    mean height only); with two lines it returns the first alone. *)
Theorem misaligned_neighbour_is_dropped (a b : LineRecord)
  (rest : list LineRecord) (bottom top : float) :
  nth_error (bbox a) 3 = Some bottom ->
  nth_error (bbox b) 1 = Some top ->
  gt (abs (top - bottom)) (0.6 * average_height (a :: b :: rest)) = false ->
  gt (abs (center_x b - center_x a)%float) 0.1 = true ->
  merge_adjacent_lines (a :: b :: rest)
  = sweep (average_height (a :: b :: rest)) a rest
  /\ (rest = [] -> merge_adjacent_lines [a; b] = Ok [a]).
Proof.
  intros Ha Hb Hgap Hside.
  assert (Hgo : merge_adjacent_lines (a :: b :: rest)
                = sweep (average_height (a :: b :: rest)) a rest).
  { unfold merge_adjacent_lines. cbn [sweep].
    unfold look_ahead, bbox_get. rewrite Ha, Hb. cbn [bind].
    rewrite Hgap, Hside. reflexivity. }
  split; [exact Hgo|]. intros ->. exact Hgo.
Qed.

(** A title at the left and, just below, an author at the right. *)
Definition two_columns : OCRInput :=
  MergeFacts.page [ MergeFacts.ocr_line [100; 100; 300; 200]%float "DUNE";
                    MergeFacts.ocr_line [700; 210; 900; 260]%float "Frank Herbert" ].

Lemma misaligned_neighbour_witness :
  exists a b,
    normalize_ocr two_columns default_settings = Ok [a; b]
    /\ text b = "Frank Herbert"
    /\ merge_adjacent_lines [a; b] = Ok [a].
Proof.
  eexists _, _. split; [reflexivity|]. split; [reflexivity|].
  apply (misaligned_neighbour_is_dropped _ _ [] 200 210); reflexivity.
Defined.

(** ** Warnings *)

Lemma filter_split_length {A : Type} (p : A -> bool) (l : list A) :
  List.length (filter p l) + List.length (filter (fun x => negb (p x)) l)
  = List.length l.
Proof.
  induction l as [|x l IH]; simpl; [reflexivity|].
  destruct (p x); simpl; lia.
Qed.

(** The number of junk lines among the valid lines. *)
Definition junk_count (valid : list LineRecord) : nat :=
  List.length (filter (fun l => is_junk (text l)) valid).

(** The warning expected of the junk filter: none when the filter is off
    or no valid line is junk, else the text "Filtered n junk lines" with
    the count in decimal digits. *)
Definition junk_part (settings : ParseSettings) (valid : list LineRecord)
  : list string :=
  if junk_filter settings
  then match junk_count valid with
       | 0 => []
       | n => [("Filtered " ++ RankFacts.decimal n ++ " junk lines")%string]
       end
  else [].

Lemma apply_junk_filter_warnings (settings : ParseSettings)
  (valid : list LineRecord) :
  snd (apply_junk_filter settings valid []) = junk_part settings valid.
Proof.
  unfold apply_junk_filter, junk_part, junk_count.
  destruct (junk_filter settings); [|reflexivity].
  pose proof (filter_split_length (fun l => is_junk (text l)) valid) as H.
  cbv beta in H.
  destruct (List.length (filter (fun l => negb (is_junk (text l))) valid)
            <? List.length valid)%nat eqn:E.
  - apply Nat.ltb_lt in E. simpl.
    replace (List.length valid
             - List.length (filter (fun l => negb (is_junk (text l))) valid))
      with (List.length (filter (fun l => is_junk (text l)) valid)) by lia.
    destruct (List.length (filter (fun l => is_junk (text l)) valid)) eqn:En;
      [lia | reflexivity].
  - apply Nat.ltb_ge in E. simpl.
    destruct (List.length (filter (fun l => is_junk (text l)) valid)); [reflexivity | lia].
Qed.

Lemma swap_logic_warnings (tt ta : list scored) (p q : picks)
  (warns warns' : list string) :
  swap_logic tt ta p warns = Ok (q, warns') ->
  warns' = warns \/ warns' = warns ++ [swap_warning].
Proof.
  unfold swap_logic. destruct p as [[t|] [a|]]; try (intros [= _ <-]; now left).
  destruct (gt _ 0.6%float && PrimFloat.ltb _ 0.3%float);
    [|intros [= _ <-]; now left].
  destruct (top_score ta) as [a0|]; cbn [bind]; [|discriminate].
  destruct (top_score tt) as [t0|]; cbn [bind]; [|discriminate].
  destruct (gt a0 (t0 * 0.8)%float); intros [= _ <-]; [now right | now left].
Qed.

(** The warnings of a result are, in this order: "No valid lines found in
    OCR" alone when no line is valid; otherwise "Filtered n junk lines",
    n being the number of valid lines that are junk, when the filter is on
    and that number is not zero, followed or not by "Applied swap logic:
    title/author may be reversed".  There is no other warning. *)
Theorem warnings_of_a_result (ls : list LineRecord) (ocr : OCRInput)
  (settings : ParseSettings) (r : RankResult) :
  rank_candidates ls ocr settings = Ok r ->
  (filter valid_line ls = []
   /\ warnings r = ["No valid lines found in OCR"%string])
  \/ (filter valid_line ls <> []
      /\ (warnings r = junk_part settings (filter valid_line ls)
          \/ warnings r
             = junk_part settings (filter valid_line ls)
               ++ ["Applied swap logic: title/author may be reversed"%string])).
Proof.
  intros H. destruct (rank_candidates_inv _ _ _ _ H)
    as [(Hnone & _ & _ & _ & _ & Hw)|(tops & p & q & warns & Hsome & Htops & _ & _ & _
                                     & Hswap & _ & _ & Hw)].
  - left. now split.
  - right. split; [exact Hsome|].
    destruct (Selection.select_top_inv _ _ _ Htops) as (ls' & _ & _ & _ & Hwarn & _).
    rewrite Hw. rewrite Hwarn, apply_junk_filter_warnings in Hswap.
    exact (swap_logic_warnings _ _ _ _ _ _ Hswap).
Qed.

Lemma warnings_of_a_result_witness :
  exists r,
    rank_candidates RankFacts.copyright_records RankFacts.copyright_page
      default_settings = Ok r
    /\ junk_count (filter valid_line RankFacts.copyright_records) = 2
    /\ warnings r = ["Filtered 2 junk lines"%string].
Proof.
  destruct (rank_candidates RankFacts.copyright_records RankFacts.copyright_page
              default_settings) as [r|] eqn:E; [|vm_compute in E; discriminate].
  exists r. split; [reflexivity|]. split; [reflexivity|].
  destruct (warnings_of_a_result _ _ _ _ E) as [[Hnone _]|[_ [Hw|Hw]]].
  - vm_compute in Hnone. discriminate.
  - exact Hw.
  - exfalso. vm_compute in E. injection E as <-. vm_compute in Hw. discriminate.
Defined.

End PassFacts.

(* ===================================================================== *)
(** * Properties of the similarity primitives *)
(* ===================================================================== *)

Module SimilarityFacts.

Import Similarity JunkFacts.

Lemma is_empty_of_chars_map (f : ascii -> ascii) (s : string) :
  Str.is_empty (Str.of_chars (map f (Str.chars s))) = Str.is_empty s.
Proof. destruct s; reflexivity. Qed.

Lemma is_empty_lower (s : string) : Str.is_empty (Str.lower s) = Str.is_empty s.
Proof. apply is_empty_of_chars_map. Qed.

Lemma is_empty_upper (s : string) : Str.is_empty (Str.upper s) = Str.is_empty s.
Proof. apply is_empty_of_chars_map. Qed.

(** A text with its case changed: lower-cased or upper-cased. *)
Inductive recased (s : string) : string -> Prop :=
| recased_same : recased s s
| recased_lower : recased s (Str.lower s)
| recased_upper : recased s (Str.upper s).

Lemma recased_lower_eq (s s' : string) : recased s s' -> Str.lower s' = Str.lower s.
Proof. intros []; [reflexivity | apply lower_lower | apply lower_upper]. Qed.

Lemma recased_is_empty (s s' : string) :
  recased s s' -> Str.is_empty s' = Str.is_empty s.
Proof. intros []; [reflexivity | apply is_empty_lower | apply is_empty_upper]. Qed.

(** [token_set_ratio] ignores case, with rapidfuzz or without: changing
    the case of either argument does not change the result. *)
Theorem token_set_ratio_ignores_case
  (rapidfuzz : option (string -> string -> float)) (s1 s1' s2 s2' : string) :
  recased s1 s1' -> recased s2 s2' ->
  token_set_ratio rapidfuzz s1' s2' = token_set_ratio rapidfuzz s1 s2.
Proof.
  intros H1 H2. unfold token_set_ratio, token_set.
  rewrite (recased_is_empty _ _ H1), (recased_is_empty _ _ H2).
  rewrite (recased_lower_eq _ _ H1), (recased_lower_eq _ _ H2).
  reflexivity.
Qed.

Lemma token_set_ratio_ignores_case_witness :
  token_set_ratio None "THE GREAT GATSBY" "the great gatsby"
  = token_set_ratio None "The Great Gatsby" "The Great Gatsby".
Proof.
  transitivity (token_set_ratio None "THE GREAT GATSBY" "The Great Gatsby").
  - apply (token_set_ratio_ignores_case None "THE GREAT GATSBY" "THE GREAT GATSBY"
             "The Great Gatsby" "the great gatsby");
      [apply recased_same | apply (recased_lower "The Great Gatsby")].
  - apply (token_set_ratio_ignores_case None "The Great Gatsby" "THE GREAT GATSBY"
             "The Great Gatsby" "The Great Gatsby");
      [apply (recased_upper "The Great Gatsby") | apply recased_same].
Defined.

(** [weighted_similarity] ignores case in the same way. *)
Lemma weighted_similarity_ignores_case
  (rapidfuzz : option (string -> string -> float))
  (t1 t1' t2 t2' a1 a1' a2 a2' : string) (w : float) :
  recased t1 t1' -> recased t2 t2' -> recased a1 a1' -> recased a2 a2' ->
  weighted_similarity rapidfuzz t1' t2' a1' a2' w
  = weighted_similarity rapidfuzz t1 t2 a1 a2 w.
Proof.
  intros Ht1 Ht2 Ha1 Ha2. unfold weighted_similarity, token_set_ratio, token_set.
  rewrite (recased_is_empty _ _ Ht1), (recased_is_empty _ _ Ht2),
    (recased_is_empty _ _ Ha1), (recased_is_empty _ _ Ha2).
  rewrite (recased_lower_eq _ _ Ht1), (recased_lower_eq _ _ Ht2),
    (recased_lower_eq _ _ Ha1), (recased_lower_eq _ _ Ha2).
  reflexivity.
Qed.

(** ** Symmetry of the fallback *)

Lemma mem_In (x : string) (l : list string) : mem x l = true <-> In x l.
Proof.
  unfold mem. rewrite existsb_exists. split.
  - intros (y & Hy & E). apply String.eqb_eq in E. now subst.
  - intros H. exists x. split; [exact H | apply String.eqb_refl].
Qed.

Lemma common_length (a b : list string) :
  NoDup a -> NoDup b ->
  List.length (filter (fun t => mem t b) a)
  = List.length (filter (fun t => mem t a) b).
Proof.
  intros Ha Hb. apply Permutation_length. apply NoDup_Permutation.
  - now apply NoDup_filter.
  - now apply NoDup_filter.
  - intros x. rewrite !filter_In, !mem_In. tauto.
Qed.

Lemma union_length (a b : list string) :
  List.length (nodup string_dec (a ++ b))
  = List.length (nodup string_dec (b ++ a)).
Proof.
  apply Permutation_length. apply NoDup_Permutation; try apply NoDup_nodup.
  intros x. rewrite !nodup_In, !in_app_iff. tauto.
Qed.

(** Without rapidfuzz, [token_set_ratio] is symmetric: the Jaccard ratio
    of the two token sets does not depend on the order of the
    arguments. *)
Theorem fallback_token_set_ratio_symmetric (s1 s2 : string) :
  token_set_ratio None s1 s2 = token_set_ratio None s2 s1.
Proof.
  unfold token_set_ratio.
  destruct (Str.is_empty s1), (Str.is_empty s2); simpl; try reflexivity.
  pose proof (common_length (token_set s1) (token_set s2)
                (NoDup_nodup _ _) (NoDup_nodup _ _)) as Hc.
  pose proof (union_length (token_set s1) (token_set s2)) as Hu.
  destruct (token_set s1) as [|x xs] eqn:E1, (token_set s2) as [|y ys] eqn:E2;
    try reflexivity.
  rewrite Hc, Hu. reflexivity.
Qed.

(** An empty text is similar to nothing: the ratio is 0.0 as soon as one
    argument is empty or blank, with rapidfuzz (whatever it would answer)
    for an empty argument, and without it for a blank one too. *)
Lemma token_set_ratio_of_nothing
  (rapidfuzz : option (string -> string -> float)) (s : string) :
  token_set_ratio rapidfuzz "" s = 0%float
  /\ token_set_ratio rapidfuzz s "" = 0%float.
Proof.
  unfold token_set_ratio. split; [reflexivity|].
  destruct (Str.is_empty s); reflexivity.
Qed.

End SimilarityFacts.

(* ===================================================================== *)
(** * The orchestrator, whatever the services do *)
(* ===================================================================== *)

Module TrafficFacts.

Import Verifier.

(** The names the orchestrator dispatches on. *)
Definition known (name : string) : bool :=
  match dispatch name with
  | Some _ => true
  | None => false
  end.

(** The provider order a call uses. *)
Definition order_used (settings : ParseSettings) : list string :=
  match verify_provider_order settings with
  | [] => ["google_books"; "open_library"]
  | order => order
  end.

(** An entry of the log that records a query, not an error. *)
Definition is_query (e : QueryEntry) : Prop :=
  match e with
  | QueryLog _ _ _ => True
  | ErrorLog _ _ => False
  end.

(** The ghost fields of a state agree: [issued] counts [requests]. *)
Definition consistent (w : World) : Prop :=
  issued w = List.length (requests w).

Section AnyService.

Variable rapidfuzz : option (string -> string -> float).
Variable http : nat -> Request -> HttpOutcome.

(** [h] was served to this call by provider [p]: one of the requests the
    call sent, the [n]-th, was a query of [p] for [title] and [author]; it
    was answered with status 200 and a body that decodes; and [h] is what
    [p] reads of one entry of the listing of that body. *)
Definition served (p : ProviderText) (title author : option string)
  (sent : list Request) (h : Hit) : Prop :=
  exists n request data listed entries entry reading isbn id,
    nth_error sent n = Some request
    /\ (request = strict_request p (or_empty title ++ " " ++ or_empty author)
        \/ request = title_request p (or_empty title))
    /\ http n request = Response 200 (Done data)
    /\ get data (listing p) (JList []) = Done listed
    /\ iterate listed = Done entries
    /\ In entry entries
    /\ read_hit p entry = Done reading
    /\ read_rest reading = Done (isbn, id)
    /\ h = {| vol_title := read_title reading;
              vol_author := read_author reading;
              vol_isbn13 := isbn;
              vol_source_id := id |}.

Lemma served_later (p : ProviderText) (title author : option string)
  (sent more : list Request) (h : Hit) :
  served p title author sent h -> served p title author (sent ++ more) h.
Proof.
  intros (n & request & data & listed & entries & entry & reading & isbn & id
          & Hn & Hrest).
  exists n, request, data, listed, entries, entry, reading, isbn, id.
  split; [|exact Hrest].
  rewrite nth_error_app1; [exact Hn|].
  apply nth_error_Some. congruence.
Qed.

(** The loop over the entries of a response touches [top_hits] only, and
    its best match is one it had or one it read. *)
Lemma scan_hits_facts (P : Hit -> Prop) (p : ProviderText)
  (title author : string) (weight : float) (entries : list json) :
  (forall entry reading isbn id,
      In entry entries -> read_hit p entry = Done reading ->
      read_rest reading = Done (isbn, id) ->
      P {| vol_title := read_title reading; vol_author := read_author reading;
           vol_isbn13 := isbn; vol_source_id := id |}) ->
  forall (b : best) (w : World),
    (forall h, snd b = Some h -> P h) ->
    let out := scan_hits rapidfuzz p title author weight entries b w in
    issued (snd (fst out)) = issued w
    /\ requests (snd (fst out)) = requests w
    /\ all_queries (snd (fst out)) = all_queries w
    /\ (forall h, snd (fst (fst out)) = Some h -> P h).
Proof.
  induction entries as [|entry rest IH]; intros Hread b w Hb; simpl.
  - now repeat split.
  - destruct (read_hit p entry) as [r|message] eqn:Hr; [|now repeat split].
    destruct (weighted_similarity_of _ _ _ _ _ _) as [sc|message];
      [|now repeat split].
    destruct (gt sc (fst b)).
    + destruct (read_rest r) as [[isbn id]|message] eqn:Hrest.
      * match goal with
        | |- context [scan_hits _ _ _ _ _ rest ?b1 ?w1] =>
            destruct (IH (fun e r' i d He => Hread e r' i d (or_intror He)) b1 w1)
              as (I1 & I2 & I3 & I4)
        end.
        { simpl. intros h [= <-]. apply (Hread entry r isbn id); auto. now left. }
        now repeat split.
      * simpl. now repeat split.
    + match goal with
      | |- context [scan_hits _ _ _ _ _ rest b ?w1] =>
          destruct (IH (fun e r' i d He => Hread e r' i d (or_intror He)) b w1 Hb)
            as (I1 & I2 & I3 & I4)
      end.
      now repeat split.
Qed.

Lemma read_response_facts (P : Hit -> Prop) (p : ProviderText)
  (title author : string) (weight : float) (body : attempt json)
  (b : best) (w : World) :
  (forall data listed entries entry reading isbn id,
      body = Done data -> get data (listing p) (JList []) = Done listed ->
      iterate listed = Done entries ->
      In entry entries -> read_hit p entry = Done reading ->
      read_rest reading = Done (isbn, id) ->
      P {| vol_title := read_title reading; vol_author := read_author reading;
           vol_isbn13 := isbn; vol_source_id := id |}) ->
  (forall h, snd b = Some h -> P h) ->
  let out := read_response rapidfuzz p title author weight body b w in
  issued (snd (fst out)) = issued w
  /\ requests (snd (fst out)) = requests w
  /\ all_queries (snd (fst out)) = all_queries w
  /\ (forall h, snd (fst (fst out)) = Some h -> P h).
Proof.
  intros Hread Hb. unfold read_response.
  destruct body as [data|message]; simpl; [|now repeat split].
  destruct (get data (listing p) (JList [])) as [listed|message] eqn:Hg; simpl;
    [|now repeat split].
  destruct (iterate listed) as [entries|message] eqn:Hi; simpl;
    [|now repeat split].
  apply scan_hits_facts; [|exact Hb].
  intros entry reading isbn id. now apply (Hread data listed entries).
Qed.

(** What one provider call does to the state, and what it returns: the
    state it leaves extends the state [w0] it was given by at most two
    requests and two log entries, all of them queries; a result counts
    its log entries, within the limit; and the canonical record of a
    result is made of a hit that was served. *)
Record provider_facts (p : ProviderText) (title author : option string)
  (limit : Z) (w0 : World) (rw : res ProviderResult * World) : Prop := {
  pf_consistent : consistent (snd rw);
  pf_requests : exists more, requests (snd rw) = requests w0 ++ more;
  pf_sent : issued (snd rw) <= issued w0 + 2;
  pf_log : exists more,
      all_queries (snd rw) = all_queries w0 ++ more
      /\ Forall is_query more
      /\ List.length more <= 2
      /\ forall result, fst rw = Ok result ->
           List.length more = queries_made result
           /\ (Z.of_nat (queries_made result) <= Z.max 0 limit)%Z;
  pf_source : forall result c,
      fst rw = Ok result -> res_canonical result = Some c ->
      exists h, served p title author (requests (snd rw)) h
                /\ make_canonical h = Ok c
}.

Lemma provider_return_facts (p : ProviderText) (title author : option string)
  (limit : Z) (made : nat) (notes : list string) (b : best)
  (w0 w : World) (logged : list QueryEntry) :
  consistent w ->
  (exists more, requests w = requests w0 ++ more) ->
  issued w <= issued w0 + 2 ->
  all_queries w = all_queries w0 ++ logged ->
  Forall is_query logged ->
  List.length logged = made ->
  made <= 2 ->
  (Z.of_nat made <= Z.max 0 limit)%Z ->
  (forall h, snd b = Some h -> served p title author (requests w) h) ->
  provider_facts p title author limit w0 (provider_return b made notes, w).
Proof.
  intros Hc Hr Hs Hl Hq Hn Hm Hlim Hb.
  assert (Hmade : forall result, provider_return b made notes = Ok result ->
                                 queries_made result = made).
  { intros result. destruct b as [s [h|]]; simpl;
      [destruct (ge s 0.6%float);
       [destruct (make_canonical h); simpl; [|discriminate]|]|];
      intros [= <-]; reflexivity. }
  split; simpl; try assumption.
  - exists logged. split; [assumption|]. split; [assumption|].
    split; [lia|]. intros result H. rewrite (Hmade _ H). split; lia.
  - intros result c. destruct b as [s [h|]]; simpl;
      [|intros [= <-]; discriminate].
    destruct (ge s 0.6%float); [|intros [= <-]; discriminate].
    destruct (make_canonical h) as [c'|] eqn:Hmk; simpl; [|discriminate].
    intros [= <-]. simpl. intros [= <-].
    exists h. split; [now apply Hb | exact Hmk].
Qed.

Lemma title_only_phase_facts (p : ProviderText) (title author : option string)
  (limit : Z) (b : best) (made : nat) (notes : list string) (w0 w : World)
  (logged : list QueryEntry) :
  consistent w ->
  (exists more, requests w = requests w0 ++ more) ->
  issued w <= issued w0 + 1 ->
  all_queries w = all_queries w0 ++ logged ->
  Forall is_query logged ->
  List.length logged = made ->
  made <= 1 ->
  (Z.of_nat made <= Z.max 0 limit)%Z ->
  (forall h, snd b = Some h -> served p title author (requests w) h) ->
  provider_facts p title author limit w0
    (title_only_phase rapidfuzz http p title author limit b made notes w).
Proof.
  intros Hc Hr Hs Hl Hq Hn Hm Hlim Hb. unfold title_only_phase.
  destruct (PrimFloat.ltb (fst b) 0.7%float && present title
            && (Z.of_nat made <? limit)%Z) eqn:Hgate;
    [|apply (provider_return_facts _ _ _ _ _ _ _ _ _ logged);
      try assumption; lia].
  apply andb_true_iff in Hgate. destruct Hgate as [_ Hlt]. apply Z.ltb_lt in Hlt.
  unfold client_get.
  set (request := title_request p (or_empty title)).
  set (w1 := {| issued := S (issued w); requests := requests w ++ [request];
                all_queries := all_queries w; top_hits := top_hits w |}).
  assert (Hc1 : consistent w1).
  { unfold consistent, w1 in *. simpl. rewrite length_app. simpl. lia. }
  assert (Hr1 : exists more, requests w1 = requests w0 ++ more).
  { destruct Hr as [more Hmore]. exists (more ++ [request]).
    unfold w1. simpl. rewrite Hmore. now rewrite app_assoc. }
  assert (Hb1 : forall h, snd b = Some h ->
                          served p title author (requests w1) h).
  { intros h Hh. unfold w1. simpl. apply served_later. now apply Hb. }
  assert (Hnth : nth_error (requests w1) (issued w) = Some request).
  { unfold w1. simpl. rewrite Hc. rewrite nth_error_app2 by lia.
    now rewrite Nat.sub_diag. }
  destruct (http (issued w) request) as [msg|msg|status body] eqn:Hout;
    try (apply (provider_return_facts _ _ _ _ _ _ _ _ _ logged);
         simpl; try assumption; lia).
  set (entry := QueryLog (provider_name p) (or_empty title) "title_only").
  set (w2 := log_query w1 entry).
  assert (Hl2 : all_queries w2 = all_queries w0 ++ (logged ++ [entry])).
  { unfold w2, w1. simpl. rewrite Hl. now rewrite app_assoc. }
  assert (Hq2 : Forall is_query (logged ++ [entry])).
  { apply Forall_app. split; [exact Hq | repeat constructor]. }
  assert (Hn2 : List.length (logged ++ [entry]) = S made).
  { rewrite length_app. simpl. lia. }
  destruct (status =? 200)%Z eqn:Hok.
  - apply Z.eqb_eq in Hok. subst status.
    pose proof (read_response_facts
                  (served p title author (requests w1)) p (or_empty title)
                  (or_empty author) 0.8%float body b w2) as Hf.
    destruct (read_response rapidfuzz p (or_empty title) (or_empty author)
                0.8%float body b w2) as [[b' w3] failure].
    simpl in Hf. destruct Hf as (F1 & F2 & F3 & F4); [|exact Hb1|].
    { intros data listed entries e reading isbn id -> Hg Hi He Hrd Hrest.
      exists (issued w), request, data, listed, entries, e, reading, isbn, id.
      repeat split; try assumption. now right. }
    apply (provider_return_facts _ _ _ _ _ _ _ _ _ (logged ++ [entry])).
    + unfold consistent in *. rewrite F1, F2. exact Hc1.
    + rewrite F2. exact Hr1.
    + rewrite F1. simpl. lia.
    + rewrite F3. exact Hl2.
    + exact Hq2.
    + exact Hn2.
    + lia.
    + lia.
    + rewrite F2. exact F4.
  - apply (provider_return_facts _ _ _ _ _ _ _ _ _ (logged ++ [entry]));
      simpl; try assumption; try lia.
Qed.

Lemma verify_provider_facts (p : ProviderText) (title author : option string)
  (limit : Z) (w : World) :
  consistent w ->
  provider_facts p title author limit w
    (verify_provider rapidfuzz http p title author limit w).
Proof.
  intros Hc. unfold verify_provider.
  assert (Hr : exists more, requests w = requests w ++ more)
    by (exists []; now rewrite app_nil_r).
  assert (Hl : all_queries w = all_queries w ++ []) by now rewrite app_nil_r.
  destruct (negb (present title) && negb (present author)).
  { split; simpl; try assumption; try lia.
    - exists []. repeat split; try assumption; try constructor; simpl; try lia;
        injection H as <-; simpl; lia.
    - intros result c [= <-]. discriminate. }
  assert (Hnone : forall h : Hit, snd ((0%float, None) : best) = Some h ->
                                  served p title author (requests w) h)
    by discriminate.
  destruct (present title && present author && (0 <? limit)%Z) eqn:Hgate;
    [|apply (title_only_phase_facts _ _ _ _ _ _ _ _ _ []);
      try assumption; try constructor; simpl; lia].
  apply andb_true_iff in Hgate. destruct Hgate as [_ Hlt]. apply Z.ltb_lt in Hlt.
  unfold client_get.
  set (request := strict_request p (or_empty title ++ " " ++ or_empty author)).
  set (w1 := {| issued := S (issued w); requests := requests w ++ [request];
                all_queries := all_queries w; top_hits := top_hits w |}).
  assert (Hc1 : consistent w1).
  { unfold consistent, w1 in *. simpl. rewrite length_app. simpl. lia. }
  assert (Hr1 : exists more, requests w1 = requests w ++ more)
    by (exists [request]; reflexivity).
  assert (Hnone1 : forall h : Hit, snd ((0%float, None) : best) = Some h ->
                                   served p title author (requests w1) h)
    by discriminate.
  assert (Hnth : nth_error (requests w1) (issued w) = Some request).
  { unfold w1. simpl. rewrite Hc. rewrite nth_error_app2 by lia.
    now rewrite Nat.sub_diag. }
  destruct (http (issued w) request) as [msg|msg|status body] eqn:Hout;
    try (apply (title_only_phase_facts _ _ _ _ _ _ _ _ _ []);
         simpl; try assumption; try constructor; simpl; lia).
  set (entry := QueryLog (provider_name p)
                  (or_empty title ++ " " ++ or_empty author) "strict").
  set (w2 := log_query w1 entry).
  assert (Hl2 : all_queries w2 = all_queries w ++ [entry]) by reflexivity.
  assert (Hq2 : Forall is_query [entry]) by (repeat constructor).
  destruct (status =? 200)%Z eqn:Hok.
  - apply Z.eqb_eq in Hok. subst status.
    pose proof (read_response_facts
                  (served p title author (requests w1)) p (or_empty title)
                  (or_empty author) 0.6%float body (0%float, None) w2) as Hf.
    destruct (read_response rapidfuzz p (or_empty title) (or_empty author)
                0.6%float body (0%float, None) w2) as [[b' w3] failure].
    simpl in Hf. destruct Hf as (F1 & F2 & F3 & F4); [|discriminate|].
    { intros data listed entries e reading isbn id -> Hg Hi He Hrd Hrest.
      exists (issued w), request, data, listed, entries, e, reading, isbn, id.
      repeat split; try assumption. now left. }
    apply (title_only_phase_facts _ _ _ _ _ _ _ _ _ [entry]).
    + unfold consistent in *. rewrite F1, F2. exact Hc1.
    + rewrite F2. exact Hr1.
    + rewrite F1. simpl. lia.
    + rewrite F3. exact Hl2.
    + exact Hq2.
    + reflexivity.
    + lia.
    + lia.
    + rewrite F2. exact F4.
  - destruct (stops_on_429 p && (status =? 429)%Z).
    + split; simpl; try assumption; try lia.
      * exists [entry]. repeat split; try assumption; simpl; try lia;
          injection H as <-; simpl; lia.
      * intros result c [= <-]. discriminate.
    + apply (title_only_phase_facts _ _ _ _ _ _ _ _ _ [entry]);
        simpl; try assumption; try lia.
Qed.

(** Without a title a provider sends nothing: the strict query needs both
    texts and the title-only query needs the title. *)
Lemma verify_provider_without_title (p : ProviderText) (author : option string)
  (title : option string) (limit : Z) (w : World) :
  present title = false ->
  exists notes,
    verify_provider rapidfuzz http p title author limit w
    = (Ok (unmatched 0 notes), w).
Proof.
  intros Ht. unfold verify_provider, title_only_phase. rewrite Ht. simpl.
  destruct (negb (present author)); simpl; [now eexists|].
  try rewrite andb_false_r. simpl. now eexists.
Qed.

(** What the loop over the providers does to the state, and what it
    returns. *)
Record loop_facts (title author : option string) (limit : Z)
  (order : list string) (made : Z) (w : World) (vw : Verification * World)
  : Prop := {
  lf_consistent : consistent (snd vw);
  lf_requests : exists more, requests (snd vw) = requests w ++ more;
  lf_sent : issued (snd vw)
            <= issued w + 2 * List.length (filter known order);
  lf_log : exists more,
      all_queries (snd vw) = all_queries w ++ more
      /\ List.length more <= 3 * List.length (filter known order)
      /\ (Forall is_query more ->
          (Z.of_nat (List.length more) <= Z.max 0 (limit - made))%Z);
  lf_debug : debug (fst vw)
             = Some {| queries := all_queries (snd vw);
                       debug_top_hits := top_hits (snd vw) |};
  lf_attempted : attempted (fst vw) = true;
  lf_match : matched (fst vw) = true ->
      exists name p h c,
        provider (fst vw) = Some name
        /\ In name order /\ dispatch name = Some p
        /\ served p title author (requests (snd vw)) h
        /\ make_canonical h = Ok c
        /\ canonical (fst vw) = Some c
}.

Lemma loop_facts_stop (title author : option string) (limit : Z)
  (order : list string) (made : Z) (w : World) :
  consistent w -> loop_facts title author limit order made w (no_match w, w).
Proof.
  intros Hc. split; simpl; try assumption; try reflexivity; try lia;
    try discriminate.
  - exists []. now rewrite app_nil_r.
  - exists []. rewrite app_nil_r. repeat split; simpl; lia.
Qed.

Lemma loop_facts_skip (title author : option string) (limit : Z)
  (name : string) (rest : list string) (made : Z) (w : World)
  (vw : Verification * World) :
  known name = false ->
  loop_facts title author limit rest made w vw ->
  loop_facts title author limit (name :: rest) made w vw.
Proof.
  intros Hkn [L1 L2 L3 L4 L5 L6 L7].
  split; simpl; rewrite ?Hkn; try assumption.
  intros Hm. destruct (L7 Hm) as (n & p & h & c & H1 & H2 & H3).
  exists n, p, h, c. split; [exact H1|]. split; [now right | exact H3].
Qed.

Lemma loop_facts_after (title author : option string) (limit : Z)
  (name : string) (rest : list string) (made made' : Z) (w w1 : World)
  (logged : list QueryEntry) (vw : Verification * World) :
  known name = true ->
  (exists more, requests w1 = requests w ++ more) ->
  issued w1 <= issued w + 2 ->
  all_queries w1 = all_queries w ++ logged ->
  List.length logged <= 3 ->
  (Forall is_query logged ->
   (Z.of_nat (List.length logged) <= Z.max 0 (limit - made)
    /\ made' = made + Z.of_nat (List.length logged))%Z) ->
  loop_facts title author limit rest made' w1 vw ->
  loop_facts title author limit (name :: rest) made w vw.
Proof.
  intros Hkn [rq Hrq] Hs Hl Hn Hbudget [L1 [rq' L2] L3 (lg & L4 & L4n & L4b) L5 L6 L7].
  split; simpl; rewrite ?Hkn; simpl; try assumption.
  - exists (rq ++ rq'). rewrite L2, Hrq. now rewrite app_assoc.
  - lia.
  - exists (logged ++ lg). split; [rewrite L4, Hl; now rewrite app_assoc|].
    split; [rewrite length_app; lia|].
    intros Hq. apply Forall_app in Hq. destruct Hq as [Hq1 Hq2].
    destruct (Hbudget Hq1) as [Hb1 Hb2]. specialize (L4b Hq2).
    rewrite length_app. lia.
  - intros Hm. destruct (L7 Hm) as (n & p & h & c & H1 & H2 & H3).
    exists n, p, h, c. split; [exact H1|]. split; [now right | exact H3].
Qed.

Lemma try_providers_facts (title author : option string) (limit : Z)
  (order : list string) :
  forall (made : Z) (w : World),
    consistent w ->
    loop_facts title author limit order made w
      (try_providers rapidfuzz http title author limit order made w).
Proof.
  induction order as [|name rest IH]; intros made w Hc; simpl.
  - now apply loop_facts_stop.
  - destruct (limit <=? made)%Z eqn:Hfull; [now apply loop_facts_stop|].
    apply Z.leb_gt in Hfull.
    destruct (dispatch name) as [p|] eqn:Hd.
    + assert (Hkn : known name = true) by (unfold known; now rewrite Hd).
      pose proof (verify_provider_facts p title author (limit - made) w Hc) as Hp.
      pose proof (VerifierFacts.verify_provider_sound rapidfuzz http
                    p title author (limit - made) w) as Hsound.
      destruct (verify_provider rapidfuzz http p title author (limit - made) w)
        as [[result|e] w1];
        destruct Hp as [P1 P2 P3 (lg & P4 & P5 & P6 & P7) P8];
        simpl in P1, P2, P3, P4, P7, P8, Hsound.
      * destruct (P7 result eq_refl) as [P9 P10].
        destruct (res_matched result) eqn:Hm.
        -- destruct (Hsound result eq_refl Hm) as (c & sc & Hcan & _).
           destruct (P8 result c eq_refl Hcan) as (h & Hs & Hmk).
           split; simpl; rewrite ?Hkn; simpl; try assumption; try reflexivity;
             try lia.
           ++ exists lg. split; [assumption|]. split; [lia|]. intros _. lia.
           ++ intros _. exists name, p, h, c.
              split; [reflexivity|]. split; [now left|].
              split; [exact Hd|]. split; [exact Hs|]. split; [exact Hmk | exact Hcan].
        -- apply (loop_facts_after _ _ _ _ _ _
                    (made + Z.of_nat (queries_made result))%Z _ w1 lg);
             try assumption; try lia.
           now apply IH.
      * apply (loop_facts_after _ _ _ _ _ _ made _
                 (log_query w1 (ErrorLog name e)) (lg ++ [ErrorLog name e]));
          simpl; try assumption; try lia.
        -- rewrite P4. now rewrite app_assoc.
        -- rewrite length_app. simpl. lia.
        -- intros Hq. apply Forall_app in Hq. destruct Hq as [_ Hq].
           inversion Hq as [|? ? Herr _]. now elim Herr.
        -- apply IH. exact P1.
    + apply loop_facts_skip; [unfold known; now rewrite Hd | now apply IH].
Qed.

(** Whatever the services answer (responses of any status and any body,
    errors or timeouts), one call of [verify_candidates] sends at most two
    requests for each known name of the provider order; its log holds at
    most three entries for each such name (two queries and the error of
    a provider that raised); and when the log holds no error entry, it
    holds at most [min(max_verify_queries, 6)] entries (none when that is
    negative), which is what [test_verify_respects_max_queries]
    asserts. *)
Theorem traffic_of_a_call (title author : option string)
  (settings : ParseSettings) :
  let vw := verify_candidates rapidfuzz http title author settings in
  issued (snd vw) <= 2 * List.length (filter known (order_used settings))
  /\ (forall d, debug (fst vw) = Some d ->
        List.length (queries d)
        <= 3 * List.length (filter known (order_used settings))
        /\ (Forall is_query (queries d) ->
            (Z.of_nat (List.length (queries d))
             <= Z.max 0 (Z.min (max_verify_queries settings) 6))%Z)).
Proof.
  unfold verify_candidates.
  destruct (negb (present title) && negb (present author)).
  { simpl. split; [lia | discriminate]. }
  destruct (try_providers_facts title author
              (Z.min (max_verify_queries settings) 6)
              (order_used settings) 0%Z initial_world eq_refl)
    as [_ _ L3 (lg & L4 & L4n & L4b) L5 _ _].
  unfold order_used in *. simpl in L3, L4. split; [exact L3|].
  intros d Hd. rewrite L5 in Hd. injection Hd as <-. simpl.
  rewrite L4. split; [exact L4n|]. intros Hq. specialize (L4b Hq). lia.
Qed.

(** A result that says [matched] names a provider of the order in use
    that the orchestrator knows, and its canonical record is the record
    the model class makes of a hit that this provider was served during
    the call: the hit was read from an entry of the body of a status-200
    response to one of the requests that the call sent, a query of this
    provider for the title and the author. *)
Theorem match_comes_from_a_served_hit (title author : option string)
  (settings : ParseSettings) :
  let vw := verify_candidates rapidfuzz http title author settings in
  matched (fst vw) = true ->
  exists name p h c,
    provider (fst vw) = Some name
    /\ In name (order_used settings)
    /\ dispatch name = Some p
    /\ served p title author (requests (snd vw)) h
    /\ make_canonical h = Ok c
    /\ canonical (fst vw) = Some c.
Proof.
  unfold verify_candidates.
  destruct (negb (present title) && negb (present author)); [discriminate|].
  destruct (try_providers_facts title author
              (Z.min (max_verify_queries settings) 6)
              (order_used settings) 0%Z initial_world eq_refl)
    as [_ _ _ _ _ _ L7].
  unfold order_used in *. exact L7.
Qed.

(** With a budget of zero or less nothing is sent: the call returns at
    once with [attempted] and without a match. *)
Theorem no_budget_no_request (title author : option string)
  (settings : ParseSettings) :
  (max_verify_queries settings <= 0)%Z ->
  present title || present author = true ->
  verify_candidates rapidfuzz http title author settings
  = (no_match initial_world, initial_world).
Proof.
  intros Hb Hp. unfold verify_candidates.
  replace (negb (present title) && negb (present author)) with false
    by (destruct (present title), (present author); simpl in *; congruence).
  assert (Hfull : (Z.min (max_verify_queries settings) 6 <=? 0)%Z = true)
    by (apply Z.leb_le; lia).
  destruct (verify_provider_order settings) as [|n o]; simpl; now rewrite Hfull.
Qed.

(** With an author and no title nothing is sent either, whatever the
    budget: the call is [attempted], never matches and logs no query. *)
Theorem author_alone_is_never_queried (author : option string)
  (title : option string) (settings : ParseSettings) :
  present title = false ->
  let vw := verify_candidates rapidfuzz http title author settings in
  issued (snd vw) = 0 /\ matched (fst vw) = false
  /\ all_queries (snd vw) = [].
Proof.
  intros Ht. unfold verify_candidates. rewrite Ht. simpl.
  destruct (negb (present author)); [now repeat split|]. simpl.
  generalize (Z.min (max_verify_queries settings) 6). intros limit.
  generalize (match verify_provider_order settings with
              | [] => ["google_books"; "open_library"]
              | n :: o => n :: o
              end). intros order.
  assert (H : forall made,
             try_providers rapidfuzz http title author limit order made initial_world
             = (no_match initial_world, initial_world)).
  { induction order as [|name rest IH]; intros made; simpl; [reflexivity|].
    destruct (limit <=? made)%Z; [reflexivity|].
    destruct (dispatch name) as [p|]; [|apply IH].
    destruct (verify_provider_without_title p author title (limit - made)
                initial_world Ht) as [notes ->].
    simpl. rewrite Z.add_0_r. apply IH. }
  rewrite H. now repeat split.
Qed.

(** Names the orchestrator does not know are passed over: the loop gives
    the same result, and leaves the same state, on the order without
    them. *)
Theorem unknown_providers_are_skipped (title author : option string)
  (limit : Z) (order : list string) (made : Z) (w : World) :
  try_providers rapidfuzz http title author limit order made w
  = try_providers rapidfuzz http title author limit (filter known order) made w.
Proof.
  revert made w. induction order as [|name rest IH]; intros made w; simpl;
    [reflexivity|].
  unfold known at 1. destruct (dispatch name) as [p|] eqn:Hd; simpl.
  - rewrite Hd. destruct (limit <=? made)%Z; [reflexivity|].
    destruct (verify_provider _ _ _ _ _ _ _) as [[result|e] w1]; [|apply IH].
    destruct (res_matched result); [reflexivity | apply IH].
  - destruct (limit <=? made)%Z eqn:Hfull; [|apply IH].
    destruct (filter known rest) as [|n o]; simpl; [reflexivity|].
    now rewrite Hfull.
Qed.

End AnyService.

Lemma no_budget_no_request_witness :
  verify_candidates None VerifierFacts.orwell_catalogue
    (Some "1984") (Some "George Orwell") RecordFacts.no_limit
  = (no_match initial_world, initial_world).
Proof.
  apply no_budget_no_request; [discriminate | reflexivity].
Defined.

Lemma author_alone_witness :
  issued (snd (verify_candidates None VerifierFacts.orwell_catalogue
                 None (Some "George Orwell") default_settings)) = 0.
Proof.
  apply (author_alone_is_never_queried None VerifierFacts.orwell_catalogue
           (Some "George Orwell") None default_settings).
  reflexivity.
Defined.

(** The theorem at a call that matches: the canonical record comes from
    the volume of [VerifierFacts.orwell_catalogue], which Google Books
    served. *)
Lemma match_comes_from_a_served_hit_witness :
  exists h c,
    served VerifierFacts.orwell_catalogue google_books
      (Some "1984") (Some "George Orwell")
      (requests (snd (verify_candidates None VerifierFacts.orwell_catalogue
                        (Some "1984") (Some "George Orwell") default_settings)))
      h
    /\ make_canonical h = Ok c
    /\ canonical_title c = "1984"
    /\ canonical (fst (verify_candidates None VerifierFacts.orwell_catalogue
                         (Some "1984") (Some "George Orwell") default_settings))
       = Some c.
Proof.
  destruct (match_comes_from_a_served_hit None VerifierFacts.orwell_catalogue
              (Some "1984") (Some "George Orwell") default_settings)
    as (name & p & h & c & Hname & _ & Hp & Hs & Hmk & Hc).
  - vm_compute. reflexivity.
  - assert (Hgoogle : p = google_books).
    { vm_compute in Hname. injection Hname as <-. vm_compute in Hp.
      now injection Hp. }
    subst p. exists h, c. split; [exact Hs|]. split; [exact Hmk|].
    split; [|exact Hc].
    vm_compute in Hc. injection Hc as <-. reflexivity.
Defined.

(** A provider that raises is not counted.  Each service answers with a
    volume whose first author is [null]: the title alone gives the score
    0.6, the canonical record cannot be built, the provider raises after
    its query, and the orchestrator goes on with its budget untouched.
    With a budget of one query the call sends two requests and its log
    holds four entries. *)
Definition nameless_volume : json :=
  JDict [ ("volumeInfo", JDict [ ("title", JStr "Dune");
                                 ("authors", JList [JNull]) ]);
          ("title", JStr "Dune");
          ("author_name", JList [JNull]) ]%string.

Definition nameless_catalogue : nat -> Request -> HttpOutcome :=
  fun _ _ =>
    Response 200 (Done (JDict [ ("items", JList [nameless_volume]);
                                ("docs", JList [nameless_volume]) ]%string)).

Lemma raising_provider_is_not_counted :
  let '(v, w) := verify_candidates None nameless_catalogue
                   (Some "Dune"%string) (Some "Frank Herbert"%string)
                   VerifierFacts.one_query in
  issued w = 2
  /\ all_queries w
     = [ QueryLog "google_books" "Dune Frank Herbert" "strict";
         ErrorLog "google_books" ValidationError;
         QueryLog "open_library" "Dune Frank Herbert" "strict";
         ErrorLog "open_library" ValidationError ]%string
  /\ map hit_score (top_hits w) = [0.6; 0.6]%float
  /\ matched v = false.
Proof. vm_compute. repeat split. Qed.

End TrafficFacts.

(* ===================================================================== *)
(** * The parse endpoints ([routers/parse.py]) *)
(* ===================================================================== *)

Module Router.

Import Ranker Normalize Verifier.

(** The deployment settings the endpoints read ([settings.py]). *)
Record ServerSettings : Type := mkServerSettings {
  parser_max_lines : Z;
  parser_verify_default : bool;
  max_batch_size : Z
}.

(** Lines 36-41 of [parse]: the request settings (the defaults when the
    request has none) with the line limit capped by the deployment and the
    verify flag raised to the deployment default when it is off. *)
Definition effective_settings (request : option ParseSettings)
  (server : ServerSettings) : ParseSettings :=
  let s := match request with
           | Some s => s
           | None => default_settings
           end in
  {| conf_min_word := conf_min_word s;
     conf_min_line := conf_min_line s;
     max_lines_considered :=
       Z.min (max_lines_considered s) (parser_max_lines server);
     merge_adjacent_lines_flag := merge_adjacent_lines_flag s;
     junk_filter := junk_filter s;
     verify := if verify s then true else parser_verify_default server;
     verify_provider_order := verify_provider_order s;
     max_verify_queries := max_verify_queries s |}.

(** [Verification(attempted=False, matched=False)]. *)
Definition not_attempted : Verification :=
  {| attempted := false; matched := false; provider := None;
     match_confidence := None; canonical := None; notes := []; debug := None |}.

(** The fields of [ParseResponse] and [BatchItemResponse] that come from
    the pipeline (identifiers and timings are left out). *)
Record Parsed : Type := mkParsed {
  response_title : option string;
  response_author : option string;
  response_confidence : float;
  response_candidates : list Candidate * list Candidate;
  response_verification : Verification;
  response_warnings : list string
}.

(** What an endpoint makes of one OCR input: a response, or the failure
    it reports when the pipeline raised ([ParseError("parse_failed", 500)]
    for [parse], the placeholder item with [ranker="error"] and
    confidence 0.0 for [parse_batch]). *)
Inductive Outcome : Type :=
| Answer (r : Parsed)
| Failure (e : exn).

(** [x if x else None] on an optional text. *)
Definition non_empty (t : option string) : option string :=
  match t with
  | Some s => if Str.is_empty s then None else Some s
  | None => None
  end.

Section WithServices.

Variable rapidfuzz : option (string -> string -> float).
Variable http : nat -> Request -> HttpOutcome.

(** The verification step shared by both endpoints. *)
Definition verification_step (settings : ParseSettings) (ranked : RankResult)
  : Verification * World :=
  if verify settings
  then verify_candidates rapidfuzz http (title ranked) (author ranked) settings
  else (not_attempted, initial_world).

(** Lines 80-84 of [parse]: the boost of a verified result. *)
Definition boosted (confidence : float) (v : Verification) : float :=
  if matched v && truthy_opt (match_confidence v)
  then match match_confidence v with
       | Some c => py_min 1.0 (confidence + c * 0.3)%float
       | None => confidence
       end
  else confidence.

(** [parse]: one OCR input through the pipeline, with the state the
    verification leaves.  An exception of the normaliser or of the ranker
    ends in the handler of the endpoint. *)
Definition parse (server : ServerSettings) (ocr : OCRInput)
  (request : option ParseSettings) : Outcome * World :=
  let settings := effective_settings request server in
  match (records <- normalize_ocr ocr settings ;;
         rank_candidates records ocr settings) with
  | Raise e => (Failure e, initial_world)
  | Ok ranked =>
      let '(v, w) := verification_step settings ranked in
      (Answer {| response_title := non_empty (title ranked);
                 response_author := non_empty (author ranked);
                 response_confidence := boosted (confidence ranked) v;
                 response_candidates :=
                   (title_candidates ranked, author_candidates ranked);
                 response_verification := v;
                 response_warnings := warnings ranked |}, w)
  end.

(** One item of a batch: the settings are the item's, else the batch's,
    else the defaults, as they are; the confidence is the ranker's. *)
Definition parse_item (batch_settings : option ParseSettings)
  (item : OCRInput * option ParseSettings) : Outcome * World :=
  let '(ocr, item_settings) := item in
  let settings :=
    match item_settings, batch_settings with
    | Some s, _ => s
    | None, Some s => s
    | None, None => default_settings
    end in
  match (records <- normalize_ocr ocr settings ;;
         rank_candidates records ocr settings) with
  | Raise e => (Failure e, initial_world)
  | Ok ranked =>
      let '(v, w) := verification_step settings ranked in
      (Answer {| response_title := non_empty (title ranked);
                 response_author := non_empty (author ranked);
                 response_confidence := confidence ranked;
                 response_candidates :=
                   (title_candidates ranked, author_candidates ranked);
                 response_verification := v;
                 response_warnings := warnings ranked |}, w)
  end.

(** [parse_batch]: [None] is [ParseError("batch_too_large", 400)]. *)
Definition parse_batch (server : ServerSettings)
  (items : list (OCRInput * option ParseSettings))
  (batch_settings : option ParseSettings) : option (list Outcome) :=
  if (max_batch_size server <? Z.of_nat (List.length items))%Z then None
  else Some (map (fun item => fst (parse_item batch_settings item)) items).

End WithServices.

End Router.

(* ===================================================================== *)
(** * Properties of the parse endpoints *)
(* ===================================================================== *)

Module RouterFacts.

Import Ranker Normalize Verifier Router FloatOrder.

(** ** The line cap *)

(** When the request and the deployment both set a positive line limit,
    [parse] ranks at most [parser_max_lines] records. *)
Theorem line_cap_applies (server : ServerSettings) (ocr : OCRInput)
  (request : option ParseSettings) (records : list LineRecord) :
  (0 < max_lines_considered (effective_settings request server))%Z ->
  normalize_ocr ocr (effective_settings request server) = Ok records ->
  (Z.of_nat (List.length records) <= parser_max_lines server)%Z.
Proof.
  intros Hpos H.
  pose proof (NormalizeFacts.normalize_ocr_length _ _ _ H Hpos) as Hlen.
  simpl in *. lia.
Qed.

(** A deployment that reads two lines at most. *)
Definition short_reader : ServerSettings :=
  {| parser_max_lines := 2; parser_verify_default := true; max_batch_size := 25 |}.

Lemma line_cap_applies_witness :
  exists records,
    normalize_ocr MergeFacts.two_stacks (effective_settings None short_reader)
    = Ok records
    /\ map text records = ["The"; "Great"]
    /\ (Z.of_nat (List.length records) <= 2)%Z.
Proof.
  destruct (normalize_ocr MergeFacts.two_stacks
              (effective_settings None short_reader)) as [records|] eqn:E;
    [|vm_compute in E; discriminate].
  exists records. split; [reflexivity|]. split.
  - vm_compute in E. injection E as <-. reflexivity.
  - apply (line_cap_applies short_reader MergeFacts.two_stacks None records);
      [reflexivity | exact E].
Defined.

(** The cap is a minimum with the request's limit, and a limit of zero or
    less means no limit: a request that sets [max_lines_considered] to
    zero or less gets every record, whatever the deployment's cap. *)
Theorem line_cap_escaped (server : ServerSettings) (ocr : OCRInput)
  (s : ParseSettings) :
  (max_lines_considered s <= 0)%Z ->
  normalize_ocr ocr (effective_settings (Some s) server) = normalize_ocr ocr s.
Proof.
  intros Hnone. unfold normalize_ocr, effective_settings. simpl.
  replace (0 <? Z.min (max_lines_considered s) (parser_max_lines server))%Z
    with false by (symmetry; apply Z.ltb_ge; lia).
  replace (0 <? max_lines_considered s)%Z
    with false by (symmetry; apply Z.ltb_ge; lia).
  reflexivity.
Qed.

Lemma line_cap_escaped_witness :
  option_map (@List.length LineRecord)
    (match normalize_ocr MergeFacts.two_stacks
             (effective_settings (Some RecordFacts.no_limit) short_reader) with
     | Ok records => Some records
     | Raise _ => None
     end) = Some 4.
Proof.
  rewrite (line_cap_escaped short_reader MergeFacts.two_stacks RecordFacts.no_limit).
  - reflexivity.
  - discriminate.
Defined.

(** ** The verify flag *)

Section Services.

Variable rapidfuzz : option (string -> string -> float).
Variable http : nat -> Request -> HttpOutcome.

Lemma non_empty_present (t : option string) :
  non_empty t <> None -> present t = true.
Proof.
  destruct t as [s|]; simpl; [|now intros []].
  destruct (Str.is_empty s); [now intros [] | reflexivity].
Qed.

Lemma verify_candidates_attempted (title author : option string)
  (settings : ParseSettings) :
  present title || present author = true ->
  attempted (fst (verify_candidates rapidfuzz http title author settings)) = true.
Proof.
  intros Hp. unfold verify_candidates.
  replace (negb (present title) && negb (present author)) with false
    by (destruct (present title), (present author); simpl in *; congruence).
  now apply (TrafficFacts.try_providers_facts rapidfuzz http).
Qed.

(** On [parse], a request cannot switch verification off when the
    deployment default is on: whenever the response has a title or an
    author, its verification was attempted, whatever the request's
    [verify] flag says. *)
Theorem parse_verifies_by_default (server : ServerSettings) (ocr : OCRInput)
  (request : option ParseSettings) (r : Parsed) (w : World) :
  parser_verify_default server = true ->
  parse rapidfuzz http server ocr request = (Answer r, w) ->
  response_title r <> None \/ response_author r <> None ->
  attempted (response_verification r) = true.
Proof.
  intros Hdef. unfold parse.
  destruct (records <- normalize_ocr ocr _ ;; rank_candidates records ocr _)
    as [ranked|]; [|discriminate].
  unfold verification_step.
  assert (Hv : verify (effective_settings request server) = true).
  { simpl. rewrite Hdef. now destruct (verify _). }
  rewrite Hv.
  pose proof (verify_candidates_attempted (title ranked) (author ranked)
                (effective_settings request server)) as Hatt.
  destruct (verify_candidates _ _ _ _ _) as [v w1].
  intros [= <- <-]. simpl. intros Hsome. apply Hatt.
  destruct Hsome as [H|H]; apply non_empty_present in H; rewrite H;
    [reflexivity | apply orb_true_r].
Qed.

(** On [parse_batch] the flag is taken as it is: an item whose settings
    say [verify = false] is not verified, and nothing is sent for it. *)
Theorem batch_item_not_verified (batch_settings : option ParseSettings)
  (ocr : OCRInput) (s : ParseSettings) (r : Parsed) (w : World) :
  verify s = false ->
  parse_item rapidfuzz http batch_settings (ocr, Some s) = (Answer r, w) ->
  response_verification r = not_attempted /\ w = initial_world.
Proof.
  intros Hoff. unfold parse_item, verification_step. rewrite Hoff.
  destruct (records <- normalize_ocr ocr s ;; rank_candidates records ocr s)
    as [ranked|]; [|discriminate].
  intros [= <- <-]. now split.
Qed.

(** ** The confidence of a verified response *)

Lemma at_least_06_nonzero (c : float) : ge c 0.6 = true -> truthy c = true.
Proof.
  unfold ge, truthy. intros H.
  destruct (PrimFloat.eqb c 0) eqn:E; [exfalso | reflexivity].
  apply leb_where in H. destruct H as (a & b & Ha & Hb & Hab).
  rewrite FloatAxioms.eqb_spec in E. unfold SFeqb in E.
  rewrite SFcompare_place in E. unfold where_ in Hb. rewrite Hb in E.
  assert (H0 : place (Prim2SF 0) = Some (0, 0, 0)%Z) by (vm_compute; reflexivity).
  rewrite H0 in E.
  assert (Hb0 : b = (0, 0, 0)%Z).
  { pose proof (lex3_cases b (0, 0, 0)%Z) as C. destruct b as [[b1 b2] b3].
    destruct C as [[C _]|[[_ C]|[C _]]]; [rewrite C in E; discriminate
                                         | exact C | rewrite C in E; discriminate]. }
  subst b. vm_compute in Ha. injection Ha as <-.
  apply Hab. vm_compute. reflexivity.
Qed.

Lemma py_min_one (x : float) : PrimFloat.leb (py_min 1 x) 1 = true.
Proof.
  unfold py_min. destruct (PrimFloat.ltb x 1) eqn:E;
    [now apply ltb_leb | reflexivity].
Qed.

(** The confidence [parse] reports with a matched verification is at most
    1: a match carries a confidence of at least 0.6, so the boost, capped
    at 1.0, is always applied to it. *)
Theorem verified_confidence_at_most_one (server : ServerSettings)
  (ocr : OCRInput) (request : option ParseSettings) (r : Parsed) (w : World) :
  parse rapidfuzz http server ocr request = (Answer r, w) ->
  matched (response_verification r) = true ->
  PrimFloat.leb (response_confidence r) 1 = true.
Proof.
  unfold parse.
  destruct (records <- normalize_ocr ocr _ ;; rank_candidates records ocr _)
    as [ranked|]; [|discriminate].
  unfold verification_step.
  destruct (verify (effective_settings request server)).
  - pose proof (VerifierFacts.try_providers_sound rapidfuzz http
                  (title ranked) (author ranked)) as Hsound.
    unfold verify_candidates.
    destruct (negb (present (title ranked)) && negb (present (author ranked))).
    { intros [= <- <-]. discriminate. }
    match goal with
    | |- context [try_providers _ _ _ _ ?m ?o 0%Z initial_world] =>
        specialize (Hsound m o 0%Z initial_world);
        destruct (try_providers rapidfuzz http (title ranked) (author ranked)
                    m o 0%Z initial_world) as [v w1]
    end.
    intros [= <- <-]. simpl. intros Hm.
    destruct (Hsound Hm) as (record & sc & _ & Hsc & Hge).
    simpl in Hsc. unfold boosted. rewrite Hm, Hsc. simpl.
    rewrite (at_least_06_nonzero _ Hge). apply py_min_one.
  - intros [= <- <-]. discriminate.
Qed.

(** ** Failures *)

(** The size of the image, when there is one, is below the first integer
    that has no float. *)
Definition image_fits (ocr : OCRInput) : Prop :=
  match image ocr with
  | Some im =>
      (image_width im < 2 ^ 1024 - 2 ^ 970)%Z
      /\ (image_height im < 2 ^ 1024 - 2 ^ 970)%Z
  | None => True
  end.

Lemma normalized_returns (centre : float) (size : Z) :
  (size < 2 ^ 1024 - 2 ^ 970)%Z -> exists c, normalized centre size = Ok c.
Proof.
  intros Hfit. unfold normalized, float_of_Z.
  destruct (0 <? size)%Z eqn:Hpos; [|now eexists].
  apply Z.ltb_lt in Hpos.
  replace (Z.abs size <? 2 ^ 1024 - 2 ^ 970)%Z with true.
  - cbn [bind]. now eexists.
  - symmetry. apply Z.ltb_lt. rewrite Z.abs_eq; [exact Hfit|].
    apply Z.lt_le_incl. exact Hpos.
Qed.

Lemma normalize_line_returns (w h : Z) (line : Line) :
  (w < 2 ^ 1024 - 2 ^ 970)%Z -> (h < 2 ^ 1024 - 2 ^ 970)%Z ->
  exists made, normalize_line w h line = Ok made.
Proof.
  intros Hw Hh. unfold normalize_line.
  destruct (Str.is_empty _ || Str.is_empty _); [now eexists|].
  destruct (line_bbox line) as [|x1 [|y1 [|x2 [|y2 more]]]]; try now eexists.
  destruct (normalized_returns ((x1 + x2) / 2)%float w Hw) as [cx ->].
  destruct (normalized_returns ((y1 + y2) / 2)%float h Hh) as [cy ->].
  cbn [bind]. now eexists.
Qed.

(** [normalize_ocr] raises on no input whose image size fits a float. *)
Lemma normalize_ocr_returns (ocr : OCRInput) (settings : ParseSettings) :
  image_fits ocr -> exists records, normalize_ocr ocr settings = Ok records.
Proof.
  intros Hfit. unfold normalize_ocr.
  set (w := match image ocr with Some im => image_width im | None => 1000%Z end).
  set (h := match image ocr with Some im => image_height im | None => 1000%Z end).
  assert (Hw : (w < 2 ^ 1024 - 2 ^ 970)%Z /\ (h < 2 ^ 1024 - 2 ^ 970)%Z).
  { unfold w, h, image_fits in *. destruct (image ocr) as [im|]; [exact Hfit|].
    split; reflexivity. }
  destruct Hw as [Hw Hh].
  destruct (Totality.map_res_total (normalize_line w h) (all_lines ocr))
    as [made ->].
  { apply Forall_forall. intros line _. now apply normalize_line_returns. }
  cbn [bind]. destruct (0 <? max_lines_considered settings)%Z; now eexists.
Qed.

Lemma normalize_ocr_four (ocr : OCRInput) (settings : ParseSettings)
  (records : list LineRecord) :
  Forall (fun l => List.length (line_bbox l) = 4) (all_lines ocr) ->
  normalize_ocr ocr settings = Ok records ->
  Forall (fun r => List.length (bbox r) = 4) records.
Proof.
  intros Hfour.
  apply (NormalizeFacts.normalize_ocr_records_of
           (fun l => List.length (line_bbox l) = 4)
           (fun r => List.length (bbox r) = 4)); [|exact Hfour].
  intros w h line r Hl E.
  destruct (RecordFacts.normalize_line_inv _ _ _ _ E)
    as (_ & _ & _ & _ & _ & _ & _ & ->). exact Hl.
Qed.

(** [parse] answers every OCR input whose line boxes have four
    coordinates each (what the input model allows) and whose image size,
    if it has one, fits a float: the pipeline does not raise on it, so the
    endpoint never reports [parse_failed], whatever the settings and
    whatever the services answer. *)
Theorem parse_answers (server : ServerSettings) (ocr : OCRInput)
  (request : option ParseSettings) :
  Forall (fun l => List.length (line_bbox l) = 4) (all_lines ocr) ->
  image_fits ocr ->
  exists r w, parse rapidfuzz http server ocr request = (Answer r, w).
Proof.
  intros Hfour Hfit. unfold parse.
  destruct (normalize_ocr_returns ocr (effective_settings request server) Hfit)
    as [records Hrecords].
  rewrite Hrecords. cbn [bind].
  destruct (Totality.rank_candidates_total records ocr
              (effective_settings request server)
              (normalize_ocr_four _ _ _ Hfour Hrecords)) as [ranked ->].
  destruct (verification_step _ _ _ _) as [v w]. eexists _, _. reflexivity.
Qed.

End Services.

(** Beyond that size the normaliser raises, and [parse] reports the
    failure. *)
Definition oversized : OCRInput :=
  {| image := Some {| image_width := 2 ^ 1024; image_height := 1500 |};
     chunks := chunks NormalizeFacts.three_lines |}.

Lemma oversized_image_fails :
  normalize_ocr oversized default_settings = Raise OverflowError
  /\ fst (parse None VerifierFacts.all_time_out short_reader oversized None)
     = Failure OverflowError.
Proof. split; vm_compute; reflexivity. Qed.

Lemma parse_verifies_by_default_witness :
  exists r w,
    parse None VerifierFacts.all_time_out short_reader
      RankFacts.title_printed_twice (Some RecordFacts.no_limit) = (Answer r, w)
    /\ verify RecordFacts.no_limit = false
    /\ attempted (response_verification r) = true.
Proof.
  destruct (parse None VerifierFacts.all_time_out short_reader
              RankFacts.title_printed_twice (Some RecordFacts.no_limit))
    as [[r|e] w] eqn:E; [|vm_compute in E; discriminate].
  exists r, w. split; [reflexivity|]. split; [reflexivity|].
  apply (parse_verifies_by_default None VerifierFacts.all_time_out short_reader
           RankFacts.title_printed_twice (Some RecordFacts.no_limit) r w);
    [reflexivity | exact E |].
  left. vm_compute in E. injection E as <- _. discriminate.
Defined.

Lemma batch_item_not_verified_witness :
  exists r,
    parse_item None VerifierFacts.orwell_catalogue None
      (RankFacts.title_printed_twice, Some RecordFacts.no_limit)
    = (Answer r, initial_world)
    /\ response_verification r = not_attempted.
Proof.
  destruct (parse_item None VerifierFacts.orwell_catalogue None
              (RankFacts.title_printed_twice, Some RecordFacts.no_limit))
    as [[r|e] w] eqn:E; [|vm_compute in E; discriminate].
  destruct (batch_item_not_verified None VerifierFacts.orwell_catalogue None
              RankFacts.title_printed_twice RecordFacts.no_limit r w
              eq_refl E) as [Hv ->].
  exists r. now split.
Defined.

(** A cover whose lines are what [orwell_catalogue] knows. *)
Definition orwell_cover : OCRInput :=
  RankFacts.cover
    [ RankFacts.cover_line [100; 300; 900; 600]%float (Some 95%float) "1984";
      RankFacts.cover_line [300; 1200; 700; 1300]%float (Some 90%float)
        "by George Orwell" ].

Lemma verified_confidence_witness :
  exists r w,
    parse None VerifierFacts.orwell_catalogue short_reader orwell_cover None
    = (Answer r, w)
    /\ matched (response_verification r) = true
    /\ PrimFloat.leb (response_confidence r) 1 = true.
Proof.
  destruct (parse None VerifierFacts.orwell_catalogue short_reader orwell_cover None)
    as [[r|e] w] eqn:E; [|vm_compute in E; discriminate].
  assert (Hm : matched (response_verification r) = true).
  { vm_compute in E. injection E as <- _. reflexivity. }
  exists r, w. split; [reflexivity|]. split; [exact Hm|].
  exact (verified_confidence_at_most_one None VerifierFacts.orwell_catalogue
           short_reader orwell_cover None r w E Hm).
Defined.

Lemma parse_answers_witness :
  exists r w,
    parse None VerifierFacts.all_time_out short_reader
      RankFacts.overlapping_cover None = (Answer r, w).
Proof.
  apply parse_answers.
  - repeat constructor.
  - split; reflexivity.
Defined.

End RouterFacts.
